(** * The realtime middle tier (app/backend/rtmt.py)

    A shallow embedding of [RTMiddleTier]: the two message transformers
    [_process_message_to_client] and [_process_message_to_server], the
    pending tool-call table they drive, and the two forwarding pumps of
    [_forward_messages].

    Python values are embedded as JSON trees, dictionaries as
    insertion-ordered association lists, exceptions as an explicit outcome,
    and the sockets as logs of the text frames written to them. *)

From Stdlib Require Import List String Ascii ZArith Bool Lia.
From Stdlib Require Import SpecFloat DecimalString.
Import ListNotations.
Local Open Scope string_scope.

(** ** Python values *)

(** What [json.loads] produces: [None], [bool], [int], [float] (an IEEE
    binary64, kept exactly), [str], [list] and [dict] with string keys in
    insertion order. *)
#[local] Unset Elimination Schemes.
Inductive json : Type :=
| JNull
| JBool (b : bool)
| JInt (z : Z)
| JFloat (f : spec_float)
| JStr (s : string)
| JArr (l : list json)
| JObj (d : list (string * json)).
#[local] Set Elimination Schemes.

(** The exceptions the transformers can raise.  [ToolFault] stands for
    whatever a tool handler raises. *)
Inductive exn : Type :=
| KeyError
| TypeError
| IndexError
| JSONDecodeError
| ToolFault (what : string).

Inductive outcome (A : Type) : Type :=
| Returns (a : A)
| Raises (e : exn).
Arguments Returns {A} a.
Arguments Raises {A} e.

Definition obind {A B : Type} (m : outcome A) (k : A -> outcome B) : outcome B :=
  match m with
  | Returns a => k a
  | Raises e => Raises e
  end.

Declare Scope outcome_scope.
Delimit Scope outcome_scope with outcome.
Notation "x <~ m ;; k" := (obind m (fun x => k))
  (at level 61, m at next level, right associativity) : outcome_scope.
Notation "' p <~ m ;; k" := (obind m (fun x => let 'p := x in k))
  (at level 61, p pattern, m at next level, right associativity) : outcome_scope.

(** The [json] module, an external collaborator: [json_loads] is [None]
    where [json.loads] raises [JSONDecodeError]. *)
Class JsonCodec : Type := {
  json_loads : string -> option json;
  json_dumps : json -> string
}.

Module Py.

(** [v == "s"] for a string literal. *)
Definition eq_str (v : json) (s : string) : bool :=
  match v with
  | JStr t => String.eqb t s
  | _ => false
  end.

(** Dictionary lookup, first binding of the key. *)
Fixpoint dict_get (k : string) (d : list (string * json)) : option json :=
  match d with
  | [] => None
  | (k', v) :: d' => if String.eqb k' k then Some v else dict_get k d'
  end.

(** [d[k] = v]: an existing key keeps its place, a new one goes last. *)
Fixpoint dict_set (k : string) (v : json) (d : list (string * json))
  : list (string * json) :=
  match d with
  | [] => [(k, v)]
  | (k', v') :: d' =>
      if String.eqb k' k then (k', v) :: d' else (k', v') :: dict_set k v d'
  end.

(** [v[k]] with a string subscript. *)
Definition getitem (v : json) (k : string) : outcome json :=
  match v with
  | JObj d =>
      match dict_get k d with
      | Some x => Returns x
      | None => Raises KeyError
      end
  | _ => Raises TypeError
  end.

(** [v[k] = x] with a string subscript. *)
Definition setitem (v : json) (k : string) (x : json) : outcome json :=
  match v with
  | JObj d => Returns (JObj (dict_set k x d))
  | _ => Raises TypeError
  end.

(** [k in v] for a string [k]: key of a dict, element of a list,
    substring of a string. *)
Definition contains (k : string) (v : json) : outcome bool :=
  match v with
  | JObj d =>
      Returns (match dict_get k d with Some _ => true | None => false end)
  | JArr l => Returns (existsb (fun x => eq_str x k) l)
  | JStr s =>
      Returns (match String.index 0 k s with Some _ => true | None => false end)
  | _ => Raises TypeError
  end.

(** [x = v[k]] followed by in-place mutation of [x] by [f]: [v] sees the
    change, since [x] is the very object stored under [k]. *)
Definition with_item {A : Type} (v : json) (k : string)
    (f : json -> outcome (json * A)) : outcome (json * A) :=
  (x <~ getitem v k ;;
   '(x', a) <~ f x ;;
   v' <~ setitem v k x' ;;
   Returns (v', a))%outcome.

(** [l.pop(i)] for [0 <= i]. *)
Fixpoint list_pop (i : nat) (l : list json) : outcome (list json) :=
  match l, i with
  | [], _ => Raises IndexError
  | _ :: l', O => Returns l'
  | x :: l', S i' =>
      match list_pop i' l' with
      | Returns r => Returns (x :: r)
      | Raises e => Raises e
      end
  end.

(** Only scalars hash; a list or dict used as a dictionary key raises. *)
Definition hashable (v : json) : bool :=
  match v with
  | JArr _ | JObj _ => false
  | _ => true
  end.

(** A finite number as an exact dyadic [m * 2^e]; [True] is [1]. *)
Definition number (v : json) : option (Z * Z) :=
  match v with
  | JBool b => Some (if b then 1%Z else 0%Z, 0%Z)
  | JInt z => Some (z, 0%Z)
  | JFloat (S754_zero _) => Some (0%Z, 0%Z)
  | JFloat (S754_finite s m e) => Some (if s then Z.neg m else Z.pos m, e)
  | _ => None
  end.

Definition dyadic_eqb (x y : Z * Z) : bool :=
  let '(m1, e1) := x in
  let '(m2, e2) := y in
  let e := Z.min e1 e2 in
  (m1 * 2 ^ (e1 - e) =? m2 * 2 ^ (e2 - e))%Z.

(** Equality of two hashable keys: strings by content, numbers by value
    ([1 == 1.0 == True]), [None] with itself, NaN with nothing. *)
Definition key_eqb (a b : json) : bool :=
  match a, b with
  | JNull, JNull => true
  | JStr s, JStr t => String.eqb s t
  | JFloat (S754_infinity s), JFloat (S754_infinity t) => Bool.eqb s t
  | _, _ =>
      match number a, number b with
      | Some x, Some y => dyadic_eqb x y
      | _, _ => false
      end
  end.

(** An optional string attribute as a Python value. *)
Definition of_opt_str (o : option string) : json :=
  match o with
  | Some s => JStr s
  | None => JNull
  end.

End Py.

(** ** The classes of rtmt.py *)

Inductive ToolResultDirection : Type :=
| TO_SERVER
| TO_CLIENT.

Definition ToolResultDirection_eqb (a b : ToolResultDirection) : bool :=
  match a, b with
  | TO_SERVER, TO_SERVER | TO_CLIENT, TO_CLIENT => true
  | _, _ => false
  end.

(** [text] is annotated [str] but handlers also pass lists and dicts (and
    [to_text] tests for [None]), so it is any Python value. *)
Record ToolResult : Type := {
  text : json;
  destination : ToolResultDirection
}.

Definition to_text {codec : JsonCodec} (r : ToolResult) : string :=
  match text r with
  | JNull => ""
  | JStr s => s
  | other => json_dumps other
  end.

(** [target] is the awaited handler: on the parsed arguments it returns a
    [ToolResult] or raises. *)
Record Tool : Type := {
  target : json -> outcome ToolResult;
  schema : json
}.

Record RTToolCall : Type := {
  tool_call_id : json;
  previous_id : json
}.

(** The attributes of [RTMiddleTier] the transformers read.  [tools] is a
    dict, kept in registration order. *)
Record RTMiddleTier : Type := {
  tools : list (string * Tool);
  system_message : option string;
  temperature : option spec_float;
  max_tokens : option Z;
  disable_audio : option bool;
  voice_choice : option string
}.

(** [self.tools[name]] *)
Fixpoint tools_find (name : string) (ts : list (string * Tool)) : option Tool :=
  match ts with
  | [] => None
  | (n, t) :: ts' => if String.eqb n name then Some t else tools_find name ts'
  end.

Definition tools_getitem (ts : list (string * Tool)) (name : json) : outcome Tool :=
  match name with
  | JStr n =>
      match tools_find n ts with
      | Some t => Returns t
      | None => Raises KeyError
      end
  | JArr _ | JObj _ => Raises TypeError
  | _ => Raises KeyError
  end.

(** ** The pending tool-call table [_tools_pending] *)

Definition pending_table : Type := list (json * RTToolCall).

Fixpoint pending_find (k : json) (p : pending_table) : option RTToolCall :=
  match p with
  | [] => None
  | (k', c) :: p' => if Py.key_eqb k' k then Some c else pending_find k p'
  end.

(** [k in self._tools_pending] *)
Definition pending_contains (k : json) (p : pending_table) : outcome bool :=
  if Py.hashable k
  then Returns (match pending_find k p with Some _ => true | None => false end)
  else Raises TypeError.

(** [self._tools_pending[k]] *)
Definition pending_getitem (p : pending_table) (k : json) : outcome RTToolCall :=
  if Py.hashable k
  then match pending_find k p with
       | Some c => Returns c
       | None => Raises KeyError
       end
  else Raises TypeError.

(** [self._tools_pending[k] = c] *)
Fixpoint pending_set (k : json) (c : RTToolCall) (p : pending_table) : pending_table :=
  match p with
  | [] => [(k, c)]
  | (k', c') :: p' =>
      if Py.key_eqb k' k then (k', c) :: p' else (k', c') :: pending_set k c p'
  end.

(** ** Effects

    What a transformer can touch besides its arguments: the shared
    [_tools_pending] table and the two sockets, each recorded as the list
    of text frames written to it so far.  A raised exception keeps the
    effects that happened before it. *)
Record relay_state : Type := {
  _tools_pending : pending_table;
  server_ws : list string;
  client_ws : list string
}.

Definition Relay (A : Type) : Type := relay_state -> outcome A * relay_state.

Definition ret {A : Type} (a : A) : Relay A := fun st => (Returns a, st).

Definition bind {A B : Type} (m : Relay A) (k : A -> Relay B) : Relay B :=
  fun st =>
    match m st with
    | (Returns a, st') => k a st'
    | (Raises e, st') => (Raises e, st')
    end.

Definition lift {A : Type} (o : outcome A) : Relay A := fun st => (o, st).

Declare Scope relay_scope.
Delimit Scope relay_scope with relay.
Notation "x <- m ;; k" := (bind m (fun x => k))
  (at level 61, m at next level, right associativity) : relay_scope.
Notation "m ;; k" := (bind m (fun _ => k))
  (at level 61, right associativity) : relay_scope.

Definition get_pending : Relay pending_table :=
  fun st => (Returns (_tools_pending st), st).

Definition put_pending (p : pending_table) : Relay unit :=
  fun st => (Returns tt,
             {| _tools_pending := p;
                server_ws := server_ws st;
                client_ws := client_ws st |}).

(** [await server_ws.send_str(s)] *)
Definition server_send_str (s : string) : Relay unit :=
  fun st => (Returns tt,
             {| _tools_pending := _tools_pending st;
                server_ws := server_ws st ++ [s];
                client_ws := client_ws st |}).

(** [await client_ws.send_str(s)] *)
Definition client_send_str (s : string) : Relay unit :=
  fun st => (Returns tt,
             {| _tools_pending := _tools_pending st;
                server_ws := server_ws st;
                client_ws := client_ws st ++ [s] |}).

(** [await ws.send_json(data)] is [send_str(json.dumps(data))]. *)
Definition server_send_json {codec : JsonCodec} (data : json) : Relay unit :=
  server_send_str (json_dumps data).

Definition client_send_json {codec : JsonCodec} (data : json) : Relay unit :=
  client_send_str (json_dumps data).

(** [json.loads(s)] on a string. *)
Definition loads {codec : JsonCodec} (s : string) : outcome json :=
  match json_loads s with
  | Some v => Returns v
  | None => Raises JSONDecodeError
  end.

(** [json.loads(v)] on a Python value: only text is accepted. *)
Definition loads_value {codec : JsonCodec} (v : json) : outcome json :=
  match v with
  | JStr s => loads s
  | _ => Raises TypeError
  end.

(** ** Upstream to client: [_process_message_to_client] *)

(** ["item" in message and message["item"]["type"] == kind] *)
Definition item_type_is (message : json) (kind : string) : outcome bool :=
  (has <~ Py.contains "item" message ;;
   if has : bool then
     item <~ Py.getitem message "item" ;;
     ty <~ Py.getitem item "type" ;;
     Returns (Py.eq_str ty kind)
   else Returns false)%outcome.

(** The body of the [session.created] case, on [session = message["session"]]. *)
Definition redact_session (self : RTMiddleTier) (session : json) : outcome (json * unit) :=
  (session <~ Py.setitem session "instructions" (JStr "") ;;
   session <~ Py.setitem session "tools" (JArr []) ;;
   session <~ Py.setitem session "voice" (Py.of_opt_str (voice_choice self)) ;;
   session <~ Py.setitem session "tool_choice" (JStr "none") ;;
   session <~ Py.setitem session "max_response_output_tokens" JNull ;;
   Returns (session, tt))%outcome.

(** The loop
    [for i, output in enumerate(reversed(out)): if output["type"] == "function_call": out.pop(i)]
    on the list [out].  The reverse iterator holds an index into the live
    list, [n - 1] when [n] steps remain, and stops once that index is out
    of range; [i] counts the steps taken. *)
Fixpoint pop_loop (n i : nat) (out : list json) (replace : bool)
  : outcome (list json * bool) :=
  match n with
  | O => Returns (out, replace)
  | S idx =>
      match nth_error out idx with
      | None => Returns (out, replace)
      | Some output =>
          (ty <~ Py.getitem output "type" ;;
           if Py.eq_str ty "function_call" then
             out' <~ Py.list_pop i out ;;
             pop_loop idx (S i) out' true
           else pop_loop idx (S i) out replace)%outcome
      end
  end.

(** The same loop on whatever [message["response"]["output"]] holds:
    [reversed] also accepts a dict or a string, whose elements are strings
    and fail at [output["type"]]. *)
Definition strip_function_calls (output : json) : outcome (json * bool) :=
  match output with
  | JArr out =>
      ('(out', replace) <~ pop_loop (List.length out) 0 out false ;;
       Returns (JArr out', replace))%outcome
  | JObj [] => Returns (output, false)
  | JStr EmptyString => Returns (output, false)
  | _ => Raises TypeError
  end.

(** The [output_item.done] case for a function call. *)
Definition dispatch_tool {codec : JsonCodec} (self : RTMiddleTier) (message : json)
  : Relay (option string) :=
  (item <- lift (Py.getitem message "item") ;;
   call_id <- lift (Py.getitem item "call_id") ;;
   pending <- get_pending ;;
   tool_call <- lift (pending_getitem pending call_id) ;;
   name <- lift (Py.getitem item "name") ;;
   tool <- lift (tools_getitem (tools self) name) ;;
   args <- lift (Py.getitem item "arguments") ;;
   parsed <- lift (loads_value args) ;;
   result <- lift (target tool parsed) ;;
   call_id' <- lift (Py.getitem item "call_id") ;;
   server_send_json
     (JObj [("type", JStr "conversation.item.create");
            ("item", JObj [("type", JStr "function_call_output");
                           ("call_id", call_id');
                           ("output",
                            JStr (if ToolResultDirection_eqb (destination result) TO_SERVER
                                  then to_text result else ""))])]) ;;
   (if ToolResultDirection_eqb (destination result) TO_CLIENT then
      name' <- lift (Py.getitem item "name") ;;
      client_send_json
        (JObj [("type", JStr "extension.middle_tier_tool_response");
               ("previous_item_id", previous_id tool_call);
               ("tool_name", name');
               ("tool_result", JStr (to_text result))])
    else ret tt) ;;
   ret None)%relay.

(** The [conversation.item.created] case for a function call. *)
Definition register_tool_call (message : json) : Relay (option string) :=
  (item <- lift (Py.getitem message "item") ;;
   call_id <- lift (Py.getitem item "call_id") ;;
   pending <- get_pending ;;
   known <- lift (pending_contains call_id pending) ;;
   (if known : bool then ret tt
    else
      call_id' <- lift (Py.getitem item "call_id") ;;
      previous <- lift (Py.getitem message "previous_item_id") ;;
      put_pending
        (pending_set call_id
           {| tool_call_id := call_id'; previous_id := previous |} pending)) ;;
   ret None)%relay.

(** The [response.done] case. *)
Definition conclude_response {codec : JsonCodec} (message : json) (msg_data : string)
  : Relay (option string) :=
  (pending <- get_pending ;;
   (if (0 <? List.length pending)%nat then
      put_pending [] ;;
      server_send_json (JObj [("type", JStr "response.create")])
    else ret tt) ;;
   has <- lift (Py.contains "response" message) ;;
   if has : bool then
     r <- lift (Py.with_item message "response"
                  (fun response =>
                     Py.with_item response "output" strip_function_calls)) ;;
     if snd r : bool then ret (Some (json_dumps (fst r))) else ret (Some msg_data)
   else ret (Some msg_data))%relay.

(** The [match message["type"]] statement of [_process_message_to_client]. *)
Definition match_type_to_client {codec : JsonCodec} (self : RTMiddleTier)
    (ty message : json) (msg_data : string) : Relay (option string) :=
  (if Py.eq_str ty "session.created" then
     r <- lift (Py.with_item message "session" (redact_session self)) ;;
     ret (Some (json_dumps (fst r)))
   else if Py.eq_str ty "response.output_item.added" then
     fc <- lift (item_type_is message "function_call") ;;
     if fc : bool then ret None else ret (Some msg_data)
   else if Py.eq_str ty "conversation.item.created" then
     fc <- lift (item_type_is message "function_call") ;;
     if fc : bool then register_tool_call message
     else
       fco <- lift (item_type_is message "function_call_output") ;;
       if fco : bool then ret None else ret (Some msg_data)
   else if Py.eq_str ty "response.function_call_arguments.delta" then
     ret None
   else if Py.eq_str ty "response.function_call_arguments.done" then
     ret None
   else if Py.eq_str ty "response.output_item.done" then
     fc <- lift (item_type_is message "function_call") ;;
     if fc : bool then dispatch_tool self message else ret (Some msg_data)
   else if Py.eq_str ty "response.done" then
     conclude_response message msg_data
   else ret (Some msg_data))%relay.

Definition _process_message_to_client {codec : JsonCodec} (self : RTMiddleTier)
    (msg_data : string) : Relay (option string) :=
  (message <- lift (loads msg_data) ;;
   match message with
   | JNull => ret (Some msg_data)
   | _ =>
     ty <- lift (Py.getitem message "type") ;;
     match_type_to_client self ty message msg_data
   end)%relay.

(** ** Client to upstream: [_process_message_to_server] *)

Definition set_if_not_none (session : json) (k : string) (server_value : option json)
  : outcome json :=
  match server_value with
  | Some v => Py.setitem session k v
  | None => Returns session
  end.

(** The body of the [session.update] case, on [session = message["session"]]. *)
Definition enforce_session (self : RTMiddleTier) (session : json) : outcome (json * unit) :=
  (session <~ set_if_not_none session "instructions"
                (option_map JStr (system_message self)) ;;
   session <~ set_if_not_none session "temperature"
                (option_map JFloat (temperature self)) ;;
   session <~ set_if_not_none session "max_response_output_tokens"
                (option_map JInt (max_tokens self)) ;;
   session <~ set_if_not_none session "disable_audio"
                (option_map JBool (disable_audio self)) ;;
   session <~ set_if_not_none session "voice"
                (option_map JStr (voice_choice self)) ;;
   session <~ Py.setitem session "tool_choice"
                (JStr (if (0 <? List.length (tools self))%nat then "auto" else "none")) ;;
   session <~ Py.setitem session "tools"
                (JArr (map (fun t => schema (snd t)) (tools self))) ;;
   Returns (session, tt))%outcome.

Definition _process_message_to_server {codec : JsonCodec} (self : RTMiddleTier)
    (msg_data : string) : Relay (option string) :=
  (message <- lift (loads msg_data) ;;
   match message with
   | JNull => ret (Some msg_data)
   | _ =>
     ty <- lift (Py.getitem message "type") ;;
     if Py.eq_str ty "session.update" then
       r <- lift (Py.with_item message "session" (enforce_session self)) ;;
       ret (Some (json_dumps (fst r)))
     else ret (Some msg_data)
   end)%relay.

(** ** The pumps of [_forward_messages] *)

(** A frame read from a socket: [msg.type] is [aiohttp.WSMsgType.TEXT] with
    its [msg.data], or anything else. *)
Inductive WSMessage : Type :=
| TEXT (data : string)
| NOT_TEXT.

(** [from_server_to_client] over the frames the upstream socket delivers.
    An exception ends the pump where it is raised. *)
Fixpoint from_server_to_client {codec : JsonCodec} (self : RTMiddleTier)
    (target_ws : list WSMessage) : Relay unit :=
  match target_ws with
  | [] => ret tt
  | TEXT data :: rest =>
      (new_msg <- _process_message_to_client self data ;;
       match new_msg with
       | Some s => client_send_str s
       | None => ret tt
       end ;;
       from_server_to_client self rest)%relay
  | NOT_TEXT :: rest => from_server_to_client self rest
  end.

(** [from_client_to_server] over the frames the client socket delivers;
    closing the upstream socket at the end of the stream is not recorded. *)
Fixpoint from_client_to_server {codec : JsonCodec} (self : RTMiddleTier)
    (ws : list WSMessage) : Relay unit :=
  match ws with
  | [] => ret tt
  | TEXT data :: rest =>
      (new_msg <- _process_message_to_server self data ;;
       match new_msg with
       | Some s => server_send_str s
       | None => ret tt
       end ;;
       from_client_to_server self rest)%relay
  | NOT_TEXT :: rest => from_client_to_server self rest
  end.

(** ** The search tool of ragtools.py *)

Definition _search_tool_schema : json :=
  JObj [("type", JStr "function");
        ("name", JStr "search");
        ("description",
         JStr ("Search the knowledge base. The knowledge base is in Italian, translate to and from Italian if "
               ++ "needed. Results are formatted as a source name first in square brackets, followed by the text "
               ++ "content, and a line with '-----' at the end of each result."));
        ("parameters",
         JObj [("type", JStr "object");
               ("properties",
                JObj [("query", JObj [("type", JStr "string");
                                      ("description", JStr "Search query")])]);
               ("required", JArr [JStr "query"]);
               ("additionalProperties", JBool false)])].

(** [_MAIZE_search_tool], with the orchestrator behind it standing as the
    passages [retrieved] it answers with: the handler reads
    [args['query']] and returns the passages for the model. *)
Definition _MAIZE_search_tool (retrieved : list string) (args : json)
  : outcome ToolResult :=
  (_ <~ Py.getitem args "query" ;;
   Returns {| text := JArr (map JStr retrieved); destination := TO_SERVER |})%outcome.

(** [attach_rag_tools]: [rtmt.tools["search"] = Tool(...)] on the tools
    registered so far. *)
Fixpoint tools_set (name : string) (t : Tool) (ts : list (string * Tool))
  : list (string * Tool) :=
  match ts with
  | [] => [(name, t)]
  | (n, t') :: ts' =>
      if String.eqb n name then (n, t) :: ts' else (n, t') :: tools_set name t ts'
  end.

Definition attach_rag_tools (retrieved : list string) (rtmt : RTMiddleTier)
  : RTMiddleTier :=
  {| tools := tools_set "search"
                {| target := _MAIZE_search_tool retrieved;
                   schema := _search_tool_schema |}
                (tools rtmt);
     system_message := system_message rtmt;
     temperature := temperature rtmt;
     max_tokens := max_tokens rtmt;
     disable_audio := disable_audio rtmt;
     voice_choice := voice_choice rtmt |}.

(** ** A codec writing ASCII text

    A reader and a writer that follow the [json] module: [loads] with its
    default decoder (numbers without fraction or exponent as [int], the
    others as correctly rounded [float], duplicate keys resolved to the
    last value), [dumps] with its default separators, the shortest [repr]
    of a float and [ensure_ascii], so that what it writes is ASCII text.
    A Python string stands as the bytes of its UTF-8 encoding, a lone
    surrogate as the three bytes that encoding would give it. *)
Module AsciiJson.

Definition code (c : ascii) : Z := Z.of_nat (nat_of_ascii c).

Definition is_whitespace (c : ascii) : bool :=
  let n := code c in
  ((n =? 32) || (n =? 9) || (n =? 10) || (n =? 13))%Z.

Fixpoint skip_whitespace (s : string) : string :=
  match s with
  | String c r => if is_whitespace c then skip_whitespace r else s
  | EmptyString => s
  end.

Definition digit_of (c : ascii) : option Z :=
  let n := code c in
  if ((48 <=? n) && (n <=? 57))%Z then Some (n - 48)%Z else None.

Definition hex_of (c : ascii) : option Z :=
  let n := code c in
  if ((48 <=? n) && (n <=? 57))%Z then Some (n - 48)%Z
  else if ((97 <=? n) && (n <=? 102))%Z then Some (n - 87)%Z
  else if ((65 <=? n) && (n <=? 70))%Z then Some (n - 55)%Z
  else None.

(** A run of decimal digits: its value on top of [acc], its length on top
    of [n], and the text after it. *)
Fixpoint read_digits (s : string) (acc n : Z) : Z * Z * string :=
  match s with
  | String c r =>
      match digit_of c with
      | Some d => read_digits r (acc * 10 + d)%Z (n + 1)%Z
      | None => (acc, n, s)
      end
  | EmptyString => (acc, n, s)
  end.

(** [float] of the decimal [m * 10^e], correctly rounded to binary64. *)
Definition float_of_decimal (neg : bool) (m e : Z) : spec_float :=
  match m with
  | Zpos p =>
      match e with
      | Zneg _ =>
          SFdiv 53 1024 (S754_finite neg p 0)
                        (S754_finite false (Z.to_pos (10 ^ (- e))) 0)
      | _ =>
          binary_normalize 53 1024
            (if neg then - (m * 10 ^ e) else m * 10 ^ e)%Z 0 false
      end
  | _ => S754_zero neg
  end.

(** A number at the head of [s]: an optional minus sign, an integer part
    without leading zeros, then optionally a point with digits and
    optionally an exponent.  It is an [int] when it has neither fraction
    nor exponent, a [float] otherwise. *)
Definition parse_number (s : string) : option (json * string) :=
  let '(neg, s1) := match s with
                    | String "-" r => (true, r)
                    | _ => (false, s)
                    end in
  let int_part :=
    match s1 with
    | String "0" r => Some (0%Z, r)
    | String c _ =>
        match digit_of c with
        | Some _ => let '(i, _, r) := read_digits s1 0 0 in Some (i, r)
        | None => None
        end
    | EmptyString => None
    end in
  match int_part with
  | None => None
  | Some (i, s2) =>
      let '(m, scale, has_frac, s3) :=
        match s2 with
        | String "." r =>
            let '(m, n, r') := read_digits r i 0 in
            if (0 <? n)%Z then (m, n, true, r') else (i, 0%Z, false, s2)
        | _ => (i, 0%Z, false, s2)
        end in
      let '(ex, has_exp, s4) :=
        match s3 with
        | String c r =>
            if ((code c =? 101) || (code c =? 69))%Z then
              let '(eneg, r1) := match r with
                                 | String "-" r' => (true, r')
                                 | String "+" r' => (false, r')
                                 | _ => (false, r)
                                 end in
              let '(x, n, r2) := read_digits r1 0 0 in
              if (0 <? n)%Z then ((if eneg then - x else x)%Z, true, r2)
              else (0%Z, false, s3)
            else (0%Z, false, s3)
        | EmptyString => (0%Z, false, s3)
        end in
      if has_frac || has_exp
      then Some (JFloat (float_of_decimal neg m (ex - scale)), s4)
      else Some (JInt (if neg then - i else i)%Z, s4)
  end.

(** The bytes of the UTF-8 encoding of the code point [cp], last first. *)
Definition utf8_rev (cp : Z) : list ascii :=
  let byte (n : Z) := ascii_of_nat (Z.to_nat n) in
  if (cp <? 128)%Z then [byte cp]
  else if (cp <? 2048)%Z then [byte (128 + cp mod 64); byte (192 + cp / 64)]%Z
  else if (cp <? 65536)%Z then
    [byte (128 + cp mod 64); byte (128 + (cp / 64) mod 64); byte (224 + cp / 4096)]%Z
  else
    [byte (128 + cp mod 64); byte (128 + (cp / 64) mod 64);
     byte (128 + (cp / 4096) mod 64); byte (240 + cp / 262144)]%Z.

(** The value of four hexadecimal digits. *)
Definition hex4 (h1 h2 h3 h4 : ascii) : option Z :=
  match hex_of h1, hex_of h2, hex_of h3, hex_of h4 with
  | Some a, Some b, Some c, Some d => Some (((a * 16 + b) * 16 + c) * 16 + d)%Z
  | _, _, _, _ => None
  end.

(** The low surrogate written as an escape at the head of [s], and the
    text after it. *)
Definition low_surrogate (s : string) : option (Z * string) :=
  match s with
  | String b (String u (String h1 (String h2 (String h3 (String h4 r))))) =>
      if ((code b =? 92) && (code u =? 117))%Z then
        match hex4 h1 h2 h3 h4 with
        | Some lo => if ((56320 <=? lo) && (lo <=? 57343))%Z then Some (lo, r) else None
        | None => None
        end
      else None
  | _ => None
  end.

(** The text of a string after its opening quote, up to the closing one;
    [acc] holds the characters read so far, last first.  An escaped high
    surrogate followed by an escaped low one is the code point of the
    pair. *)
Fixpoint parse_string (s : string) (acc : list ascii) : option (string * string) :=
  match s with
  | EmptyString => None
  | String c r =>
      if (code c =? 34)%Z then Some (string_of_list_ascii (rev acc), r)
      else if (code c =? 92)%Z then
        match r with
        | String e r' =>
            let plain (x : ascii) := parse_string r' (x :: acc) in
            if (code e =? 34)%Z then plain e
            else if (code e =? 92)%Z then plain e
            else if (code e =? 47)%Z then plain e
            else if (code e =? 98)%Z then plain (ascii_of_nat 8)
            else if (code e =? 102)%Z then plain (ascii_of_nat 12)
            else if (code e =? 110)%Z then plain (ascii_of_nat 10)
            else if (code e =? 114)%Z then plain (ascii_of_nat 13)
            else if (code e =? 116)%Z then plain (ascii_of_nat 9)
            else if (code e =? 117)%Z then
              match r' with
              | String h1 (String h2 (String h3 (String h4 r''))) =>
                  match hex4 h1 h2 h3 h4 with
                  | Some cp =>
                      if ((55296 <=? cp) && (cp <=? 56319))%Z then
                        match r'' with
                        | String b (String u (String g1 (String g2 (String g3
                            (String g4 r3))))) =>
                            match low_surrogate r'' with
                            | Some (lo, _) =>
                                parse_string r3
                                  (utf8_rev (65536 + (cp - 55296) * 1024 + (lo - 56320))
                                   ++ acc)%list
                            | None => parse_string r'' (utf8_rev cp ++ acc)%list
                            end
                        | _ => parse_string r'' (utf8_rev cp ++ acc)%list
                        end
                      else parse_string r'' (utf8_rev cp ++ acc)%list
                  | None => None
                  end
              | _ => None
              end
            else None
        | EmptyString => None
        end
      else if (code c <? 32)%Z then None
      else parse_string r (c :: acc)
  end.

Definition literal (word : string) (v : json) (s : string) : option (json * string) :=
  if String.prefix word s
  then Some (v, String.substring (String.length word)
                                 (String.length s - String.length word) s)
  else None.

(** A value at the head of [s], after optional whitespace; the elements of
    an array after its bracket; the members of an object after its brace. *)
Fixpoint parse_value (fuel : nat) (s : string) : option (json * string) :=
  match fuel with
  | O => None
  | S fuel' =>
      match skip_whitespace s with
      | String c r as s' =>
          let n := code c in
          if (n =? 123)%Z then
            match skip_whitespace r with
            | String "}" r' => Some (JObj [], r')
            | _ => parse_members fuel' r []
            end
          else if (n =? 91)%Z then
            match skip_whitespace r with
            | String "]" r' => Some (JArr [], r')
            | _ => parse_elements fuel' r []
            end
          else if (n =? 34)%Z then
            match parse_string r [] with
            | Some (x, r') => Some (JStr x, r')
            | None => None
            end
          else if (n =? 110)%Z then literal "null" JNull s'
          else if (n =? 116)%Z then literal "true" (JBool true) s'
          else if (n =? 102)%Z then literal "false" (JBool false) s'
          else if (n =? 78)%Z then literal "NaN" (JFloat S754_nan) s'
          else if (n =? 73)%Z then literal "Infinity" (JFloat (S754_infinity false)) s'
          else if String.prefix "-Infinity" s'
          then literal "-Infinity" (JFloat (S754_infinity true)) s'
          else parse_number s'
      | EmptyString => None
      end
  end

with parse_elements (fuel : nat) (s : string) (acc : list json)
  : option (json * string) :=
  match fuel with
  | O => None
  | S fuel' =>
      match parse_value fuel' s with
      | Some (v, r) =>
          match skip_whitespace r with
          | String "," r' => parse_elements fuel' r' (v :: acc)
          | String "]" r' => Some (JArr (rev (v :: acc)), r')
          | _ => None
          end
      | None => None
      end
  end

with parse_members (fuel : nat) (s : string) (acc : list (string * json))
  : option (json * string) :=
  match fuel with
  | O => None
  | S fuel' =>
      match skip_whitespace s with
      | String c r =>
          if (code c =? 34)%Z then
            match parse_string r [] with
            | Some (k, r1) =>
                match skip_whitespace r1 with
                | String ":" r2 =>
                    match parse_value fuel' r2 with
                    | Some (v, r3) =>
                        match skip_whitespace r3 with
                        | String "," r4 =>
                            parse_members fuel' r4 (Py.dict_set k v acc)
                        | String "}" r4 => Some (JObj (Py.dict_set k v acc), r4)
                        | _ => None
                        end
                    | None => None
                    end
                | _ => None
                end
            | None => None
            end
          else None
      | EmptyString => None
      end
  end.

(** [json.loads]: one value, with nothing but whitespace after it.  The
    reader spends one unit of fuel on each value, element and member it
    enters, and gets twice the length of the text. *)
Definition loads (s : string) : option json :=
  match parse_value (2 * String.length s + 2) s with
  | Some (v, r) =>
      match skip_whitespace r with
      | EmptyString => Some v
      | _ => None
      end
  | None => None
  end.

Definition string_of_Z (z : Z) : string := NilZero.string_of_int (Z.to_int z).

Fixpoint zeros (n : nat) : string :=
  match n with
  | O => EmptyString
  | S n' => String "0" (zeros n')
  end.

(** [num / den] rounded to the nearest integer, ties to even. *)
Definition round_half_even (num den : Z) : Z :=
  let q := (num / den)%Z in
  let r := (num mod den)%Z in
  match (2 * r ?= den)%Z with
  | Lt => q
  | Gt => (q + 1)%Z
  | Eq => if Z.even q then q else (q + 1)%Z
  end.

(** [m * 2^e * 10^k] as a fraction. *)
Definition scaled (m : positive) (e k : Z) : Z * Z :=
  ((Zpos m * 2 ^ Z.max e 0 * 10 ^ Z.max k 0)%Z,
   (2 ^ Z.max (- e) 0 * 10 ^ Z.max (- k) 0)%Z).

(** The decimal exponent of [m * 2^e]: the [t] with [10^t <= m * 2^e < 10^(t+1)]. *)
Definition decimal_exponent (m : positive) (e : Z) : Z :=
  let t0 := (((Z.log2 (Zpos m) + e) * 30103) / 100000)%Z in
  let at_least (t : Z) := let '(n, d) := scaled m e (- t) in (d <=? n)%Z in
  if at_least (t0 + 1)%Z then (t0 + 1)%Z
  else if at_least t0 then t0
  else (t0 - 1)%Z.

(** The [n]-digit decimal [d * 10^(t - n + 1)] nearest to [m * 2^e]. *)
Definition nearest_decimal (m : positive) (e t n : Z) : Z * Z :=
  let '(num, den) := scaled m e (n - 1 - t) in
  let d := round_half_even num den in
  if (d =? 10 ^ n)%Z then (10 ^ (n - 1), t + 1)%Z else (d, t).

(** The first of the nearest decimals of [n], [n + 1], ... digits that
    reads back as [m * 2^e]: its digits and its decimal exponent. *)
Fixpoint shortest_decimal (tries : nat) (m : positive) (e t n : Z) : Z * Z :=
  let '(d, t') := nearest_decimal m e t n in
  match tries with
  | O => (d, t')
  | S tries' =>
      match float_of_decimal false d (t' - n + 1) with
      | S754_finite _ m' e' =>
          if (Pos.eqb m m' && Z.eqb e e')%bool then (d, t')
          else shortest_decimal tries' m e t (n + 1)
      | _ => shortest_decimal tries' m e t (n + 1)
      end
  end.

Fixpoint strip_zeros (fuel : nat) (d : Z) : Z :=
  match fuel with
  | O => d
  | S fuel' =>
      if ((0 <? d) && (d mod 10 =? 0))%Z then strip_zeros fuel' (d / 10)%Z else d
  end.

(** [repr] of the positive float [m * 2^e]: at most 17 digits, in
    positional notation while the decimal point falls within them or
    fewer than four zeros before them, with an exponent otherwise. *)
Definition repr_finite (m : positive) (e : Z) : string :=
  let '(d, t) := shortest_decimal 16 m e (decimal_exponent m e) 1 in
  let ds := string_of_Z (strip_zeros 17 d) in
  let n := Z.of_nat (String.length ds) in
  let decpt := (t + 1)%Z in
  if ((-4 <? decpt) && (decpt <=? 16))%Z then
    if (decpt <=? 0)%Z then "0." ++ zeros (Z.to_nat (- decpt)) ++ ds
    else if (n <=? decpt)%Z then ds ++ zeros (Z.to_nat (decpt - n)) ++ ".0"
    else String.substring 0 (Z.to_nat decpt) ds ++ "."
         ++ String.substring (Z.to_nat decpt) (Z.to_nat (n - decpt)) ds
  else
    String.substring 0 1 ds
    ++ (if (1 <? n)%Z then "." ++ String.substring 1 (Z.to_nat (n - 1)) ds
        else EmptyString)
    ++ "e" ++ (if (t <? 0)%Z then "-" else "+")
    ++ (if (Z.abs t <? 10)%Z then "0" else EmptyString) ++ string_of_Z (Z.abs t).

Definition float_repr (f : spec_float) : string :=
  match f with
  | S754_nan => "NaN"
  | S754_infinity false => "Infinity"
  | S754_infinity true => "-Infinity"
  | S754_zero false => "0.0"
  | S754_zero true => "-0.0"
  | S754_finite s m e => (if s then "-" else EmptyString) ++ repr_finite m e
  end.

Definition hex_digit (n : Z) : ascii :=
  ascii_of_nat (Z.to_nat (if (n <? 10)%Z then n + 48 else n + 87)%Z).

Definition quote_mark : string := String (ascii_of_nat 34) EmptyString.

(** [\uXXXX] for a code point below 65536, the escapes of its surrogate
    pair for one above. *)
Definition unicode_escape (cp : Z) : string :=
  let four (n : Z) :=
    "\u" ++ String (hex_digit (n / 4096))
              (String (hex_digit ((n / 256) mod 16))
                 (String (hex_digit ((n / 16) mod 16))
                    (String (hex_digit (n mod 16)) EmptyString))) in
  if (cp <? 65536)%Z then four cp
  else four (55296 + (cp - 65536) / 1024)%Z ++ four (56320 + (cp - 65536) mod 1024)%Z.

(** The bits a continuation byte of UTF-8 carries. *)
Definition continuation (c : ascii) : option Z :=
  let n := code c in
  if ((128 <=? n) && (n <? 192))%Z then Some (n - 128)%Z else None.

(** The characters of a string as they stand between the quotes: the
    printable ASCII characters as they are, the others escaped.  A byte
    that begins no UTF-8 sequence, which the encoding of a string does not
    hold, is written as the code point of its value. *)
Fixpoint escape (s : string) : string :=
  match s with
  | EmptyString => EmptyString
  | String c r =>
      let n := code c in
      let single (_ : unit) := unicode_escape n ++ escape r in
      if (n =? 34)%Z then "\" ++ quote_mark ++ escape r
      else if (n =? 92)%Z then "\\" ++ escape r
      else if (n =? 10)%Z then "\n" ++ escape r
      else if (n =? 13)%Z then "\r" ++ escape r
      else if (n =? 9)%Z then "\t" ++ escape r
      else if (n =? 8)%Z then "\b" ++ escape r
      else if (n =? 12)%Z then "\f" ++ escape r
      else if ((32 <=? n) && (n <? 127))%Z then String c (escape r)
      else if (n <? 194)%Z then single tt
      else
        match r with
        | String c1 r1 =>
            match continuation c1 with
            | Some x1 =>
                if (n <? 224)%Z then
                  unicode_escape ((n - 192) * 64 + x1) ++ escape r1
                else
                  match r1 with
                  | String c2 r2 =>
                      match continuation c2 with
                      | Some x2 =>
                          if (n <? 240)%Z then
                            let cp := ((n - 224) * 4096 + x1 * 64 + x2)%Z in
                            if (2048 <=? cp)%Z then unicode_escape cp ++ escape r2
                            else single tt
                          else
                            match r2 with
                            | String c3 r3 =>
                                match continuation c3 with
                                | Some x3 =>
                                    let cp := ((n - 240) * 262144 + x1 * 4096
                                               + x2 * 64 + x3)%Z in
                                    if ((65536 <=? cp) && (cp <=? 1114111))%Z
                                    then unicode_escape cp ++ escape r3
                                    else single tt
                                | None => single tt
                                end
                            | EmptyString => single tt
                            end
                      | None => single tt
                      end
                  | EmptyString => single tt
                  end
            | None => single tt
            end
        | EmptyString => single tt
        end
  end.

Definition quote (s : string) : string := quote_mark ++ escape s ++ quote_mark.

(** [json.dumps] *)
Fixpoint dumps (v : json) : string :=
  match v with
  | JNull => "null"
  | JBool true => "true"
  | JBool false => "false"
  | JInt z => string_of_Z z
  | JFloat f => float_repr f
  | JStr s => quote s
  | JArr l =>
      "[" ++ (fix items (l : list json) : string :=
                match l with
                | [] => EmptyString
                | [x] => dumps x
                | x :: r => dumps x ++ ", " ++ items r
                end) l ++ "]"
  | JObj d =>
      "{" ++ (fix members (d : list (string * json)) : string :=
                match d with
                | [] => EmptyString
                | [(k, x)] => quote k ++ ": " ++ dumps x
                | (k, x) :: r => quote k ++ ": " ++ dumps x ++ ", " ++ members r
                end) d ++ "}"
  end.

End AsciiJson.

Definition ascii_json : JsonCodec :=
  {| json_loads := AsciiJson.loads; json_dumps := AsciiJson.dumps |}.

(** ** Message kinds

    The vocabulary of the protocol, read off a parsed message without
    running a transformer. *)

(** The [type] field of a message or item, when it is a string. *)
Definition type_of (v : json) : option string :=
  match v with
  | JObj d =>
      match Py.dict_get "type" d with
      | Some (JStr s) => Some s
      | _ => None
      end
  | _ => None
  end.

(** The type of the message's [item], when there is one. *)
Definition item_type_of (message : json) : option string :=
  match message with
  | JObj d =>
      match Py.dict_get "item" d with
      | Some item => type_of item
      | None => None
      end
  | _ => None
  end.

Definition opt_str_eqb (o : option string) (s : string) : bool :=
  match o with
  | Some t => String.eqb t s
  | None => false
  end.

(** The messages that expose function-call machinery: output-item-added
    for a function call, item-created for a function call or its output,
    the argument deltas and their completion, and output-item-done for a
    function call. *)
Definition function_call_traffic (message : json) : bool :=
  match type_of message with
  | Some ty =>
      (String.eqb ty "response.output_item.added"
         && opt_str_eqb (item_type_of message) "function_call")
      || (String.eqb ty "conversation.item.created"
            && (opt_str_eqb (item_type_of message) "function_call"
                || opt_str_eqb (item_type_of message) "function_call_output"))
      || String.eqb ty "response.function_call_arguments.delta"
      || String.eqb ty "response.function_call_arguments.done"
      || (String.eqb ty "response.output_item.done"
            && opt_str_eqb (item_type_of message) "function_call")
  | None => false
  end.

(** A text frame that shows the client no function-call traffic: it is the
    received text of a message outside that traffic, or the serialization
    of one. *)
Definition presentable {codec : JsonCodec} (s : string) : Prop :=
  (exists message, json_loads s = Some message
                   /\ function_call_traffic message = false)
  \/ (exists message, s = json_dumps message
                      /\ function_call_traffic message = false).

(** The run [r] of a transformer from state [st] shows the client only
    presentable frames: the text it returns for forwarding, if any, and the
    frames it wrote to the client socket itself. *)
Definition shows_only_presentable {codec : JsonCodec} (st : relay_state)
    (r : outcome (option string) * relay_state) : Prop :=
  (forall s, fst r = Returns (Some s) -> presentable s) /\
  exists l, client_ws (snd r) = (client_ws st ++ l)%list /\ Forall presentable l.

(** An entry of a response's output list that is an item of some type
    other than [function_call]. *)
Definition other_item (output : json) : bool :=
  match Py.getitem output "type" with
  | Returns ty => negb (Py.eq_str ty "function_call")
  | Raises _ => false
  end.

(** The continuation request sent upstream once a response concludes with
    calls pending. *)
Definition response_create : json := JObj [("type", JStr "response.create")].

(** The value the server enforces for the session field [k] of a
    [session.update], if any. *)
Definition enforced_value (self : RTMiddleTier) (k : string) : option json :=
  if String.eqb k "tools" then
    Some (JArr (map (fun t => schema (snd t)) (tools self)))
  else if String.eqb k "tool_choice" then
    Some (JStr (match tools self with [] => "none" | _ :: _ => "auto" end))
  else if String.eqb k "voice" then option_map JStr (voice_choice self)
  else if String.eqb k "disable_audio" then option_map JBool (disable_audio self)
  else if String.eqb k "max_response_output_tokens" then
    option_map JInt (max_tokens self)
  else if String.eqb k "temperature" then option_map JFloat (temperature self)
  else if String.eqb k "instructions" then option_map JStr (system_message self)
  else None.

(** The session fields a [session.update] can have overwritten. *)
Definition enforced_fields : list string :=
  ["instructions"; "temperature"; "max_response_output_tokens";
   "disable_audio"; "voice"; "tool_choice"; "tools"].

(** The [conversation.item.create] message that hands a function-call
    output for [call_id] back to upstream. *)
Definition function_call_output (call_id : json) (output : string) : json :=
  JObj [("type", JStr "conversation.item.create");
        ("item", JObj [("type", JStr "function_call_output");
                       ("call_id", call_id);
                       ("output", JStr output)])].

(** The extension message that shows a tool result to the client. *)
Definition middle_tier_tool_response (previous_item_id tool_name : json)
    (tool_result : string) : json :=
  JObj [("type", JStr "extension.middle_tier_tool_response");
        ("previous_item_id", previous_item_id);
        ("tool_name", tool_name);
        ("tool_result", JStr tool_result)].

(** ** A sample configuration and sample frames *)

(** The JSON texts below are written with ['] where the text has a double
    quote. *)
Fixpoint json_text (s : string) : string :=
  match s with
  | EmptyString => EmptyString
  | String c r =>
      String (if (nat_of_ascii c =? 39)%nat then ascii_of_nat 34 else c) (json_text r)
  end.

(** The float [0.2]. *)
Definition two_tenths : spec_float := AsciiJson.float_of_decimal false 2 (-1).

Definition retrieved_passages : list string :=
  ["[kb-7]: Stellantis N.V. was formed in 2021."].

(** A relay with the temperature fixed at 0.2, the voice at "alloy", and
    the search tool attached. *)
Definition scenario_relay : RTMiddleTier :=
  attach_rag_tools retrieved_passages
    {| tools := [];
       system_message := None;
       temperature := Some two_tenths;
       max_tokens := None;
       disable_audio := None;
       voice_choice := Some "alloy" |}.

(** A connection with nothing pending, and one on which the call "c1",
    announced after item "p0", is pending. *)
Definition fresh_connection : relay_state :=
  {| _tools_pending := []; server_ws := []; client_ws := [] |}.

Definition pending_c1 : RTToolCall :=
  {| tool_call_id := JStr "c1"; previous_id := JStr "p0" |}.

Definition awaiting_c1 : relay_state :=
  {| _tools_pending := [(JStr "c1", pending_c1)]; server_ws := []; client_ws := [] |}.

(** What the search handler answers on the sample connection. *)
Definition search_answer : ToolResult :=
  {| text := JArr (map JStr retrieved_passages); destination := TO_SERVER |}.

Definition session_update_text : string :=
  json_text "{'type':'session.update','session':{'temperature':0.9,'tools':['x']}}".

Definition session_created_text : string :=
  json_text "{'type':'session.created','session':{'instructions':'internal prompt','tools':[{'name':'search'}],'tool_choice':'auto','max_response_output_tokens':4096,'voice':'echo'}}".

Definition item_created_text : string :=
  json_text "{'type':'conversation.item.created','previous_item_id':'p9','item':{'type':'function_call','call_id':'c1'}}".

Definition arguments_delta_text : string :=
  json_text "{'type':'response.function_call_arguments.delta','call_id':'c1','delta':'{'}".

Definition call_done_text : string :=
  json_text "{'type':'response.output_item.done','item':{'type':'function_call','call_id':'c1','name':'search','arguments':'{\'query\':\'x\'}'}}".

Definition call_done_without_query_text : string :=
  json_text "{'type':'response.output_item.done','item':{'type':'function_call','call_id':'c1','name':'search','arguments':'{}'}}".

Definition call_done_malformed_arguments_text : string :=
  json_text "{'type':'response.output_item.done','item':{'type':'function_call','call_id':'c1','name':'search','arguments':'{'}}".

Definition response_done_text : string :=
  json_text "{'type':'response.done','response':{'output':[{'type':'message','id':'m1'}]}}".

Definition response_done_call_first_text : string :=
  json_text "{'type':'response.done','response':{'output':[{'type':'function_call','call_id':'c1'},{'type':'message','id':'m1'}]}}".

Definition response_done_call_last_text : string :=
  json_text "{'type':'response.done','response':{'output':[{'type':'message','id':'m1'},{'type':'function_call','call_id':'c1'}]}}".

(** ** The cases of the transformers, by message *)

(** The message types [_process_message_to_client] has a case for. *)
Definition handled_to_client : list string :=
  ["session.created"; "response.output_item.added"; "conversation.item.created";
   "response.function_call_arguments.delta"; "response.function_call_arguments.done";
   "response.output_item.done"; "response.done"].

(** The message has no [item], or an item whose [type] is none of [kinds]. *)
Definition item_is_none_of (message : json) (kinds : list string) : bool :=
  match message with
  | JObj d =>
      match Py.dict_get "item" d with
      | None => true
      | Some item =>
          match Py.getitem item "type" with
          | Returns ty => forallb (fun k => negb (Py.eq_str ty k)) kinds
          | Raises _ => false
          end
      end
  | _ => false
  end.

(** An entry of a response's output list that is a function call. *)
Definition function_call_item (output : json) : bool :=
  match Py.getitem output "type" with
  | Returns ty => Py.eq_str ty "function_call"
  | Raises _ => false
  end.

(** The data of the text frames among [frames], in order. *)
Fixpoint text_frames (frames : list WSMessage) : list string :=
  match frames with
  | [] => []
  | TEXT data :: rest => data :: text_frames rest
  | NOT_TEXT :: rest => text_frames rest
  end.

(** A text the inbound transformer has no case for: JSON [null], or an
    object whose [type] is none of the handled ones. *)
Definition unhandled_to_client {codec : JsonCodec} (data : string) : bool :=
  match json_loads data with
  | Some JNull => true
  | Some (JObj d) =>
      match Py.dict_get "type" d with
      | Some ty => forallb (fun s => negb (Py.eq_str ty s)) handled_to_client
      | None => false
      end
  | _ => false
  end.

(** A text the outbound transformer has no case for: JSON [null], or an
    object whose [type] is not [session.update]. *)
Definition unhandled_to_server {codec : JsonCodec} (data : string) : bool :=
  match json_loads data with
  | Some JNull => true
  | Some (JObj d) =>
      match Py.dict_get "type" d with
      | Some ty => negb (Py.eq_str ty "session.update")
      | None => false
      end
  | _ => false
  end.

(** No two entries of the pending table answer to the same call
    identifier. *)
Fixpoint distinct_call_ids (p : pending_table) : bool :=
  match p with
  | [] => true
  | (k, _) :: p' =>
      negb (existsb (fun kc => Py.key_eqb k (fst kc)) p') && distinct_call_ids p'
  end.

(** ** Connecting upstream: [RTMiddleTier.__init__] and the head of [_forward_messages] *)

Inductive Credentials : Type :=
| AzureKeyCredential (key : string)
| AzureDeveloperCliCredential (tenant_id : string)
| DefaultAzureCredential.

(** The attributes of [RTMiddleTier] the upstream connection is made with.
    The token provider stands as the credential it was made from; calling
    it is [bearer_token] below. *)
Record Upstream : Type := {
  endpoint : string;
  deployment : string;
  key : option string;
  _token_provider : option Credentials;
  api_version : string
}.

(** [RTMiddleTier(endpoint, deployment, credentials, voice_choice)], built
    while the class-level [tools] is still empty.  With a credential that
    is not a key the token provider is called once to warm it up. *)
Definition __init__ (bearer_token : Credentials -> outcome string)
    (endpoint deployment : string) (credentials : Credentials)
    (voice_choice : option string) : outcome (RTMiddleTier * Upstream) :=
  let rtmt := {| tools := [];
                 system_message := None;
                 temperature := None;
                 max_tokens := None;
                 disable_audio := None;
                 voice_choice := voice_choice |} in
  match credentials with
  | AzureKeyCredential k =>
      Returns (rtmt, {| endpoint := endpoint;
                        deployment := deployment;
                        key := Some k;
                        _token_provider := None;
                        api_version := "2024-10-01-preview" |})
  | _ =>
      (_ <~ bearer_token credentials ;;
       Returns (rtmt, {| endpoint := endpoint;
                         deployment := deployment;
                         key := None;
                         _token_provider := Some credentials;
                         api_version := "2024-10-01-preview" |}))%outcome
  end.

Definition ascii_lower (c : ascii) : ascii :=
  let n := nat_of_ascii c in
  if ((65 <=? n) && (n <=? 90))%nat then ascii_of_nat (n + 32) else c.

Fixpoint lower (s : string) : string :=
  match s with
  | EmptyString => EmptyString
  | String c r => String (ascii_lower c) (lower r)
  end.

(** Lookup in the headers of a socket object, where names compare without
    regard to case. *)
Fixpoint header_get (name : string) (headers : list (string * string)) : option string :=
  match headers with
  | [] => None
  | (n, v) :: rest =>
      if String.eqb (lower n) (lower name) then Some v else header_get name rest
  end.

(** The [params] and [headers] that [_forward_messages] opens the upstream
    socket with, from the headers [ws_headers] that [ws.headers] holds.
    The second assignment to [headers] replaces the dictionary of the
    first. *)
Definition connection_request (bearer_token : Credentials -> outcome string)
    (self : Upstream) (ws_headers : list (string * string))
  : outcome (list (string * string) * list (string * string)) :=
  let params := [("api-version", api_version self); ("deployment", deployment self)] in
  let headers : list (string * string) := [] in
  let headers :=
    match header_get "x-ms-client-request-id" ws_headers with
    | Some v => (headers ++ [("x-ms-client-request-id", v)])%list
    | None => headers
    end in
  match key self with
  | Some k =>
      let headers := [("api-key", k)] in
      Returns (params, headers)
  | None =>
      match _token_provider self with
      | Some credentials =>
          (token <~ bearer_token credentials ;;
           let headers := [("Authorization", "Bearer " ++ token)] in
           Returns (params, headers))%outcome
      | None => Raises TypeError
      end
  end.

(** ** The grounding tool of ragtools.py *)

(** A character of the class [[a-zA-Z0-9_=\-]]. *)
Definition key_char (c : ascii) : bool :=
  let n := nat_of_ascii c in
  (((97 <=? n) && (n <=? 122)) || ((65 <=? n) && (n <=? 90))
   || ((48 <=? n) && (n <=? 57)) || (n =? 95) || (n =? 61) || (n =? 45))%nat.

(** The rest of a match of [KEY_PATTERN] after its first character: more
    characters of the class, up to the end of the text or to a line feed
    that ends the text, which is where [$] matches. *)
Fixpoint key_tail (s : string) : bool :=
  match s with
  | EmptyString => true
  | String c r =>
      if key_char c then key_tail r
      else (nat_of_ascii c =? 10)%nat
           && match r with EmptyString => true | _ => false end
  end.

(** [KEY_PATTERN.match(s)] is not [None], for [KEY_PATTERN = re.compile(r'^[a-zA-Z0-9_=\-]+$')]. *)
Definition KEY_PATTERN_match (s : string) : bool :=
  match s with
  | String c r => key_char c && key_tail r
  | EmptyString => false
  end.

(** The elements [for s in v] goes through: those of a list, the keys of a
    dict, the characters of a string (one per byte here; every use below
    ends the same way for a character of several bytes). *)
Definition py_iter (v : json) : outcome (list json) :=
  match v with
  | JArr l => Returns l
  | JObj d => Returns (map (fun kv => JStr (fst kv)) d)
  | JStr s => Returns (map (fun c => JStr (String c EmptyString)) (list_ascii_of_string s))
  | _ => Raises TypeError
  end.

(** [[s for s in candidates if KEY_PATTERN.match(s)]]; matching anything
    but a string raises. *)
Fixpoint accepted_sources (candidates : list json) : outcome (list string) :=
  match candidates with
  | [] => Returns []
  | JStr s :: rest =>
      (kept <~ accepted_sources rest ;;
       Returns (if KEY_PATTERN_match s then s :: kept else kept))%outcome
  | _ :: _ => Raises TypeError
  end.

(** The keyword arguments of [search_client.search]. *)
Record SearchRequest : Type := {
  search_text : string;
  search_fields : list string;
  select : list string;
  top : nat;
  query_type : string
}.

(** The request [_report_grounding_tool] makes for [args]. *)
Definition grounding_request (identifier_field title_field content_field : string)
    (args : json) : outcome SearchRequest :=
  (candidates <~ Py.getitem args "sources" ;;
   candidates <~ py_iter candidates ;;
   sources <~ accepted_sources candidates ;;
   Returns {| search_text := String.concat " OR " sources;
              search_fields := [identifier_field];
              select := [identifier_field; title_field; content_field];
              top := List.length sources;
              query_type := "full" |})%outcome.

(** The document made of one row of the search results. *)
Definition grounding_doc (identifier_field title_field content_field : string)
    (r : json) : outcome json :=
  (chunk_id <~ Py.getitem r identifier_field ;;
   title <~ Py.getitem r title_field ;;
   chunk <~ Py.getitem r content_field ;;
   Returns (JObj [("chunk_id", chunk_id); ("title", title); ("chunk", chunk)]))%outcome.

Fixpoint grounding_docs (identifier_field title_field content_field : string)
    (rows : list json) : outcome (list json) :=
  match rows with
  | [] => Returns []
  | r :: rest =>
      (doc <~ grounding_doc identifier_field title_field content_field r ;;
       docs <~ grounding_docs identifier_field title_field content_field rest ;;
       Returns (doc :: docs))%outcome
  end.

(** [_report_grounding_tool], with the search client standing as the rows
    [search] answers a request with. *)
Definition _report_grounding_tool (search : SearchRequest -> outcome (list json))
    (identifier_field title_field content_field : string) (args : json)
  : outcome ToolResult :=
  (request <~ grounding_request identifier_field title_field content_field args ;;
   rows <~ search request ;;
   docs <~ grounding_docs identifier_field title_field content_field rows ;;
   Returns {| text := JObj [("sources", JArr docs)]; destination := TO_CLIENT |})%outcome.

(** ** The configuration of app.py *)

(** [bool(v)] for what [os.environ.get] returns. *)
Definition truthy (v : option string) : bool :=
  match v with
  | Some (String _ _) => true
  | _ => false
  end.

(** [v or default] *)
Definition or_default (v : option string) (default : string) : string :=
  match v with
  | Some (String c r) => String c r
  | _ => default
  end.

(** [os.environ[name]] *)
Definition environ_getitem (environ : string -> option string) (name : string)
  : outcome string :=
  match environ name with
  | Some v => Returns v
  | None => Raises KeyError
  end.

Definition line_feed : string := String (ascii_of_nat 10) EmptyString.

(** The text [create_app] assigns to [rtmt.system_message]. *)
Definition app_system_message : string :=
  "Sei un chatbot chiamato Stellantis-bot e sei un assistente utile per rispondere a domande su un'azienda che si chiama Stellantis. Rispondi alle domande basandoti solo sulle informazioni che hai cercato nella base di conoscenza, accessibile con lo strumento 'search'. "
  ++ "L'utente sta ascoltando le risposte in audio, quindi è super importante che le risposte siano il più brevi possibile, una sola frase se possibile. Parla molto velocemente nel dare la risposta."
  ++ "Non leggere mai i nomi dei file, dei sorgenti o delle chiavi ad alta voce. "
  ++ "Segui sempre queste istruzioni passo-passo per rispondere: " ++ line_feed
  ++ "1. Usa sempre lo strumento 'search' per verificare la base di conoscenza prima di rispondere a una domanda. " ++ line_feed
  ++ "2. Fornisci una risposta il più breve possibile. Se la risposta non è nella base di conoscenza, dì che non lo sai. " ++ line_feed
  ++ "3. Se nella base di conoscenza non trovi documenti rilevanti alla query rispondi con 'Non ci sono documenti inerenti alla tua domanda'" ++ line_feed.

(** The credential [create_app] gives the relay, from the environment: the
    API key when there is one, else the credential chosen by the tenant
    identifier ([credential] is always set in that case, since the test
    [not llm_key or not search_key] holds).  The constructors of the
    credential classes are taken to return. *)
Definition llm_credential (environ : string -> option string) : Credentials :=
  match environ "AZURE_OPENAI_API_KEY" with
  | Some (String c r) => AzureKeyCredential (String c r)
  | _ =>
      match environ "AZURE_TENANT_ID" with
      | Some (String c r) => AzureDeveloperCliCredential (String c r)
      | _ => DefaultAzureCredential
      end
  end.

(** The relay [create_app] builds and attaches to the application, from
    the environment as it stands once the [.env] file has been loaded. *)
Definition create_app (bearer_token : Credentials -> outcome string)
    (retrieved : list string) (environ : string -> option string)
  : outcome (RTMiddleTier * Upstream) :=
  (endpoint <~ environ_getitem environ "AZURE_OPENAI_ENDPOINT" ;;
   deployment <~ environ_getitem environ "AZURE_OPENAI_REALTIME_DEPLOYMENT" ;;
   built <~ __init__ bearer_token endpoint deployment (llm_credential environ)
              (Some (or_default (environ "AZURE_OPENAI_REALTIME_VOICE_CHOICE") "alloy")) ;;
   let rtmt := {| tools := tools (fst built);
                  system_message := Some app_system_message;
                  temperature := temperature (fst built);
                  max_tokens := max_tokens (fst built);
                  disable_audio := disable_audio (fst built);
                  voice_choice := voice_choice (fst built) |} in
   Returns (attach_rag_tools retrieved rtmt, snd built))%outcome.

(** ** The search handler of ragtools.py, with its collaborators *)

(** [v[0]] *)
Definition py_first (v : json) : outcome json :=
  match v with
  | JArr (x :: _) => Returns x
  | JArr [] => Raises IndexError
  | JStr (String c _) => Returns (JStr (String c EmptyString))
  | JStr EmptyString => Raises IndexError
  | JObj _ => Raises KeyError
  | _ => Raises TypeError
  end.

(** The line that closes a passage. *)
Definition passage_end : string := line_feed ++ "-----" ++ line_feed.

(** One element of the comprehension of
    [from_orchestrator_response_to_retrieved_docs]; [py_str] is the
    formatting of a value in an f-string and [clean_html] the function of
    that name. *)
Definition retrieved_doc (py_str : json -> string) (clean_html : json -> outcome string)
    (m : json) : outcome string :=
  (tags <~ Py.getitem m "tags" ;;
   id <~ Py.getitem tags "id" ;;
   tags <~ Py.getitem m "tags" ;;
   content <~ Py.getitem tags "content" ;;
   cleaned <~ clean_html content ;;
   Returns ("[" ++ py_str id ++ "]: " ++ cleaned ++ passage_end))%outcome.

Fixpoint retrieved_docs (py_str : json -> string) (clean_html : json -> outcome string)
    (matches : list json) : outcome (list string) :=
  match matches with
  | [] => Returns []
  | m :: rest =>
      (doc <~ retrieved_doc py_str clean_html m ;;
       docs <~ retrieved_docs py_str clean_html rest ;;
       Returns (doc :: docs))%outcome
  end.

Definition from_orchestrator_response_to_retrieved_docs (py_str : json -> string)
    (clean_html : json -> outcome string) (json_response : json)
  : outcome (list string) :=
  (data <~ Py.getitem json_response "data" ;;
   first <~ py_first data ;;
   matches <~ Py.getitem first "matches" ;;
   matches <~ py_iter matches ;;
   retrieved_docs py_str clean_html matches)%outcome.

(** [_MAIZE_search_tool] with the orchestrator as the function
    [call_orchestrator_stellantis] from the query to its JSON response. *)
Definition _MAIZE_search_tool_online
    (call_orchestrator_stellantis : json -> outcome json)
    (py_str : json -> string) (clean_html : json -> outcome string) (args : json)
  : outcome ToolResult :=
  (_ <~ Py.getitem args "query" ;;
   query <~ Py.getitem args "query" ;;
   orchestrator_response <~ call_orchestrator_stellantis query ;;
   result <~ from_orchestrator_response_to_retrieved_docs py_str clean_html
               orchestrator_response ;;
   Returns {| text := JArr (map JStr result); destination := TO_SERVER |})%outcome.

(** ** More sample frames and collaborators *)

Definition audio_delta_text : string :=
  json_text "{'type':'response.audio.delta','response_id':'r1','delta':'AAAA'}".

Definition audio_append_text : string :=
  json_text "{'type':'input_audio_buffer.append','audio':'AAAA'}".

Definition message_added_text : string :=
  json_text "{'type':'response.output_item.added','item':{'type':'message','id':'m1'}}".

Definition response_done_lone_call_text : string :=
  json_text "{'type':'response.done','response':{'output':[{'type':'function_call','call_id':'c1'}]}}".

Definition response_done_two_calls_text : string :=
  json_text "{'type':'response.done','response':{'output':[{'type':'function_call','call_id':'c1'},{'type':'function_call','call_id':'c2'}]}}".

Definition response_done_bare_text : string :=
  json_text "{'type':'response.done'}".

(** A [session.update] with a field beside the session, a session field
    the server never writes ([modalities]), two it could write but has not
    configured on the sample relay ([instructions] and
    [max_response_output_tokens]), and two it overrides. *)
Definition session_update_with_client_fields_text : string :=
  json_text "{'type':'session.update','event_id':'e1','session':{'modalities':['text','audio'],'instructions':'be brief','max_response_output_tokens':512,'temperature':0.9,'tools':['x']}}".

Definition session_update_bare_text : string :=
  json_text "{'type':'session.update'}".

(** A token provider that always yields the same token. *)
Definition fixed_bearer_token (credentials : Credentials) : outcome string :=
  Returns "token-0".

(** An environment with the endpoint, the deployment and an API key. *)
Definition sample_environ (name : string) : option string :=
  if String.eqb name "AZURE_OPENAI_ENDPOINT" then Some "https://relay.example"
  else if String.eqb name "AZURE_OPENAI_REALTIME_DEPLOYMENT" then Some "realtime"
  else if String.eqb name "AZURE_OPENAI_API_KEY" then Some "key-0"
  else None.

(** Arguments of a grounding call: two well-formed sources and one that is
    not. *)
Definition grounding_args : json :=
  JObj [("sources", JArr [JStr "kb-7"; JStr "kb 8"; JStr "chunk_9="])].

(** A search client that answers every request with one row. *)
Definition one_row_search (request : SearchRequest) : outcome (list json) :=
  Returns [JObj [("chunk_id", JStr "kb-7");
                 ("title", JStr "History");
                 ("chunk", JStr "Stellantis N.V. was formed in 2021.")]].

(** An orchestrator that answers every query with one match. *)
Definition one_match_orchestrator (query : json) : outcome json :=
  Returns (JObj [("data",
                  JArr [JObj [("matches",
                               JArr [JObj [("tags",
                                            JObj [("id", JStr "kb-7");
                                                  ("content",
                                                   JStr "Stellantis N.V. was formed in 2021.")])]])]])]).

(** Formatting in an f-string and [clean_html], on the plain strings of
    the sample. *)
Definition format_text (v : json) : string :=
  match v with
  | JStr s => s
  | other => AsciiJson.dumps other
  end.

Definition clean_plain_text (v : json) : outcome string :=
  match v with
  | JStr s => Returns s
  | _ => Raises TypeError
  end.

(** ** What a computation of the relay depends on *)

(** The state after [ls] has been written upstream and [lc] to the client,
    with the pending table now [p]. *)
Definition written (st : relay_state) (p : pending_table) (ls lc : list string)
  : relay_state :=
  {| _tools_pending := p;
     server_ws := (server_ws st ++ ls)%list;
     client_ws := (client_ws st ++ lc)%list |}.

(** The computation reads nothing of the state but the pending table, and
    only adds to the sockets. *)
Definition reads_pending_only {A : Type} (m : Relay A) : Prop :=
  forall p : pending_table,
    exists (o : outcome A) (p' : pending_table) (ls lc : list string),
      forall st : relay_state,
        _tools_pending st = p -> m st = (o, written st p' ls lc).

(** The computation neither reads nor changes the state. *)
Definition stateless {A : Type} (m : Relay A) : Prop :=
  exists o : outcome A, forall st : relay_state, m st = (o, st).

(** ** Dictionary and outcome lemmas *)

Lemma dict_get_set_same (k : string) (v : json) (d : list (string * json)) :
  Py.dict_get k (Py.dict_set k v d) = Some v.
Proof.
  induction d as [|[k' v'] d IH]; simpl.
  - now rewrite String.eqb_refl.
  - destruct (String.eqb k' k) eqn:E; simpl; rewrite E; auto.
Qed.

Lemma dict_get_set_other (k k' : string) (v : json) (d : list (string * json)) :
  k' <> k -> Py.dict_get k' (Py.dict_set k v d) = Py.dict_get k' d.
Proof.
  intros Hne. induction d as [|[k0 v0] d IH]; simpl.
  - destruct (String.eqb k k') eqn:E; auto.
    apply String.eqb_eq in E. congruence.
  - destruct (String.eqb k0 k) eqn:E; simpl.
    + apply String.eqb_eq in E. subst k0.
      destruct (String.eqb k k') eqn:E'; auto.
      apply String.eqb_eq in E'. congruence.
    + now rewrite IH.
Qed.

Lemma getitem_returns (v x : json) (k : string) :
  Py.getitem v k = Returns x ->
  exists d, v = JObj d /\ Py.dict_get k d = Some x.
Proof.
  destruct v; simpl; try discriminate.
  destruct (Py.dict_get k d) eqn:E; intros [= <-]. eauto.
Qed.

Section Transformers.
Context {codec : JsonCodec}.
Variable self : RTMiddleTier.

Lemma loads_returns (data : string) (message : json) :
  json_loads data = Some message -> loads data = Returns message.
Proof. unfold loads. now intros ->. Qed.

(** C5: an upstream [session.created] message is forwarded as a
    re-serialized copy whose session has empty instructions, an empty tool
    list, tool_choice "none", null max_response_output_tokens and the
    configured voice, whatever the received session held. *)
Theorem session_created_is_redacted
    (data : string) (message : json) (session : list (string * json))
    (st : relay_state) :
  json_loads data = Some message ->
  Py.getitem message "type" = Returns (JStr "session.created") ->
  Py.getitem message "session" = Returns (JObj session) ->
  exists (message' : json) (session' : list (string * json)),
    _process_message_to_client self data st
      = (Returns (Some (json_dumps message')), st) /\
    Py.getitem message' "type" = Returns (JStr "session.created") /\
    Py.getitem message' "session" = Returns (JObj session') /\
    Py.dict_get "instructions" session' = Some (JStr "") /\
    Py.dict_get "tools" session' = Some (JArr []) /\
    Py.dict_get "tool_choice" session' = Some (JStr "none") /\
    Py.dict_get "max_response_output_tokens" session' = Some JNull /\
    Py.dict_get "voice" session' = Some (Py.of_opt_str (voice_choice self)).
Proof.
  intros Hl Hty Hs.
  destruct (getitem_returns _ _ _ Hty) as (d & -> & Hd).
  unfold _process_message_to_client, match_type_to_client, bind, lift.
  rewrite (loads_returns _ _ Hl), Hty. cbn [Py.eq_str String.eqb Ascii.eqb Bool.eqb].
  unfold Py.with_item, obind. rewrite Hs.
  cbn [redact_session Py.setitem obind fst ret].
  eexists _, _. split; [reflexivity|].
  cbn [Py.getitem].
  rewrite dict_get_set_other by discriminate. rewrite Hd.
  rewrite dict_get_set_same.
  repeat split;
    repeat (first [ rewrite dict_get_set_same; reflexivity
                  | rewrite dict_get_set_other by discriminate ]).
Qed.

Lemma item_type_is_spec (d : list (string * json)) (kind k : string) :
  item_type_of (JObj d) = Some k ->
  item_type_is (JObj d) kind = Returns (String.eqb k kind).
Proof.
  unfold item_type_of, item_type_is, type_of. cbn [Py.contains Py.getitem obind].
  destruct (Py.dict_get "item" d) as [item|]; [|discriminate].
  destruct item; try discriminate.
  cbn [Py.getitem obind].
  destruct (Py.dict_get "type" d0) as [[]|]; try discriminate.
  intros [= ->]. reflexivity.
Qed.

(** The three cases with effects never return a message to forward, and
    what they write to the client is at most one extension message. *)
Lemma register_tool_call_outcome (message : json) (st : relay_state) :
  forall s, fst (register_tool_call message st) <> Returns (Some s).
Proof.
  intros s. unfold register_tool_call, bind, lift, get_pending, put_pending, ret.
  repeat match goal with
  | |- context [match ?x with _ => _ end] => destruct x eqn:?
  end; cbn; congruence.
Qed.

Lemma dispatch_tool_outcome (message : json) (st : relay_state) :
  forall s, fst (dispatch_tool self message st) <> Returns (Some s).
Proof.
  intros s. unfold dispatch_tool, bind, lift, get_pending, ret,
    server_send_json, client_send_json, server_send_str, client_send_str.
  repeat match goal with
  | |- context [match ?x with _ => _ end] => destruct x eqn:?
  end; cbn; congruence.
Qed.

Ltac crunch :=
  repeat match goal with
  | |- context [match ?x with _ => _ end] => destruct x eqn:?
  | H : context [match ?x with _ => _ end] |- _ => destruct x eqn:?
  | H : (_, _) = (_, _) |- _ => injection H as ? ?; subst
  end.

Lemma register_tool_call_client (message : json) (st : relay_state) :
  client_ws (snd (register_tool_call message st)) = client_ws st.
Proof.
  unfold register_tool_call, bind, lift, get_pending, put_pending, ret.
  crunch; cbn; congruence.
Qed.

Lemma dispatch_tool_client (message : json) (st : relay_state) :
  exists l, client_ws (snd (dispatch_tool self message st)) = (client_ws st ++ l)%list
            /\ Forall presentable l.
Proof.
  unfold dispatch_tool, bind, lift, get_pending, ret,
    server_send_json, client_send_json, server_send_str, client_send_str.
  crunch; cbn [snd client_ws];
    try (exists []; rewrite app_nil_r; split; [congruence | constructor]).
  all: eexists; split; [reflexivity|].
  all: constructor; [|constructor].
  all: right; eexists; split; reflexivity.
Qed.

Lemma type_of_dict_set (k : string) (v : json) (d : list (string * json)) :
  k <> "type" -> type_of (JObj (Py.dict_set k v d)) = type_of (JObj d).
Proof.
  intros Hk. unfold type_of. rewrite dict_get_set_other; congruence.
Qed.

Lemma item_type_of_dict_set (k : string) (v : json) (d : list (string * json)) :
  k <> "item" -> item_type_of (JObj (Py.dict_set k v d)) = item_type_of (JObj d).
Proof.
  intros Hk. unfold item_type_of. rewrite dict_get_set_other; congruence.
Qed.

(** Mutating the object stored under a key other than [type] and [item]
    leaves the kind of the message alone. *)
Lemma with_item_traffic {A : Type} (d : list (string * json)) (k : string)
    (f : json -> outcome (json * A)) (r : json * A) :
  k <> "type" -> k <> "item" ->
  Py.with_item (JObj d) k f = Returns r ->
  function_call_traffic (fst r) = function_call_traffic (JObj d).
Proof.
  intros Hk1 Hk2. unfold Py.with_item, obind.
  destruct (Py.getitem (JObj d) k); [|discriminate].
  destruct (f a) as [[x' a']|]; [|discriminate].
  cbn [Py.setitem]. intros [= <-]. cbn [fst].
  unfold function_call_traffic.
  now rewrite type_of_dict_set, item_type_of_dict_set.
Qed.

Lemma conclude_response_client (message : json) (data : string) (st : relay_state) :
  client_ws (snd (conclude_response message data st)) = client_ws st.
Proof.
  unfold conclude_response, bind, lift, get_pending, put_pending, ret,
    server_send_json, server_send_str.
  crunch; cbn; congruence.
Qed.

Lemma conclude_response_outcome (d : list (string * json)) (data s : string)
    (st : relay_state) :
  fst (conclude_response (JObj d) data st) = Returns (Some s) ->
  s = data \/
  exists message', s = json_dumps message' /\
                   function_call_traffic message' = function_call_traffic (JObj d).
Proof.
  unfold conclude_response, bind, lift, get_pending, put_pending, ret,
    server_send_json, server_send_str.
  crunch; cbn [fst]; intros Heq; try discriminate; injection Heq as <-; auto.
  all: right; eexists; split; [reflexivity|].
  all: match goal with
       | H : Py.with_item _ _ _ = Returns _ |- _ =>
           apply (with_item_traffic _ _ _ _) in H; [exact H | discriminate ..]
       end.
Qed.

Lemma item_type_is_false (d : list (string * json)) (kind : string) :
  item_type_is (JObj d) kind = Returns false ->
  opt_str_eqb (item_type_of (JObj d)) kind = false.
Proof.
  unfold item_type_of, item_type_is, type_of. cbn [Py.contains Py.getitem obind].
  destruct (Py.dict_get "item" d) as [item|]; [|reflexivity].
  cbn [obind].
  destruct item; try reflexivity.
  cbn [Py.getitem obind].
  destruct (Py.dict_get "type" d0) as [[]|]; try reflexivity.
  cbn. now intros [= ->].
Qed.

Lemma quiet_run_presentable (st st' : relay_state) (o : outcome (option string)) :
  client_ws st' = client_ws st ->
  (forall s, o = Returns (Some s) -> presentable s) ->
  shows_only_presentable st (o, st').
Proof.
  intros Hc Ho. split; [exact Ho|].
  exists []. now rewrite app_nil_r.
Qed.

(** What one upstream message can put in front of the client. *)
Lemma to_client_presentable (data : string) (st : relay_state) :
  shows_only_presentable st (_process_message_to_client self data st).
Proof.
  unfold _process_message_to_client, bind, lift, loads.
  destruct (json_loads data) as [message|] eqn:Hl;
    [|apply quiet_run_presentable; [reflexivity | discriminate]].
  assert (Hraw : function_call_traffic message = false ->
                 shows_only_presentable st (ret (Some data) st)).
  { intros Hf. apply (quiet_run_presentable st st (Returns (Some data)));
      [reflexivity|].
    intros s [= <-]. left. eauto. }
  assert (Hnone : shows_only_presentable st (ret None st)).
  { apply (quiet_run_presentable st st (Returns None)); [reflexivity | discriminate]. }
  assert (Hexn : forall e, shows_only_presentable st (Raises e, st)).
  { intros e. apply quiet_run_presentable; [reflexivity | discriminate]. }
  destruct message; try (apply Hraw; reflexivity); try apply Hexn.
  cbn [Py.getitem].
  destruct (Py.dict_get "type" d) as [ty|] eqn:Hd; [|apply Hexn].
  unfold match_type_to_client.
  destruct ty as [| | | |ty| |];
    try (apply Hraw; unfold function_call_traffic, type_of; now rewrite Hd).
  cbn [Py.eq_str].
  assert (Hty : type_of (JObj d) = Some ty) by (unfold type_of; now rewrite Hd).
  unfold function_call_traffic in Hraw. rewrite Hty in Hraw.
  repeat match goal with
  | |- context [String.eqb ty ?lit] =>
      let E := fresh "E" in
      destruct (String.eqb ty lit) eqn:E;
      [apply String.eqb_eq in E; subst ty;
       cbn [String.eqb Ascii.eqb Bool.eqb orb andb] in Hraw |
       try rewrite E in Hraw]
  end.
  - unfold bind, lift.
    destruct (Py.with_item (JObj d) "session" (redact_session self)) eqn:Hw;
      [|apply Hexn].
    apply quiet_run_presentable; [reflexivity|].
    intros s [= <-]. right. eexists. split; [reflexivity|].
    apply with_item_traffic in Hw; [|discriminate ..]. rewrite Hw.
    unfold function_call_traffic. now rewrite Hty.
  - unfold bind, lift.
    destruct (item_type_is (JObj d) "function_call") as [[|]|] eqn:Hi;
      [apply Hnone | | apply Hexn].
    apply Hraw. now rewrite (item_type_is_false _ _ Hi).
  - unfold bind at 1, lift at 1.
    destruct (item_type_is (JObj d) "function_call") as [[|]|] eqn:Hi;
      [ | | apply Hexn].
    + destruct (register_tool_call (JObj d) st) as [o st'] eqn:Hr.
      apply quiet_run_presentable.
      * change st' with (snd (o, st')). rewrite <- Hr.
        apply register_tool_call_client.
      * intros s Hs. exfalso.
        apply (register_tool_call_outcome (JObj d) st s). now rewrite Hr.
    + unfold bind, lift.
      destruct (item_type_is (JObj d) "function_call_output") as [[|]|] eqn:Ho;
        [apply Hnone | | apply Hexn].
      apply Hraw.
      now rewrite (item_type_is_false _ _ Hi), (item_type_is_false _ _ Ho).
  - apply Hnone.
  - apply Hnone.
  - unfold bind, lift.
    destruct (item_type_is (JObj d) "function_call") as [[|]|] eqn:Hi;
      [ | | apply Hexn].
    + split; [|apply dispatch_tool_client].
      intros s Hs. exfalso. exact (dispatch_tool_outcome _ _ _ Hs).
    + apply Hraw. now rewrite (item_type_is_false _ _ Hi).
  - split.
    + intros s Hs. apply conclude_response_outcome in Hs as [->|(m & -> & Hm)].
      * left. exists (JObj d). split; [exact Hl|].
        unfold function_call_traffic. now rewrite Hty.
      * right. exists m. split; [reflexivity|]. rewrite Hm.
        unfold function_call_traffic. now rewrite Hty.
    + exists []. rewrite app_nil_r. split; [|constructor].
      apply conclude_response_client.
  - apply Hraw. reflexivity.
Qed.

(** One message of function-call traffic is never returned for
    forwarding. *)
Lemma function_call_traffic_not_returned
    (data : string) (message : json) (st : relay_state) (s : string) :
  json_loads data = Some message ->
  function_call_traffic message = true ->
  fst (_process_message_to_client self data st) <> Returns (Some s).
Proof.
  intros Hl Ht.
  unfold function_call_traffic in Ht.
  destruct (type_of message) as [ty|] eqn:Hty; [|discriminate].
  destruct message; try discriminate.
  unfold type_of in Hty.
  destruct (Py.dict_get "type" d) as [[| | | |ty'| |]|] eqn:Hd; try discriminate.
  injection Hty as <-.
  unfold _process_message_to_client, match_type_to_client, bind at 1 2, lift at 1 2.
  rewrite (loads_returns _ _ Hl). cbn [Py.getitem]. rewrite Hd.
  cbn [Py.eq_str]. revert Ht.
  repeat match goal with
  | |- context [String.eqb ty' ?lit] =>
      let E := fresh "E" in
      destruct (String.eqb ty' lit) eqn:E;
      [apply String.eqb_eq in E; subst ty'; cbn [String.eqb Ascii.eqb Bool.eqb orb andb] | ]
  end;
  cbn [String.eqb Ascii.eqb Bool.eqb orb andb]; try discriminate.
  - rewrite !orb_false_r. unfold opt_str_eqb.
    destruct (item_type_of (JObj d)) as [k|] eqn:Hk; [|discriminate].
    intros Hk'. unfold bind, lift.
    rewrite (item_type_is_spec _ "function_call" _ Hk), Hk'. discriminate.
  - rewrite !orb_false_r. unfold opt_str_eqb.
    destruct (item_type_of (JObj d)) as [k|] eqn:Hk; [|discriminate].
    intros Hk'. unfold bind at 1, lift at 1.
    rewrite (item_type_is_spec _ "function_call" _ Hk).
    destruct (String.eqb k "function_call");
      [apply register_tool_call_outcome|].
    unfold bind, lift.
    rewrite (item_type_is_spec _ "function_call_output" _ Hk).
    cbn [orb] in Hk'. rewrite Hk'. discriminate.
  - unfold opt_str_eqb.
    destruct (item_type_of (JObj d)) as [k|] eqn:Hk; [|discriminate].
    intros Hk'. unfold bind, lift.
    rewrite (item_type_is_spec _ "function_call" _ Hk), Hk'.
    apply dispatch_tool_outcome.
Qed.

(** The upstream-to-client pump shows the client only presentable
    frames, whatever the upstream socket delivers. *)
Lemma pump_shows_only_presentable (target_ws : list WSMessage) (st : relay_state) :
  exists l, client_ws (snd (from_server_to_client self target_ws st))
              = (client_ws st ++ l)%list
            /\ Forall presentable l.
Proof.
  revert st. induction target_ws as [|[data|] rest IH]; intros st.
  - exists []. now rewrite app_nil_r.
  - cbn [from_server_to_client]. unfold bind at 1.
    destruct (to_client_presentable data st) as (Ho & l & Hc & Hl).
    destruct (_process_message_to_client self data st) as [[new_msg|e] st1];
      cbn [fst snd] in *.
    + unfold bind.
      destruct new_msg as [s|].
      * cbn [client_send_str].
        match goal with |- context [from_server_to_client self rest ?x] =>
          destruct (IH x) as (l' & Hc' & Hl') end.
        cbn [client_ws] in Hc'.
        exists (l ++ s :: l')%list. split.
        -- rewrite Hc', Hc, <- !app_assoc. reflexivity.
        -- apply Forall_app. split; [exact Hl|]. constructor; auto.
      * cbn [ret].
        destruct (IH st1) as (l' & Hc' & Hl').
        exists (l ++ l')%list. split.
        -- now rewrite Hc', Hc, app_assoc.
        -- apply Forall_app. auto.
    + exists l. auto.
  - cbn [from_server_to_client]. apply IH.
Qed.

(** C8: a message of function-call traffic (output-item-added for a
    function call, item-created for a function call or its output, the
    argument deltas and their completion, a raw output-item-done for a
    function call) is never returned for forwarding, and over any stream
    of upstream frames around it every frame the client receives is
    presentable: received text of a message outside that traffic, or the
    serialization of one. *)
Theorem client_never_sees_function_call_traffic
    (data : string) (message : json) (before after : list WSMessage)
    (st : relay_state) :
  json_loads data = Some message ->
  function_call_traffic message = true ->
  (forall s, fst (_process_message_to_client self data st) <> Returns (Some s)) /\
  exists l,
    client_ws (snd (from_server_to_client self (before ++ TEXT data :: after) st))
      = (client_ws st ++ l)%list
    /\ Forall presentable l.
Proof.
  intros Hl Ht. split.
  - intros s. now apply function_call_traffic_not_returned with (message := message).
  - apply pump_shows_only_presentable.
Qed.

Lemma item_type_is_returns (message item : json) (kind k : string) :
  Py.getitem message "item" = Returns item ->
  Py.getitem item "type" = Returns (JStr k) ->
  item_type_is message kind = Returns (String.eqb k kind).
Proof.
  intros Hi Hk. destruct (getitem_returns _ _ _ Hi) as (d & -> & Hd).
  unfold item_type_is. cbn [Py.contains obind]. rewrite Hd. cbn [obind].
  rewrite Hi. cbn [obind]. now rewrite Hk.
Qed.

(** Entering the [match] statement of the inbound transformer. *)
Lemma to_client_typed (data : string) (message ty : json) (st : relay_state) :
  json_loads data = Some message ->
  Py.getitem message "type" = Returns ty ->
  _process_message_to_client self data st
    = match_type_to_client self ty message data st.
Proof.
  intros Hl Hty. destruct (getitem_returns _ _ _ Hty) as (d & -> & Hd).
  unfold _process_message_to_client, bind, lift.
  now rewrite (loads_returns _ _ Hl), Hty.
Qed.

(** C10: an item-created message for a function call whose call
    identifier is already in the pending table leaves the table, and with it
    the recorded preceding item identifier, as it was; the message is
    suppressed. *)
Theorem known_call_id_is_not_registered_again
    (data : string) (message item call_id : json) (st : relay_state) :
  json_loads data = Some message ->
  Py.getitem message "type" = Returns (JStr "conversation.item.created") ->
  Py.getitem message "item" = Returns item ->
  Py.getitem item "type" = Returns (JStr "function_call") ->
  Py.getitem item "call_id" = Returns call_id ->
  pending_contains call_id (_tools_pending st) = Returns true ->
  _process_message_to_client self data st = (Returns None, st).
Proof.
  intros Hl Hty Hi Hk Hc Hp.
  rewrite (to_client_typed _ _ _ _ Hl Hty).
  unfold match_type_to_client. cbn [Py.eq_str String.eqb Ascii.eqb Bool.eqb].
  unfold bind at 1, lift at 1.
  rewrite (item_type_is_returns _ _ "function_call" _ Hi Hk).
  cbn [String.eqb Ascii.eqb Bool.eqb].
  unfold register_tool_call, bind, lift, get_pending.
  now rewrite Hi, Hc, Hp.
Qed.

(** C6: when a [response.done] message arrives with calls pending, the
    pending table is empty afterwards and exactly one [response.create]
    has been sent upstream; with no call pending nothing is sent and the
    table stays empty.  This holds even if the rest of the case raises. *)
Theorem response_done_concludes_pending_calls
    (data : string) (message : json) (st : relay_state) :
  json_loads data = Some message ->
  Py.getitem message "type" = Returns (JStr "response.done") ->
  let st' := snd (_process_message_to_client self data st) in
  _tools_pending st' = [] /\
  server_ws st' =
    (server_ws st ++ match _tools_pending st with
                     | [] => []
                     | _ :: _ => [json_dumps response_create]
                     end)%list.
Proof.
  intros Hl Hty. rewrite (to_client_typed _ _ _ _ Hl Hty).
  unfold match_type_to_client. cbn [Py.eq_str String.eqb Ascii.eqb Bool.eqb].
  unfold conclude_response, bind, lift, get_pending, put_pending, ret,
    server_send_json, server_send_str.
  destruct (_tools_pending st) eqn:Hp; cbn [List.length Nat.ltb Nat.leb];
    crunch; cbn; rewrite ?app_nil_r; auto.
Qed.

Lemma nth_error_other_item (out : list json) (idx : nat) (output : json) :
  forallb other_item out = true ->
  nth_error out idx = Some output ->
  exists ty, Py.getitem output "type" = Returns ty /\
             Py.eq_str ty "function_call" = false.
Proof.
  intros Hall Hn. apply nth_error_In in Hn.
  rewrite forallb_forall in Hall. specialize (Hall _ Hn).
  unfold other_item in Hall.
  destruct (Py.getitem output "type") as [ty|]; [|discriminate].
  exists ty. split; [reflexivity|]. now apply negb_true_iff.
Qed.

(** Without function-call entries the removal loop changes nothing. *)
Lemma pop_loop_no_function_call (out : list json) (replace : bool) :
  forallb other_item out = true ->
  forall n i, pop_loop n i out replace = Returns (out, replace).
Proof.
  intros Hall. induction n as [|idx IH]; intros i; cbn [pop_loop]; [reflexivity|].
  destruct (nth_error out idx) as [output|] eqn:Hn; [|reflexivity].
  destruct (nth_error_other_item _ _ _ Hall Hn) as (ty & Hty & Hfc).
  rewrite Hty. cbn [obind]. rewrite Hfc. apply IH.
Qed.

(** C7: a [response.done] message whose output list holds no
    function-call entry is forwarded as the very text that was received. *)
Theorem response_done_without_function_call_is_forwarded_raw
    (data : string) (message response : json) (out : list json)
    (st : relay_state) :
  json_loads data = Some message ->
  Py.getitem message "type" = Returns (JStr "response.done") ->
  Py.getitem message "response" = Returns response ->
  Py.getitem response "output" = Returns (JArr out) ->
  forallb other_item out = true ->
  fst (_process_message_to_client self data st) = Returns (Some data).
Proof.
  intros Hl Hty Hr Ho Hall. rewrite (to_client_typed _ _ _ _ Hl Hty).
  destruct (getitem_returns _ _ _ Hr) as (d & -> & Hd).
  destruct (getitem_returns _ _ _ Ho) as (dr & -> & Hdr).
  unfold match_type_to_client. cbn [Py.eq_str String.eqb Ascii.eqb Bool.eqb].
  unfold conclude_response. unfold bind at 1 2.
  destruct (get_pending st) as [o st1] eqn:Hg.
  unfold get_pending in Hg. injection Hg as <- <-.
  match goal with
  | |- context [(if ?c then ?a else ?b) st] =>
      destruct ((if c then a else b) st) as [[[]|e] st2] eqn:Hclear
  end.
  2:{ exfalso. revert Hclear.
      unfold bind, put_pending, server_send_json, server_send_str, ret.
      destruct (0 <? Datatypes.length (_tools_pending st))%nat; discriminate. }
  unfold bind, lift. cbn [Py.contains]. rewrite Hd.
  unfold Py.with_item. rewrite Hr. cbn [obind]. rewrite Ho. cbn [obind].
  cbn [strip_function_calls]. rewrite (pop_loop_no_function_call _ _ Hall).
  reflexivity.
Qed.

Lemma dict_get_set (k k' : string) (v : json) (d : list (string * json)) :
  Py.dict_get k' (Py.dict_set k v d)
    = if String.eqb k k' then Some v else Py.dict_get k' d.
Proof.
  destruct (String.eqb_spec k k') as [<-|Hne].
  - apply dict_get_set_same.
  - apply dict_get_set_other. congruence.
Qed.

Lemma set_if_not_none_spec (d : list (string * json)) (k : string) (o : option json) :
  exists d', set_if_not_none (JObj d) k o = Returns (JObj d') /\
             forall k', Py.dict_get k' d'
                        = if String.eqb k k'
                          then match o with
                               | Some v => Some v
                               | None => Py.dict_get k' d
                               end
                          else Py.dict_get k' d.
Proof.
  destruct o as [v|]; cbn [set_if_not_none Py.setitem].
  - eexists. split; [reflexivity|]. intros k'. apply dict_get_set.
  - exists d. split; [reflexivity|]. intros k'. now destruct (String.eqb k k').
Qed.

(** The session a [session.update] leaves behind: the enforced value
    where there is one, the client's own field elsewhere. *)
Lemma enforce_session_spec (session : list (string * json)) :
  exists session',
    enforce_session self (JObj session) = Returns (JObj session', tt) /\
    forall k, Py.dict_get k session'
              = match enforced_value self k with
                | Some v => Some v
                | None => Py.dict_get k session
                end.
Proof.
  unfold enforce_session.
  destruct (set_if_not_none_spec session "instructions"
              (option_map JStr (system_message self))) as (s1 & -> & H1).
  cbn [obind].
  destruct (set_if_not_none_spec s1 "temperature"
              (option_map JFloat (temperature self))) as (s2 & -> & H2).
  cbn [obind].
  destruct (set_if_not_none_spec s2 "max_response_output_tokens"
              (option_map JInt (max_tokens self))) as (s3 & -> & H3).
  cbn [obind].
  destruct (set_if_not_none_spec s3 "disable_audio"
              (option_map JBool (disable_audio self))) as (s4 & -> & H4).
  cbn [obind].
  destruct (set_if_not_none_spec s4 "voice"
              (option_map JStr (voice_choice self))) as (s5 & -> & H5).
  cbn [obind Py.setitem].
  eexists. split; [reflexivity|].
  intros k. rewrite !dict_get_set, H5, H4, H3, H2, H1.
  unfold enforced_value.
  rewrite !(String.eqb_sym k).
  assert (Hc : (if (0 <? Datatypes.length (tools self))%nat then "auto" else "none")
               = match tools self with [] => "none" | _ :: _ => "auto" end)
    by (now destruct (tools self)).
  rewrite Hc.
  repeat match goal with
  | |- context [String.eqb ?lit k] =>
      destruct (String.eqb_spec lit k) as [<-|?];
      [cbn [String.eqb Ascii.eqb Bool.eqb]|]
  end;
  repeat match goal with
  | |- context [match ?o with Some _ => _ | None => _ end] => destruct o
  end; reflexivity.
Qed.

(** Entering the [session.update] case of the outbound transformer. *)
Lemma to_server_session_update
    (data : string) (message : json) (session : list (string * json))
    (st : relay_state) :
  json_loads data = Some message ->
  Py.getitem message "type" = Returns (JStr "session.update") ->
  Py.getitem message "session" = Returns (JObj session) ->
  exists (d session' : list (string * json)),
    message = JObj d /\
    _process_message_to_server self data st
      = (Returns (Some (json_dumps (JObj (Py.dict_set "session" (JObj session') d)))), st) /\
    forall k, Py.dict_get k session'
              = match enforced_value self k with
                | Some v => Some v
                | None => Py.dict_get k session
                end.
Proof.
  intros Hl Hty Hs.
  destruct (getitem_returns _ _ _ Hty) as (d & -> & Hd).
  destruct (enforce_session_spec session) as (session' & He & Hk).
  exists d, session'. split; [reflexivity|]. split; [|exact Hk].
  unfold _process_message_to_server, bind, lift.
  rewrite (loads_returns _ _ Hl), Hty. cbn [Py.eq_str String.eqb Ascii.eqb Bool.eqb].
  unfold Py.with_item. rewrite Hs. cbn [obind]. rewrite He. reflexivity.
Qed.

(** C4: a client [session.update] is forwarded re-serialized with every
    server-enforced field that is set (instructions, temperature, max
    output tokens, audio-disable flag, voice) overwritten by the server's
    value, [tools] replaced by the schemas of all registered tools, and
    [tool_choice] set to "auto" when a tool is registered and to "none"
    when none is. *)
Theorem session_update_is_overridden
    (data : string) (message : json) (session : list (string * json))
    (st : relay_state) :
  json_loads data = Some message ->
  Py.getitem message "type" = Returns (JStr "session.update") ->
  Py.getitem message "session" = Returns (JObj session) ->
  exists (message' : json) (session' : list (string * json)),
    _process_message_to_server self data st
      = (Returns (Some (json_dumps message')), st) /\
    Py.getitem message' "type" = Returns (JStr "session.update") /\
    Py.getitem message' "session" = Returns (JObj session') /\
    (forall v, system_message self = Some v ->
               Py.dict_get "instructions" session' = Some (JStr v)) /\
    (forall v, temperature self = Some v ->
               Py.dict_get "temperature" session' = Some (JFloat v)) /\
    (forall v, max_tokens self = Some v ->
               Py.dict_get "max_response_output_tokens" session' = Some (JInt v)) /\
    (forall v, disable_audio self = Some v ->
               Py.dict_get "disable_audio" session' = Some (JBool v)) /\
    (forall v, voice_choice self = Some v ->
               Py.dict_get "voice" session' = Some (JStr v)) /\
    Py.dict_get "tools" session'
      = Some (JArr (map (fun t => schema (snd t)) (tools self))) /\
    Py.dict_get "tool_choice" session'
      = Some (JStr (match tools self with [] => "none" | _ :: _ => "auto" end)).
Proof.
  intros Hl Hty Hs.
  destruct (to_server_session_update _ _ _ st Hl Hty Hs)
    as (d & session' & -> & Hrun & Hk).
  exists (JObj (Py.dict_set "session" (JObj session') d)), session'.
  split; [exact Hrun|].
  cbn [Py.getitem] in *.
  rewrite dict_get_set_other by discriminate.
  rewrite dict_get_set_same.
  split; [exact Hty|]. split; [reflexivity|].
  repeat split; try intros v Hv; rewrite Hk; unfold enforced_value;
    cbn [String.eqb Ascii.eqb Bool.eqb]; try rewrite Hv; reflexivity.
Qed.

(** C9: in a forwarded [session.update] every session field other than
    the seven the server can write keeps the client's value, and so does
    each of instructions, temperature, max output tokens, audio-disable
    flag and voice whose server value is unset; the fields of the message
    around the session are kept as well. *)
Theorem session_update_keeps_other_fields
    (data : string) (message : json) (session : list (string * json))
    (st : relay_state) :
  json_loads data = Some message ->
  Py.getitem message "type" = Returns (JStr "session.update") ->
  Py.getitem message "session" = Returns (JObj session) ->
  exists (message' : json) (session' : list (string * json)),
    _process_message_to_server self data st
      = (Returns (Some (json_dumps message')), st) /\
    Py.getitem message' "session" = Returns (JObj session') /\
    (forall k, k <> "session" -> Py.getitem message' k = Py.getitem message k) /\
    (forall k, ~ In k enforced_fields ->
               Py.dict_get k session' = Py.dict_get k session) /\
    (system_message self = None ->
     Py.dict_get "instructions" session' = Py.dict_get "instructions" session) /\
    (temperature self = None ->
     Py.dict_get "temperature" session' = Py.dict_get "temperature" session) /\
    (max_tokens self = None ->
     Py.dict_get "max_response_output_tokens" session'
       = Py.dict_get "max_response_output_tokens" session) /\
    (disable_audio self = None ->
     Py.dict_get "disable_audio" session' = Py.dict_get "disable_audio" session) /\
    (voice_choice self = None ->
     Py.dict_get "voice" session' = Py.dict_get "voice" session).
Proof.
  intros Hl Hty Hs.
  destruct (to_server_session_update _ _ _ st Hl Hty Hs)
    as (d & session' & -> & Hrun & Hk).
  exists (JObj (Py.dict_set "session" (JObj session') d)), session'.
  split; [exact Hrun|].
  cbn [Py.getitem].
  rewrite dict_get_set_same.
  split; [reflexivity|].
  split.
  { intros k Hne. now rewrite dict_get_set_other. }
  split.
  { intros k Hnot. rewrite Hk. unfold enforced_value.
    repeat match goal with
    | |- context [String.eqb k ?lit] =>
        destruct (String.eqb_spec k lit) as [->|?];
        [exfalso; apply Hnot; unfold enforced_fields; cbn [In]; tauto|]
    end.
    reflexivity. }
  repeat split; intros Hv; rewrite Hk; unfold enforced_value;
    cbn [String.eqb Ascii.eqb Bool.eqb]; rewrite Hv; reflexivity.
Qed.

(** Entering the dispatch of a function call, up to the handler. *)
Lemma to_client_dispatch
    (data : string) (message item : json) (st : relay_state) :
  json_loads data = Some message ->
  Py.getitem message "type" = Returns (JStr "response.output_item.done") ->
  Py.getitem message "item" = Returns item ->
  Py.getitem item "type" = Returns (JStr "function_call") ->
  _process_message_to_client self data st = dispatch_tool self message st.
Proof.
  intros Hl Hty Hi Hk.
  rewrite (to_client_typed _ _ _ _ Hl Hty).
  unfold match_type_to_client. cbn [Py.eq_str String.eqb Ascii.eqb Bool.eqb].
  unfold bind at 1, lift at 1.
  now rewrite (item_type_is_returns _ _ "function_call" _ Hi Hk).
Qed.

(** C1: an [output_item.done] for a function call whose call identifier is
    pending and whose tool is registered.  When its arguments are text that
    parses and the handler returns a result, it sends exactly one
    [conversation.item.create] upstream, carrying a [function_call_output]
    for the same call identifier whose output is the result's text for
    [TO_SERVER] and empty otherwise; it sends the client one
    [extension.middle_tier_tool_response] with the recorded previous item
    identifier, the tool name and the result text exactly when the
    destination is [TO_CLIENT]; and it returns nothing to forward.  In
    every other case nothing is sent, the pending table is unchanged and
    an exception leaves the transformer: [TypeError] for arguments that are
    not text, [JSONDecodeError] for text that does not parse, and the
    handler's own exception when the handler raises. *)
Theorem function_call_done_sends_output_upstream
    (data : string) (message item call_id name args : json)
    (tool_call : RTToolCall) (tool : Tool) (st : relay_state) :
  json_loads data = Some message ->
  Py.getitem message "type" = Returns (JStr "response.output_item.done") ->
  Py.getitem message "item" = Returns item ->
  Py.getitem item "type" = Returns (JStr "function_call") ->
  Py.getitem item "call_id" = Returns call_id ->
  pending_getitem (_tools_pending st) call_id = Returns tool_call ->
  Py.getitem item "name" = Returns name ->
  tools_getitem (tools self) name = Returns tool ->
  Py.getitem item "arguments" = Returns args ->
  _process_message_to_client self data st =
  match args with
  | JStr arguments =>
      match json_loads arguments with
      | None => (Raises JSONDecodeError, st)
      | Some parsed =>
          match target tool parsed with
          | Raises e => (Raises e, st)
          | Returns result =>
              (Returns None,
               {| _tools_pending := _tools_pending st;
                  server_ws :=
                    server_ws st ++
                    [json_dumps
                       (function_call_output call_id
                          match destination result with
                          | TO_SERVER => to_text result
                          | TO_CLIENT => ""
                          end)];
                  client_ws :=
                    client_ws st ++
                    match destination result with
                    | TO_SERVER => []
                    | TO_CLIENT =>
                        [json_dumps
                           (middle_tier_tool_response (previous_id tool_call) name
                              (to_text result))]
                    end |})
          end
      end
  | _ => (Raises TypeError, st)
  end.
Proof.
  intros Hl Hty Hi Hk Hc Hp Hn Ht Ha.
  rewrite (to_client_dispatch _ _ _ _ Hl Hty Hi Hk).
  unfold dispatch_tool, bind, lift, get_pending.
  rewrite Hi, Hc, Hp, Hn, Ht, Ha.
  destruct args as [| | | |arguments| |]; cbn [loads_value]; try reflexivity.
  unfold loads.
  destruct (json_loads arguments) as [parsed|]; [|reflexivity].
  destruct (target tool parsed) as [result|e]; [|reflexivity].
  unfold server_send_json, client_send_json, server_send_str, client_send_str, ret.
  destruct (destination result); cbn; rewrite ?app_nil_r; reflexivity.
Qed.

(** C2: an exception raised by the tool's handler is not caught at the
    dispatch.  It leaves the transformer as it was
    raised, nothing has been sent upstream or to the client, the pending
    table is untouched, and the upstream-to-client pump ends with that
    exception, whatever frames were still to come. *)
Theorem handler_fault_propagates
    (data arguments : string) (message item call_id name parsed : json)
    (tool_call : RTToolCall) (tool : Tool) (e : exn)
    (rest : list WSMessage) (st : relay_state) :
  json_loads data = Some message ->
  Py.getitem message "type" = Returns (JStr "response.output_item.done") ->
  Py.getitem message "item" = Returns item ->
  Py.getitem item "type" = Returns (JStr "function_call") ->
  Py.getitem item "call_id" = Returns call_id ->
  pending_getitem (_tools_pending st) call_id = Returns tool_call ->
  Py.getitem item "name" = Returns name ->
  tools_getitem (tools self) name = Returns tool ->
  Py.getitem item "arguments" = Returns (JStr arguments) ->
  json_loads arguments = Some parsed ->
  target tool parsed = Raises e ->
  _process_message_to_client self data st = (Raises e, st) /\
  from_server_to_client self (TEXT data :: rest) st = (Raises e, st).
Proof.
  intros Hl Hty Hi Hk Hc Hp Hn Ht Ha Hla Hr.
  assert (Hrun : _process_message_to_client self data st = (Raises e, st)).
  { rewrite (to_client_dispatch _ _ _ _ Hl Hty Hi Hk).
    unfold dispatch_tool, bind, lift, get_pending.
    rewrite Hi, Hc, Hp, Hn, Ht, Ha. cbn [loads_value].
    now rewrite (loads_returns _ _ Hla), Hr. }
  split; [exact Hrun|].
  cbn [from_server_to_client]. unfold bind at 1. now rewrite Hrun.
Qed.

End Transformers.

(** ** Further properties of the transformers *)

Section Coverage.
Context {codec : JsonCodec}.
Variable self : RTMiddleTier.

Ltac crunch :=
  repeat match goal with
  | |- context [match ?x with _ => _ end] => destruct x eqn:?
  | H : context [match ?x with _ => _ end] |- _ => destruct x eqn:?
  | H : (_, _) = (_, _) |- _ => injection H as ? ?; subst
  end.

Lemma match_type_unhandled (ty message : json) (data : string) (st : relay_state) :
  forallb (fun s => negb (Py.eq_str ty s)) handled_to_client = true ->
  match_type_to_client self ty message data st = (Returns (Some data), st).
Proof.
  unfold handled_to_client. cbn [forallb]. rewrite !andb_true_iff, !negb_true_iff.
  intros (H1 & H2 & H3 & H4 & H5 & H6 & H7 & _).
  unfold match_type_to_client. now rewrite H1, H2, H3, H4, H5, H6, H7.
Qed.

(** X1: a message whose type is none of the seven the inbound transformer
    has a case for is returned for forwarding as the very text received,
    and nothing else happens. *)
Theorem unhandled_type_passes_through
    (data : string) (message ty : json) (st : relay_state) :
  json_loads data = Some message ->
  Py.getitem message "type" = Returns ty ->
  forallb (fun s => negb (Py.eq_str ty s)) handled_to_client = true ->
  _process_message_to_client self data st = (Returns (Some data), st).
Proof.
  intros Hl Hty Hno. rewrite (to_client_typed _ _ _ _ _ Hl Hty).
  now apply match_type_unhandled.
Qed.

(** X2: what the inbound transformer does with a frame that is not a typed
    object: text that is not JSON raises [JSONDecodeError], JSON [null] is
    forwarded as received, any other value that is not an object raises
    [TypeError], and an object without a [type] raises [KeyError]; in each
    case nothing is sent and the pending table is left alone. *)
Theorem to_client_untyped_frames (data : string) (st : relay_state) :
  match json_loads data with
  | None => _process_message_to_client self data st = (Raises JSONDecodeError, st)
  | Some JNull => _process_message_to_client self data st = (Returns (Some data), st)
  | Some (JObj d) =>
      Py.dict_get "type" d = None ->
      _process_message_to_client self data st = (Raises KeyError, st)
  | Some _ => _process_message_to_client self data st = (Raises TypeError, st)
  end.
Proof.
  unfold _process_message_to_client, bind, lift, loads.
  destruct (json_loads data) as [[]|]; try reflexivity.
  cbn [Py.getitem]. now intros ->.
Qed.

Lemma item_is_none_of_spec (d : list (string * json)) (kinds : list string) (k : string) :
  item_is_none_of (JObj d) kinds = true ->
  In k kinds ->
  item_type_is (JObj d) k = Returns false.
Proof.
  unfold item_is_none_of, item_type_is. cbn [Py.contains Py.getitem obind].
  destruct (Py.dict_get "item" d) as [item|]; [|reflexivity].
  cbn [obind].
  destruct (Py.getitem item "type") as [ty|]; [|discriminate].
  intros Hall Hin. cbn [obind].
  rewrite forallb_forall in Hall. specialize (Hall _ Hin).
  apply negb_true_iff in Hall. now rewrite Hall.
Qed.

(** X3: an output-item-added or output-item-done message that has no item,
    or whose item is of a type other than [function_call], and an
    item-created message that has no item, or whose item is neither a
    [function_call] nor a [function_call_output], is returned for
    forwarding as the very text received, and nothing else happens. *)
Theorem other_items_pass_through
    (data : string) (message : json) (ty : string) (st : relay_state) :
  json_loads data = Some message ->
  Py.getitem message "type" = Returns (JStr ty) ->
  ((ty = "response.output_item.added" \/ ty = "response.output_item.done")
   /\ item_is_none_of message ["function_call"] = true)
  \/ (ty = "conversation.item.created"
      /\ item_is_none_of message ["function_call"; "function_call_output"] = true) ->
  _process_message_to_client self data st = (Returns (Some data), st).
Proof.
  intros Hl Hty Hcase. rewrite (to_client_typed _ _ _ _ _ Hl Hty).
  destruct (getitem_returns _ _ _ Hty) as (d & -> & _).
  unfold match_type_to_client, bind, lift.
  destruct Hcase as [[[-> | ->] Hitem] | [-> Hitem]];
    cbn [Py.eq_str String.eqb Ascii.eqb Bool.eqb].
  - now rewrite (item_is_none_of_spec _ _ "function_call" Hitem) by (cbn; auto).
  - now rewrite (item_is_none_of_spec _ _ "function_call" Hitem) by (cbn; auto).
  - rewrite (item_is_none_of_spec _ _ "function_call" Hitem) by (cbn; auto).
    now rewrite (item_is_none_of_spec _ _ "function_call_output" Hitem) by (cbn; auto).
Qed.

Lemma pending_set_absent (k : json) (c : RTToolCall) (p : pending_table) :
  pending_find k p = None -> pending_set k c p = (p ++ [(k, c)])%list.
Proof.
  induction p as [|[k' c'] p IH]; cbn [pending_find pending_set app]; [reflexivity|].
  destruct (Py.key_eqb k' k); [discriminate|]. intros H. now rewrite IH.
Qed.

Lemma pending_contains_false (k : json) (p : pending_table) :
  pending_contains k p = Returns false ->
  Py.hashable k = true /\ pending_find k p = None.
Proof.
  unfold pending_contains. destruct (Py.hashable k); [|discriminate].
  destruct (pending_find k p); [discriminate|]. auto.
Qed.

Lemma new_call_id_is_registered_aux
    (data : string) (message item call_id previous : json) (st : relay_state) :
  json_loads data = Some message ->
  Py.getitem message "type" = Returns (JStr "conversation.item.created") ->
  Py.getitem message "item" = Returns item ->
  Py.getitem item "type" = Returns (JStr "function_call") ->
  Py.getitem item "call_id" = Returns call_id ->
  pending_contains call_id (_tools_pending st) = Returns false ->
  Py.getitem message "previous_item_id" = Returns previous ->
  _process_message_to_client self data st =
  (Returns None,
   {| _tools_pending :=
        (_tools_pending st
         ++ [(call_id, {| tool_call_id := call_id; previous_id := previous |})])%list;
      server_ws := server_ws st;
      client_ws := client_ws st |}).
Proof.
  intros Hl Hty Hi Hk Hc Hp Hprev.
  rewrite (to_client_typed _ _ _ _ _ Hl Hty).
  unfold match_type_to_client. cbn [Py.eq_str String.eqb Ascii.eqb Bool.eqb].
  unfold bind at 1, lift at 1.
  rewrite (item_type_is_returns _ _ "function_call" _ Hi Hk).
  cbn [String.eqb Ascii.eqb Bool.eqb].
  unfold register_tool_call, bind, lift, get_pending, put_pending, ret.
  rewrite Hi, Hc, Hp, Hprev.
  destruct (pending_contains_false _ _ Hp) as [_ Hfind].
  now rewrite (pending_set_absent _ _ _ Hfind).
Qed.

(** X4: an item-created message for a function call whose call identifier
    is not yet in the pending table appends one entry to the table, keyed
    by the call identifier and recording the message's [previous_item_id];
    the entries already there are kept, nothing is sent, and the message
    is not forwarded. *)
Theorem new_call_id_is_registered
    (data : string) (message item call_id previous : json) (st : relay_state) :
  json_loads data = Some message ->
  Py.getitem message "type" = Returns (JStr "conversation.item.created") ->
  Py.getitem message "item" = Returns item ->
  Py.getitem item "type" = Returns (JStr "function_call") ->
  Py.getitem item "call_id" = Returns call_id ->
  pending_contains call_id (_tools_pending st) = Returns false ->
  Py.getitem message "previous_item_id" = Returns previous ->
  _process_message_to_client self data st =
  (Returns None,
   {| _tools_pending :=
        (_tools_pending st
         ++ [(call_id, {| tool_call_id := call_id; previous_id := previous |})])%list;
      server_ws := server_ws st;
      client_ws := client_ws st |}).
Proof. apply new_call_id_is_registered_aux. Qed.

(** X5: an output-item-done for a function call is not dispatched when its
    call identifier is not in the pending table ([KeyError], or
    [TypeError] for an identifier that cannot be a key) or when its tool
    name is not registered: the exception leaves the transformer, the
    handler's result plays no part, nothing is sent and the table is
    unchanged. *)
Theorem dispatch_lookup_failures
    (data : string) (message item call_id : json) (e : exn) (st : relay_state) :
  json_loads data = Some message ->
  Py.getitem message "type" = Returns (JStr "response.output_item.done") ->
  Py.getitem message "item" = Returns item ->
  Py.getitem item "type" = Returns (JStr "function_call") ->
  Py.getitem item "call_id" = Returns call_id ->
  pending_getitem (_tools_pending st) call_id = Raises e
  \/ (exists tool_call name,
        pending_getitem (_tools_pending st) call_id = Returns tool_call /\
        Py.getitem item "name" = Returns name /\
        tools_getitem (tools self) name = Raises e) ->
  _process_message_to_client self data st = (Raises e, st).
Proof.
  intros Hl Hty Hi Hk Hc Hcase.
  rewrite (to_client_dispatch _ _ _ _ _ Hl Hty Hi Hk).
  unfold dispatch_tool, bind, lift, get_pending.
  rewrite Hi, Hc.
  destruct Hcase as [Hp | (tool_call & name & Hp & Hn & Ht)].
  - now rewrite Hp.
  - now rewrite Hp, Hn, Ht.
Qed.

Lemma dispatch_tool_returns
    (arguments : string) (message item call_id name parsed : json)
    (tool_call : RTToolCall) (tool : Tool) (result : ToolResult)
    (st : relay_state) :
  Py.getitem message "item" = Returns item ->
  Py.getitem item "call_id" = Returns call_id ->
  pending_getitem (_tools_pending st) call_id = Returns tool_call ->
  Py.getitem item "name" = Returns name ->
  tools_getitem (tools self) name = Returns tool ->
  Py.getitem item "arguments" = Returns (JStr arguments) ->
  json_loads arguments = Some parsed ->
  target tool parsed = Returns result ->
  dispatch_tool self message st =
  (Returns None,
   {| _tools_pending := _tools_pending st;
      server_ws :=
        (server_ws st ++
         [json_dumps
            (function_call_output call_id
               match destination result with
               | TO_SERVER => to_text result
               | TO_CLIENT => EmptyString
               end)])%list;
      client_ws :=
        (client_ws st ++
         match destination result with
         | TO_SERVER => []
         | TO_CLIENT =>
             [json_dumps
                (middle_tier_tool_response (previous_id tool_call) name
                   (to_text result))]
         end)%list |}).
Proof.
  intros Hi Hc Hp Hn Ht Ha Hla Hr.
  unfold dispatch_tool, bind, lift, get_pending.
  rewrite Hi, Hc, Hp, Hn, Ht, Ha. cbn [loads_value].
  rewrite (loads_returns _ _ Hla), Hr.
  unfold server_send_json, client_send_json, server_send_str, client_send_str, ret.
  destruct (destination result); cbn; rewrite ?app_nil_r; reflexivity.
Qed.

Lemma pending_find_app_new (k : json) (c : RTToolCall) (p : pending_table) :
  pending_find k p = None ->
  Py.key_eqb k k = true ->
  pending_find k (p ++ [(k, c)])%list = Some c.
Proof.
  intros Hnone Hrefl.
  induction p as [|[k' c'] p IH]; cbn [pending_find app].
  - now rewrite Hrefl.
  - cbn [pending_find] in Hnone. destruct (Py.key_eqb k' k); [discriminate|]. auto.
Qed.

(** X6: a function call announced by an item-created message and then
    completed by an output-item-done for the same call identifier is
    dispatched with what the announcement recorded: one function-call
    output for that identifier goes upstream, and when the result is for
    the client, the extension message carries the [previous_item_id] of the
    announcement.  The call is still in the pending table afterwards. *)
Theorem announced_call_is_dispatched
    (created done arguments c : string)
    (m1 i1 previous m2 i2 name parsed : json)
    (tool : Tool) (result : ToolResult) (st : relay_state) :
  json_loads created = Some m1 ->
  Py.getitem m1 "type" = Returns (JStr "conversation.item.created") ->
  Py.getitem m1 "item" = Returns i1 ->
  Py.getitem i1 "type" = Returns (JStr "function_call") ->
  Py.getitem i1 "call_id" = Returns (JStr c) ->
  pending_contains (JStr c) (_tools_pending st) = Returns false ->
  Py.getitem m1 "previous_item_id" = Returns previous ->
  json_loads done = Some m2 ->
  Py.getitem m2 "type" = Returns (JStr "response.output_item.done") ->
  Py.getitem m2 "item" = Returns i2 ->
  Py.getitem i2 "type" = Returns (JStr "function_call") ->
  Py.getitem i2 "call_id" = Returns (JStr c) ->
  Py.getitem i2 "name" = Returns name ->
  tools_getitem (tools self) name = Returns tool ->
  Py.getitem i2 "arguments" = Returns (JStr arguments) ->
  json_loads arguments = Some parsed ->
  target tool parsed = Returns result ->
  from_server_to_client self [TEXT created; TEXT done] st =
  (Returns tt,
   {| _tools_pending :=
        (_tools_pending st
         ++ [(JStr c, {| tool_call_id := JStr c; previous_id := previous |})])%list;
      server_ws :=
        (server_ws st ++
         [json_dumps
            (function_call_output (JStr c)
               match destination result with
               | TO_SERVER => to_text result
               | TO_CLIENT => EmptyString
               end)])%list;
      client_ws :=
        (client_ws st ++
         match destination result with
         | TO_SERVER => []
         | TO_CLIENT =>
             [json_dumps
                (middle_tier_tool_response previous name (to_text result))]
         end)%list |}).
Proof.
  intros Hl1 Hty1 Hi1 Hk1 Hc1 Hp Hprev Hl2 Hty2 Hi2 Hk2 Hc2 Hn Ht Ha Hla Hr.
  cbn [from_server_to_client]. unfold bind at 1.
  rewrite (new_call_id_is_registered_aux _ _ _ _ _ _ Hl1 Hty1 Hi1 Hk1 Hc1 Hp Hprev).
  unfold bind at 1. cbn [ret]. unfold bind at 1.
  rewrite (to_client_dispatch _ _ _ _ _ Hl2 Hty2 Hi2 Hk2).
  destruct (pending_contains_false _ _ Hp) as [_ Hfind].
  match goal with
  | |- context [dispatch_tool self m2 ?st1] =>
      assert (Hget : pending_getitem (_tools_pending st1) (JStr c)
                     = Returns {| tool_call_id := JStr c; previous_id := previous |})
  end.
  { cbn [_tools_pending]. unfold pending_getitem. cbn [Py.hashable].
    rewrite (pending_find_app_new _ _ _ Hfind); [reflexivity|].
    cbn [Py.key_eqb]. apply String.eqb_refl. }
  rewrite (dispatch_tool_returns _ _ _ _ _ _ _ _ _ _ Hi2 Hc2 Hget Hn Ht Ha Hla Hr).
  reflexivity.
Qed.

Lemma register_tool_call_table (message : json) (st : relay_state) :
  _tools_pending (snd (register_tool_call message st)) = _tools_pending st
  \/ exists k c, pending_find k (_tools_pending st) = None /\
                 _tools_pending (snd (register_tool_call message st))
                 = (_tools_pending st ++ [(k, c)])%list.
Proof.
  unfold register_tool_call, bind, lift, get_pending, put_pending, ret.
  destruct (Py.getitem message "item") as [item|]; [|now left].
  destruct (Py.getitem item "call_id") as [call_id|]; [|now left].
  destruct (pending_contains call_id (_tools_pending st)) as [[|]|] eqn:Hp;
    [now left | | now left].
  destruct (Py.getitem message "previous_item_id") as [previous|]; [|now left].
  right. destruct (pending_contains_false _ _ Hp) as [_ Hfind].
  eexists _, _. split; [exact Hfind|].
  cbn [snd _tools_pending]. now apply pending_set_absent.
Qed.

Lemma dispatch_tool_table (message : json) (st : relay_state) :
  _tools_pending (snd (dispatch_tool self message st)) = _tools_pending st.
Proof.
  unfold dispatch_tool, bind, lift, get_pending, ret,
    server_send_json, client_send_json, server_send_str, client_send_str.
  crunch; reflexivity.
Qed.

Lemma conclude_response_table (message : json) (data : string) (st : relay_state) :
  _tools_pending (snd (conclude_response message data st)) = [].
Proof.
  unfold conclude_response, bind, lift, get_pending, put_pending, ret,
    server_send_json, server_send_str.
  destruct (_tools_pending st) eqn:Hp; cbn [List.length Nat.ltb Nat.leb];
    crunch; cbn; auto.
Qed.

Lemma type_of_getitem (d : list (string * json)) (ty : string) :
  Py.dict_get "type" d = Some (JStr ty) -> type_of (JObj d) = Some ty.
Proof. unfold type_of. now intros ->. Qed.

Lemma pending_table_step_aux (data : string) (st : relay_state) :
  let p := _tools_pending st in
  let p' := _tools_pending (snd (_process_message_to_client self data st)) in
  p' = p
  \/ (exists message, json_loads data = Some message /\
                      type_of message = Some "response.done" /\ p' = [])
  \/ (exists message k c,
        json_loads data = Some message /\
        type_of message = Some "conversation.item.created" /\
        pending_find k p = None /\ p' = (p ++ [(k, c)])%list).
Proof.
  cbv zeta.
  unfold _process_message_to_client, bind, lift, loads.
  destruct (json_loads data) as [message|] eqn:Hl; [|now left].
  destruct message; try (now left).
  cbn [Py.getitem].
  destruct (Py.dict_get "type" d) as [ty|] eqn:Hd; [|now left].
  unfold match_type_to_client.
  destruct ty as [| | | |ty| |]; try (now left).
  cbn [Py.eq_str].
  pose proof (type_of_getitem _ _ Hd) as Hty.
  repeat match goal with
  | |- context [String.eqb ty ?lit] =>
      let E := fresh "E" in
      destruct (String.eqb ty lit) eqn:E;
      [apply String.eqb_eq in E; subst ty|]
  end.
  - left. unfold bind, lift, ret. crunch; reflexivity.
  - left. unfold bind, lift, ret. crunch; reflexivity.
  - unfold bind at 1, lift at 1.
    destruct (item_type_is (JObj d) "function_call") as [[|]|]; [| |now left].
    + destruct (register_tool_call_table (JObj d) st) as [H | (k & c & Hk & H)].
      * now left.
      * right. right. exists (JObj d), k, c. auto.
    + left. unfold bind, lift, ret. crunch; reflexivity.
  - now left.
  - now left.
  - unfold bind, lift.
    destruct (item_type_is (JObj d) "function_call") as [[|]|]; [| now left ..].
    left. apply dispatch_tool_table.
  - right. left. exists (JObj d). split; [reflexivity|]. split; [exact Hty|].
    apply conclude_response_table.
  - now left.
Qed.

(** X7: what one upstream message can do to the pending table.  It is left
    as it is, or a [response.done] empties it, or an item-created message
    appends one entry under a call identifier that was not there.  Nothing
    else changes it: in particular dispatching a call does not take it out
    of the table. *)
Theorem pending_table_step (data : string) (st : relay_state) :
  let p := _tools_pending st in
  let p' := _tools_pending (snd (_process_message_to_client self data st)) in
  p' = p
  \/ (exists message, json_loads data = Some message /\
                      type_of message = Some "response.done" /\ p' = [])
  \/ (exists message k c,
        json_loads data = Some message /\
        type_of message = Some "conversation.item.created" /\
        pending_find k p = None /\ p' = (p ++ [(k, c)])%list).
Proof. apply pending_table_step_aux. Qed.

Lemma distinct_call_ids_app (p : pending_table) (k : json) (c : RTToolCall) :
  distinct_call_ids p = true ->
  pending_find k p = None ->
  distinct_call_ids (p ++ [(k, c)])%list = true.
Proof.
  induction p as [|[k' c'] p IH]; cbn [distinct_call_ids pending_find app existsb];
    [reflexivity|].
  rewrite !andb_true_iff, !negb_true_iff.
  intros [Hk' Hp] Hfind.
  destruct (Py.key_eqb k' k) eqn:E; [discriminate|].
  split; [|now apply IH].
  rewrite existsb_app. cbn [existsb fst]. now rewrite Hk', E.
Qed.

Lemma distinct_call_ids_step (data : string) (st : relay_state) :
  distinct_call_ids (_tools_pending st) = true ->
  distinct_call_ids (_tools_pending (snd (_process_message_to_client self data st)))
  = true.
Proof.
  intros Hd.
  destruct (pending_table_step_aux data st)
    as [-> | [(m & _ & _ & ->) | (m & k & c & _ & _ & Hk & ->)]];
    [exact Hd | reflexivity | now apply distinct_call_ids_app].
Qed.

(** The association list stands for a dictionary: over any sequence of
    upstream frames it never comes to hold two entries under the same call
    identifier, whether the pump runs to the end or stops on an
    exception. *)
Lemma pending_call_ids_stay_distinct
    (target_ws : list WSMessage) (st : relay_state) :
  distinct_call_ids (_tools_pending st) = true ->
  distinct_call_ids (_tools_pending (snd (from_server_to_client self target_ws st)))
  = true.
Proof.
  revert st. induction target_ws as [|[data|] rest IH]; intros st Hd;
    cbn [from_server_to_client]; [exact Hd | | now apply IH].
  unfold bind at 1.
  pose proof (distinct_call_ids_step data st Hd) as Hstep.
  destruct (_process_message_to_client self data st) as [[new_msg|e] st1];
    cbn [snd] in *; [|exact Hstep].
  unfold bind. destruct new_msg as [s|]; cbn [client_send_str ret]; apply IH; exact Hstep.
Qed.

(** What [conclude_response] returns does not depend on the pending
    table: it is decided by the message alone. *)
Lemma conclude_response_result (message : json) (data : string) (st : relay_state) :
  fst (conclude_response message data st) =
  match Py.contains "response" message with
  | Returns true =>
      match Py.with_item message "response"
              (fun response => Py.with_item response "output" strip_function_calls) with
      | Returns r => Returns (Some (if snd r then json_dumps (fst r) else data))
      | Raises e => Raises e
      end
  | Returns false => Returns (Some data)
  | Raises e => Raises e
  end.
Proof.
  unfold conclude_response, bind, lift, get_pending, put_pending, ret,
    server_send_json, server_send_str.
  destruct (0 <? Datatypes.length (_tools_pending st))%nat;
    destruct (Py.contains "response" message) as [[|]|]; try reflexivity;
    destruct (Py.with_item message "response" _) as [[m' []]|]; reflexivity.
Qed.

Lemma to_client_response_done (data : string) (message : json) (st : relay_state) :
  json_loads data = Some message ->
  Py.getitem message "type" = Returns (JStr "response.done") ->
  _process_message_to_client self data st = conclude_response message data st.
Proof.
  intros Hl Hty. rewrite (to_client_typed _ _ _ _ _ Hl Hty). reflexivity.
Qed.

Lemma contains_of_getitem (v x : json) (k : string) :
  Py.getitem v k = Returns x -> Py.contains k v = Returns true.
Proof.
  intros H. destruct (getitem_returns _ _ _ H) as (d & -> & Hd).
  cbn [Py.contains]. now rewrite Hd.
Qed.

Lemma function_call_item_type (output : json) :
  function_call_item output = true ->
  exists ty, Py.getitem output "type" = Returns ty /\
             Py.eq_str ty "function_call" = true.
Proof.
  unfold function_call_item.
  destruct (Py.getitem output "type") as [ty|]; [|discriminate]. eauto.
Qed.

(** X8: a [response.done] whose output list is a single function call, the
    shape of a response that only calls a tool, is forwarded re-serialized
    with an empty output list. *)
Theorem lone_function_call_is_removed
    (data : string) (message response entry : json) (st : relay_state) :
  json_loads data = Some message ->
  Py.getitem message "type" = Returns (JStr "response.done") ->
  Py.getitem message "response" = Returns response ->
  Py.getitem response "output" = Returns (JArr [entry]) ->
  function_call_item entry = true ->
  exists message' response',
    fst (_process_message_to_client self data st)
      = Returns (Some (json_dumps message')) /\
    Py.getitem message' "type" = Returns (JStr "response.done") /\
    Py.getitem message' "response" = Returns response' /\
    Py.getitem response' "output" = Returns (JArr []).
Proof.
  intros Hl Hty Hr Ho Hfc.
  rewrite (to_client_response_done _ _ _ Hl Hty), conclude_response_result.
  rewrite (contains_of_getitem _ _ _ Hr).
  destruct (getitem_returns _ _ _ Hty) as (d & -> & Hd).
  destruct (getitem_returns _ _ _ Ho) as (dr & -> & Hdr).
  destruct (function_call_item_type _ Hfc) as (ty & Het & Hefc).
  unfold Py.with_item. rewrite Hr. cbn [obind]. rewrite Ho. cbn [obind].
  cbn [strip_function_calls List.length pop_loop nth_error].
  rewrite Het. cbn [obind]. rewrite Hefc. cbn [Py.list_pop obind pop_loop Py.setitem snd fst].
  eexists _, _. split; [reflexivity|].
  cbn [Py.getitem].
  rewrite dict_get_set_other by discriminate. rewrite Hd.
  rewrite !dict_get_set_same.
  split; [reflexivity|]. split; [reflexivity|].
  cbn [Py.getitem]. now rewrite dict_get_set_same.
Qed.

Lemma list_pop_in_range (i : nat) (l : list json) :
  (i < List.length l)%nat ->
  exists l', Py.list_pop i l = Returns l' /\
             S (List.length l') = List.length l /\
             forall P, forallb P l = true -> forallb P l' = true.
Proof.
  revert i. induction l as [|x l IH]; intros i Hi; cbn [List.length] in Hi; [lia|].
  destruct i as [|i]; cbn [Py.list_pop].
  - exists l. split; [reflexivity|]. split; [reflexivity|].
    intros P. cbn [forallb]. rewrite andb_true_iff. tauto.
  - destruct (IH i ltac:(lia)) as (l' & -> & Hlen & Hall).
    exists (x :: l'). split; [reflexivity|]. cbn [List.length]. split; [lia|].
    intros P. cbn [forallb]. rewrite !andb_true_iff. intros [? ?]. auto.
Qed.

Lemma list_pop_out_of_range (i : nat) (l : list json) :
  (List.length l <= i)%nat -> Py.list_pop i l = Raises IndexError.
Proof.
  revert i. induction l as [|x l IH]; intros i Hi; [now destruct i|].
  cbn [List.length] in Hi. destruct i as [|i]; [lia|].
  cbn [Py.list_pop]. now rewrite IH by lia.
Qed.

(** On a list of function calls only the loop runs out of range as soon as
    the enumeration index passes the shrinking list. *)
Lemma pop_loop_all_function_calls (idx : nat) :
  forall (out : list json) (i : nat) (replace : bool),
    forallb function_call_item out = true ->
    List.length out = S idx ->
    (0 < i \/ 0 < idx)%nat ->
    pop_loop (S idx) i out replace = Raises IndexError.
Proof.
  induction idx as [|idx IH]; intros out i replace Hall Hlen Hpos.
  - destruct out as [|x [|y out]]; try discriminate.
    cbn [pop_loop nth_error].
    cbn [forallb] in Hall. rewrite andb_true_r in Hall.
    destruct (function_call_item_type _ Hall) as (ty & -> & Hfc).
    cbn [obind]. rewrite Hfc.
    rewrite list_pop_out_of_range; [reflexivity | cbn; lia].
  - cbn [pop_loop].
    destruct (nth_error out (S idx)) as [output|] eqn:Hn.
    2:{ apply nth_error_None in Hn. lia. }
    assert (Hout : function_call_item output = true).
    { rewrite forallb_forall in Hall. apply Hall. eapply nth_error_In; eauto. }
    destruct (function_call_item_type _ Hout) as (ty & -> & Hfc).
    cbn [obind]. rewrite Hfc.
    destruct (Nat.lt_ge_cases i (List.length out)) as [Hlt | Hge].
    + destruct (list_pop_in_range _ _ Hlt) as (out' & -> & Hlen' & Hall').
      cbn [obind]. apply IH; [now apply Hall' | lia | lia].
    + now rewrite list_pop_out_of_range.
Qed.

(** X9: a [response.done] whose output list holds two or more entries, all
    of them function calls, as a response that calls several tools does,
    is never forwarded: the removal loop raises [IndexError]. *)
Theorem function_calls_only_raise_index_error
    (data : string) (message response : json) (out : list json)
    (st : relay_state) :
  json_loads data = Some message ->
  Py.getitem message "type" = Returns (JStr "response.done") ->
  Py.getitem message "response" = Returns response ->
  Py.getitem response "output" = Returns (JArr out) ->
  forallb function_call_item out = true ->
  (2 <= List.length out)%nat ->
  fst (_process_message_to_client self data st) = Raises IndexError.
Proof.
  intros Hl Hty Hr Ho Hall Hlen.
  rewrite (to_client_response_done _ _ _ Hl Hty), conclude_response_result.
  rewrite (contains_of_getitem _ _ _ Hr).
  unfold Py.with_item. rewrite Hr. cbn [obind]. rewrite Ho. cbn [obind].
  cbn [strip_function_calls].
  destruct (List.length out) as [|idx] eqn:E; [lia|].
  rewrite (pop_loop_all_function_calls idx out 0 false Hall E) by lia.
  reflexivity.
Qed.

(** X10: a [response.done] without a [response] is forwarded as the very
    text received; one whose [response] has no [output], or is not an
    object, is not forwarded: the lookup raises. *)
Theorem response_done_without_output
    (data : string) (message : json) (expected : outcome (option string))
    (st : relay_state) :
  json_loads data = Some message ->
  Py.getitem message "type" = Returns (JStr "response.done") ->
  (Py.contains "response" message = Returns false
   /\ expected = Returns (Some data))
  \/ (exists response e,
        Py.getitem message "response" = Returns response /\
        Py.getitem response "output" = Raises e /\
        expected = Raises e) ->
  fst (_process_message_to_client self data st) = expected.
Proof.
  intros Hl Hty Hcase.
  rewrite (to_client_response_done _ _ _ Hl Hty), conclude_response_result.
  destruct Hcase as [[-> ->] | (response & e & Hr & Ho & ->)]; [reflexivity|].
  rewrite (contains_of_getitem _ _ _ Hr).
  unfold Py.with_item. rewrite Hr. cbn [obind]. now rewrite Ho.
Qed.

Lemma to_server_other_frames_aux (data : string) (st : relay_state) :
  match json_loads data with
  | None => _process_message_to_server self data st = (Raises JSONDecodeError, st)
  | Some JNull => _process_message_to_server self data st = (Returns (Some data), st)
  | Some (JObj d) =>
      match Py.dict_get "type" d with
      | None => _process_message_to_server self data st = (Raises KeyError, st)
      | Some ty =>
          Py.eq_str ty "session.update" = false ->
          _process_message_to_server self data st = (Returns (Some data), st)
      end
  | Some _ => _process_message_to_server self data st = (Raises TypeError, st)
  end.
Proof.
  unfold _process_message_to_server, bind, lift, loads.
  destruct (json_loads data) as [[]|]; try reflexivity.
  cbn [Py.getitem].
  destruct (Py.dict_get "type" d) as [ty|]; [|reflexivity].
  now intros ->.
Qed.

(** X11: what the outbound transformer does with anything but a
    [session.update]: text that is not JSON raises [JSONDecodeError], JSON
    [null] and every object of another type are returned for forwarding as
    the very text received, any other value that is not an object raises
    [TypeError], and an object without a [type] raises [KeyError]; the
    relay state is untouched in each case. *)
Theorem to_server_other_frames (data : string) (st : relay_state) :
  match json_loads data with
  | None => _process_message_to_server self data st = (Raises JSONDecodeError, st)
  | Some JNull => _process_message_to_server self data st = (Returns (Some data), st)
  | Some (JObj d) =>
      match Py.dict_get "type" d with
      | None => _process_message_to_server self data st = (Raises KeyError, st)
      | Some ty =>
          Py.eq_str ty "session.update" = false ->
          _process_message_to_server self data st = (Returns (Some data), st)
      end
  | Some _ => _process_message_to_server self data st = (Raises TypeError, st)
  end.
Proof. apply to_server_other_frames_aux. Qed.

Lemma set_if_not_none_not_object (session : json) (k : string) (o : option json) :
  (forall d, session <> JObj d) ->
  set_if_not_none session k o = Returns session
  \/ set_if_not_none session k o = Raises TypeError.
Proof.
  intros Hno. destruct o as [v|]; cbn [set_if_not_none]; [|now left].
  right. destruct session; try reflexivity. now destruct (Hno d).
Qed.

Lemma enforce_session_not_object (session : json) :
  (forall d, session <> JObj d) ->
  enforce_session self session = Raises TypeError.
Proof.
  intros Hno. unfold enforce_session.
  repeat match goal with
  | |- context [set_if_not_none session ?k ?o] =>
      destruct (set_if_not_none_not_object session k o Hno) as [-> | ->];
      cbn [obind]; [|reflexivity]
  end.
  destruct session; try reflexivity. now destruct (Hno d).
Qed.

(** X12: a [session.update] that carries no session object is never
    forwarded.  Without a [session] the lookup raises [KeyError]; with a
    session that is not an object the first write to it raises
    [TypeError], whatever the server has configured. *)
Theorem session_update_without_session_object
    (data : string) (message : json) (st : relay_state) :
  json_loads data = Some message ->
  Py.getitem message "type" = Returns (JStr "session.update") ->
  (forall d, Py.getitem message "session" <> Returns (JObj d)) ->
  _process_message_to_server self data st =
  (Raises match Py.getitem message "session" with
          | Raises e => e
          | Returns _ => TypeError
          end, st).
Proof.
  intros Hl Hty Hno.
  destruct (getitem_returns _ _ _ Hty) as (d & -> & Hd).
  unfold _process_message_to_server, bind, lift.
  rewrite (loads_returns _ _ Hl), Hty. cbn [Py.eq_str String.eqb Ascii.eqb Bool.eqb].
  unfold Py.with_item.
  destruct (Py.getitem (JObj d) "session") as [session|e]; [|reflexivity].
  cbn [obind]. rewrite enforce_session_not_object; [reflexivity|].
  intros d' ->. now apply (Hno d').
Qed.

Lemma dict_set_same_value (k : string) (v : json) (d : list (string * json)) :
  Py.dict_get k d = Some v -> Py.dict_set k v d = d.
Proof.
  induction d as [|[k' v'] d IH]; cbn [Py.dict_get Py.dict_set]; [discriminate|].
  destruct (String.eqb k' k).
  - now intros [= ->].
  - intros H. now rewrite IH.
Qed.

Lemma set_if_not_none_same (d : list (string * json)) (k : string) (o : option json) :
  Py.dict_get k d = match o with Some v => Some v | None => Py.dict_get k d end ->
  set_if_not_none (JObj d) k o = Returns (JObj d).
Proof.
  destruct o as [v|]; cbn [set_if_not_none Py.setitem]; [|reflexivity].
  intros H. now rewrite (dict_set_same_value _ _ _ H).
Qed.

(** The session a [session.update] leaves behind is left as it is by a
    second pass. *)
Lemma enforce_session_fixed_point (session session' : list (string * json)) :
  enforce_session self (JObj session) = Returns (JObj session', tt) ->
  enforce_session self (JObj session') = Returns (JObj session', tt).
Proof.
  intros He.
  destruct (enforce_session_spec self session) as (s & He' & Hk).
  rewrite He in He'. injection He' as <-.
  unfold enforce_session.
  rewrite set_if_not_none_same.
  2:{ rewrite Hk. unfold enforced_value. cbn [String.eqb Ascii.eqb Bool.eqb].
      now destruct (system_message self). }
  cbn [obind]. rewrite set_if_not_none_same.
  2:{ rewrite Hk. unfold enforced_value. cbn [String.eqb Ascii.eqb Bool.eqb].
      now destruct (temperature self). }
  cbn [obind]. rewrite set_if_not_none_same.
  2:{ rewrite Hk. unfold enforced_value. cbn [String.eqb Ascii.eqb Bool.eqb].
      now destruct (max_tokens self). }
  cbn [obind]. rewrite set_if_not_none_same.
  2:{ rewrite Hk. unfold enforced_value. cbn [String.eqb Ascii.eqb Bool.eqb].
      now destruct (disable_audio self). }
  cbn [obind]. rewrite set_if_not_none_same.
  2:{ rewrite Hk. unfold enforced_value. cbn [String.eqb Ascii.eqb Bool.eqb].
      now destruct (voice_choice self). }
  cbn [obind Py.setitem].
  rewrite (dict_set_same_value "tool_choice").
  2:{ rewrite Hk. unfold enforced_value. cbn [String.eqb Ascii.eqb Bool.eqb].
      now destruct (tools self). }
  cbn [obind].
  rewrite (dict_set_same_value "tools").
  2:{ rewrite Hk. reflexivity. }
  reflexivity.
Qed.

(** X13: rewriting a [session.update] is idempotent: a message that reads
    as the one just forwarded is forwarded again exactly as it is. *)
Theorem session_update_rewrite_is_idempotent
    (data : string) (message : json) (session : list (string * json))
    (st : relay_state) :
  json_loads data = Some message ->
  Py.getitem message "type" = Returns (JStr "session.update") ->
  Py.getitem message "session" = Returns (JObj session) ->
  exists message',
    _process_message_to_server self data st
      = (Returns (Some (json_dumps message')), st) /\
    forall (data' : string) (st' : relay_state),
      json_loads data' = Some message' ->
      _process_message_to_server self data' st'
        = (Returns (Some (json_dumps message')), st').
Proof.
  intros Hl Hty Hs.
  destruct (getitem_returns _ _ _ Hty) as (d & -> & Hd).
  destruct (enforce_session_spec self session) as (session' & He & _).
  exists (JObj (Py.dict_set "session" (JObj session') d)). split.
  - unfold _process_message_to_server, bind, lift.
    rewrite (loads_returns _ _ Hl), Hty. cbn [Py.eq_str String.eqb Ascii.eqb Bool.eqb].
    unfold Py.with_item. rewrite Hs. cbn [obind]. rewrite He. reflexivity.
  - intros data' st' Hl'.
    unfold _process_message_to_server, bind, lift.
    rewrite (loads_returns _ _ Hl'). cbn [Py.getitem].
    rewrite dict_get_set_other by discriminate. rewrite Hd.
    cbn [Py.eq_str String.eqb Ascii.eqb Bool.eqb].
    unfold Py.with_item. cbn [Py.getitem]. rewrite dict_get_set_same.
    cbn [obind]. rewrite (enforce_session_fixed_point _ _ He).
    cbn [obind Py.setitem fst ret].
    now rewrite (dict_set_same_value "session") by apply dict_get_set_same.
Qed.

Lemma dict_set_keys (k : string) (v : json) (d : list (string * json)) :
  map fst (Py.dict_set k v d)
  = (map fst d ++ match Py.dict_get k d with Some _ => [] | None => [k] end)%list.
Proof.
  induction d as [|[k' v'] d IH]; cbn [Py.dict_get Py.dict_set map fst app];
    [reflexivity|].
  destruct (String.eqb k' k); cbn [map fst].
  - now rewrite app_nil_r.
  - now rewrite IH.
Qed.

Lemma set_if_not_none_keys (d : list (string * json)) (k : string) (o : option json) :
  exists d' added,
    set_if_not_none (JObj d) k o = Returns (JObj d') /\
    map fst d' = (map fst d ++ added)%list /\
    (forall x, In x added -> x = k).
Proof.
  destruct o as [v|]; cbn [set_if_not_none Py.setitem].
  - eexists _, _. split; [reflexivity|]. split; [apply dict_set_keys|].
    intros x. destruct (Py.dict_get k d); cbn [In]; intuition.
  - exists d, []. split; [reflexivity|]. split; [now rewrite app_nil_r|].
    intros x [].
Qed.

Lemma enforce_session_keys (session : list (string * json)) :
  exists session' added,
    enforce_session self (JObj session) = Returns (JObj session', tt) /\
    map fst session' = (map fst session ++ added)%list /\
    (forall x, In x added -> In x enforced_fields).
Proof.
  unfold enforce_session.
  destruct (set_if_not_none_keys session "instructions"
              (option_map JStr (system_message self))) as (s1 & a1 & -> & K1 & A1).
  cbn [obind].
  destruct (set_if_not_none_keys s1 "temperature"
              (option_map JFloat (temperature self))) as (s2 & a2 & -> & K2 & A2).
  cbn [obind].
  destruct (set_if_not_none_keys s2 "max_response_output_tokens"
              (option_map JInt (max_tokens self))) as (s3 & a3 & -> & K3 & A3).
  cbn [obind].
  destruct (set_if_not_none_keys s3 "disable_audio"
              (option_map JBool (disable_audio self))) as (s4 & a4 & -> & K4 & A4).
  cbn [obind].
  destruct (set_if_not_none_keys s4 "voice"
              (option_map JStr (voice_choice self))) as (s5 & a5 & -> & K5 & A5).
  cbn [obind Py.setitem].
  eexists _, _. split; [reflexivity|]. split.
  - rewrite !dict_set_keys, K5, K4, K3, K2, K1, <- !app_assoc. reflexivity.
  - intros x Hx. unfold enforced_fields. cbn [In].
    rewrite !in_app_iff in Hx.
    destruct Hx as [Hx|[Hx|[Hx|[Hx|[Hx|[Hx|Hx]]]]]].
    + apply A1 in Hx. auto.
    + apply A2 in Hx. auto.
    + apply A3 in Hx. auto 10.
    + apply A4 in Hx. auto 10.
    + apply A5 in Hx. auto 10.
    + destruct (Py.dict_get "tool_choice" s5); cbn [In] in Hx; intuition.
    + destruct (Py.dict_get "tools" _); cbn [In] in Hx; intuition.
Qed.

(** X14: a forwarded [session.update] keeps every field of the client's
    message and of its session, in the client's order; the fields the
    server adds to the session come after them and are among the seven it
    can write. *)
Theorem session_update_keeps_field_order
    (data : string) (d session : list (string * json)) (st : relay_state) :
  json_loads data = Some (JObj d) ->
  Py.dict_get "type" d = Some (JStr "session.update") ->
  Py.dict_get "session" d = Some (JObj session) ->
  exists (d' session' : list (string * json)) (added : list string),
    _process_message_to_server self data st
      = (Returns (Some (json_dumps (JObj d'))), st) /\
    map fst d' = map fst d /\
    Py.dict_get "session" d' = Some (JObj session') /\
    map fst session' = (map fst session ++ added)%list /\
    (forall k, In k added -> In k enforced_fields).
Proof.
  intros Hl Hty Hs.
  destruct (enforce_session_keys session) as (session' & added & He & Hk & Ha).
  exists (Py.dict_set "session" (JObj session') d), session', added.
  split.
  - unfold _process_message_to_server, bind, lift.
    rewrite (loads_returns _ _ Hl). cbn [Py.getitem]. rewrite Hty.
    cbn [Py.eq_str String.eqb Ascii.eqb Bool.eqb].
    unfold Py.with_item. cbn [Py.getitem]. rewrite Hs. cbn [obind].
    rewrite He. reflexivity.
  - split; [|split; [apply dict_get_set_same | split; assumption]].
    rewrite dict_set_keys, Hs. apply app_nil_r.
Qed.

Lemma to_server_unhandled (data : string) (st : relay_state) :
  unhandled_to_server data = true ->
  _process_message_to_server self data st = (Returns (Some data), st).
Proof.
  unfold unhandled_to_server. intros H.
  pose proof (to_server_other_frames_aux data st) as Hf.
  destruct (json_loads data) as [[]|]; try discriminate; [exact Hf|].
  destruct (Py.dict_get "type" d) as [ty|]; [|discriminate].
  apply Hf. now apply negb_true_iff.
Qed.

Lemma to_client_unhandled (data : string) (st : relay_state) :
  unhandled_to_client data = true ->
  _process_message_to_client self data st = (Returns (Some data), st).
Proof.
  unfold unhandled_to_client. intros H.
  unfold _process_message_to_client, bind, lift, loads.
  destruct (json_loads data) as [[]|]; try discriminate; [reflexivity|].
  cbn [Py.getitem].
  destruct (Py.dict_get "type" d) as [ty|]; [|discriminate].
  now apply match_type_unhandled.
Qed.

(** X15: the client-to-upstream pump, on frames none of which is a
    [session.update], writes the text frames upstream exactly as received
    and in the order received, skips the frames that are not text, and runs
    to the end; the client socket and the pending table are untouched. *)
Theorem client_frames_are_forwarded_in_order
    (ws : list WSMessage) (st : relay_state) :
  forallb unhandled_to_server (text_frames ws) = true ->
  from_client_to_server self ws st =
  (Returns tt,
   {| _tools_pending := _tools_pending st;
      server_ws := (server_ws st ++ text_frames ws)%list;
      client_ws := client_ws st |}).
Proof.
  revert st. induction ws as [|[data|] rest IH]; intros st;
    cbn [from_client_to_server text_frames forallb].
  - intros _. rewrite app_nil_r. now destruct st.
  - rewrite andb_true_iff. intros [Hd Hrest].
    unfold bind at 1. rewrite (to_server_unhandled _ _ Hd).
    unfold bind at 1. cbn [server_send_str].
    rewrite (IH _ Hrest). cbn [_tools_pending server_ws client_ws].
    now rewrite <- app_assoc.
  - apply IH.
Qed.

(** X16: the upstream-to-client pump, on frames whose type the inbound
    transformer has no case for, writes the text frames to the client
    exactly as received and in the order received, skips the frames that
    are not text, and runs to the end; nothing is sent upstream and the
    pending table is untouched. *)
Theorem upstream_frames_are_forwarded_in_order
    (target_ws : list WSMessage) (st : relay_state) :
  forallb unhandled_to_client (text_frames target_ws) = true ->
  from_server_to_client self target_ws st =
  (Returns tt,
   {| _tools_pending := _tools_pending st;
      server_ws := server_ws st;
      client_ws := (client_ws st ++ text_frames target_ws)%list |}).
Proof.
  revert st. induction target_ws as [|[data|] rest IH]; intros st;
    cbn [from_server_to_client text_frames forallb].
  - intros _. rewrite app_nil_r. now destruct st.
  - rewrite andb_true_iff. intros [Hd Hrest].
    unfold bind at 1. rewrite (to_client_unhandled _ _ Hd).
    unfold bind at 1. cbn [client_send_str].
    rewrite (IH _ Hrest). cbn [_tools_pending server_ws client_ws].
    now rewrite <- app_assoc.
  - apply IH.
Qed.

(** X17: a text frame that is not JSON ends the pump that reads it:
    [json.loads] raises, the frame is not forwarded and none of the frames
    after it is looked at.  This holds for both directions. *)
Theorem unparsable_frame_ends_the_pump
    (data : string) (rest : list WSMessage) (st : relay_state) :
  json_loads data = None ->
  from_client_to_server self (TEXT data :: rest) st = (Raises JSONDecodeError, st)
  /\ from_server_to_client self (TEXT data :: rest) st = (Raises JSONDecodeError, st).
Proof.
  intros Hl. split.
  - cbn [from_client_to_server]. unfold bind at 1.
    unfold _process_message_to_server, bind, lift, loads. now rewrite Hl.
  - cbn [from_server_to_client]. unfold bind at 1.
    unfold _process_message_to_client, bind, lift, loads. now rewrite Hl.
Qed.

(** X18: however the relay was built and whatever [ws.headers] holds, the
    upstream socket is opened with exactly one header: [api-key] for a key
    credential, [Authorization: Bearer] with the provider's token
    otherwise.  An [x-ms-client-request-id] found in [ws.headers] is never
    among the headers sent upstream, since the dictionary it was put in is
    replaced. *)
Theorem upstream_request_headers
    (bearer_token : Credentials -> outcome string)
    (endpoint deployment : string) (credentials : Credentials)
    (voice : option string) (rtmt : RTMiddleTier) (up : Upstream)
    (ws_headers params headers : list (string * string)) :
  __init__ bearer_token endpoint deployment credentials voice = Returns (rtmt, up) ->
  connection_request bearer_token up ws_headers = Returns (params, headers) ->
  params = [("api-version", "2024-10-01-preview"); ("deployment", deployment)] /\
  header_get "x-ms-client-request-id" headers = None /\
  match credentials with
  | AzureKeyCredential k => headers = [("api-key", k)]
  | _ => exists token, bearer_token credentials = Returns token /\
                       headers = [("Authorization", "Bearer " ++ token)]
  end.
Proof.
  unfold __init__, connection_request.
  destruct credentials as [k|tenant|]; cbn [obind].
  - intros [= <- <-]. cbn. intros [= <- <-]. auto.
  - destruct (bearer_token (AzureDeveloperCliCredential tenant)) as [token|] eqn:Hb;
      [|discriminate].
    cbn [obind]. intros [= <- <-]. cbn.
    rewrite Hb. cbn [obind]. intros [= <- <-].
    split; [reflexivity|]. split; [reflexivity|]. eauto.
  - destruct (bearer_token DefaultAzureCredential) as [token|] eqn:Hb; [|discriminate].
    cbn [obind]. intros [= <- <-]. cbn.
    rewrite Hb. cbn [obind]. intros [= <- <-].
    split; [reflexivity|]. split; [reflexivity|]. eauto.
Qed.

Lemma key_char_line_feed : key_char (ascii_of_nat 10) = false.
Proof. reflexivity. Qed.

Lemma key_tail_spec (s : string) :
  key_tail s = true <->
  exists body, forallb key_char (list_ascii_of_string body) = true /\
               (s = body \/ s = body ++ line_feed).
Proof.
  split.
  - induction s as [|c r IH]; cbn [key_tail].
    + intros _. exists EmptyString. auto.
    + destruct (key_char c) eqn:Hc.
      * intros H. destruct (IH H) as (body & Hb & Hs).
        exists (String c body). cbn [list_ascii_of_string forallb]. rewrite Hc, Hb.
        split; [reflexivity|]. destruct Hs as [-> | ->]; auto.
      * rewrite andb_true_iff, Nat.eqb_eq. intros [Hn Hr].
        destruct r; [|discriminate].
        exists EmptyString. split; [reflexivity|]. right.
        cbn. unfold line_feed. rewrite <- Hn. now rewrite ascii_nat_embedding.
  - intros (body & Hb & Hs). revert s Hs.
    induction body as [|c b IH]; intros s Hs.
    + destruct Hs as [-> | ->]; reflexivity.
    + cbn [list_ascii_of_string forallb] in Hb. apply andb_true_iff in Hb as [Hc Hb].
      destruct Hs as [-> | ->]; cbn [key_tail append]; rewrite Hc; apply IH; auto.
Qed.

Lemma key_pattern_accepts_aux (s : string) :
  KEY_PATTERN_match s = true <->
  exists body, body <> EmptyString /\
               forallb key_char (list_ascii_of_string body) = true /\
               (s = body \/ s = body ++ line_feed).
Proof.
  split.
  - destruct s as [|c r]; cbn [KEY_PATTERN_match]; [discriminate|].
    rewrite andb_true_iff. intros [Hc Hr].
    apply key_tail_spec in Hr as (body & Hb & Hs).
    exists (String c body). split; [discriminate|].
    cbn [list_ascii_of_string forallb]. rewrite Hc, Hb. split; [reflexivity|].
    destruct Hs as [-> | ->]; auto.
  - intros (body & Hne & Hb & Hs).
    destruct body as [|c b]; [congruence|].
    cbn [list_ascii_of_string forallb] in Hb. apply andb_true_iff in Hb as [Hc Hb].
    destruct Hs as [-> | ->]; cbn [KEY_PATTERN_match append]; rewrite Hc;
      apply key_tail_spec; exists b; auto.
Qed.

(** X19: what [KEY_PATTERN] lets through: exactly the non-empty runs of
    letters, digits, [_], [=] and [-], and those runs followed by one line
    feed, since [$] also matches before a line feed that ends the text. *)
Theorem key_pattern_accepts (s : string) :
  KEY_PATTERN_match s = true <->
  exists body, body <> EmptyString /\
               forallb key_char (list_ascii_of_string body) = true /\
               (s = body \/ s = body ++ line_feed).
Proof. apply key_pattern_accepts_aux. Qed.

Lemma list_ascii_of_string_app (a b : string) :
  list_ascii_of_string (a ++ b) = (list_ascii_of_string a ++ list_ascii_of_string b)%list.
Proof. induction a as [|c a IH]; cbn; [reflexivity | now rewrite IH]. Qed.

(** A character the search text of the grounding request can hold. *)
Lemma concat_chars (sources : list string) (ch : ascii) :
  In ch (list_ascii_of_string (String.concat " OR " sources)) ->
  In ch (list_ascii_of_string " OR ")
  \/ exists s, In s sources /\ In ch (list_ascii_of_string s).
Proof.
  induction sources as [|s [|s' rest] IH]; cbn [String.concat].
  - intros [].
  - intros H. right. exists s. cbn [In]. auto.
  - rewrite !list_ascii_of_string_app, !in_app_iff.
    intros [H | [H | H]].
    + right. exists s. cbn [In]. auto.
    + now left.
    + destruct (IH H) as [Hsep | (x & Hx & Hch)]; [now left|].
      right. exists x. split; [now right | exact Hch].
Qed.

(** The comprehension keeps, in order, the candidates [KEY_PATTERN]
    matches; it returns only when every candidate is a string. *)
Lemma accepted_sources_filter (candidates : list json) (kept : list string) :
  accepted_sources candidates = Returns kept ->
  exists names, candidates = map JStr names /\ kept = filter KEY_PATTERN_match names.
Proof.
  revert kept. induction candidates as [|x rest IH]; intros kept; cbn [accepted_sources].
  - intros [= <-]. now exists [].
  - destruct x; try discriminate.
    destruct (accepted_sources rest) as [k|]; [|discriminate]. cbn [obind].
    destruct (IH k eq_refl) as (names & -> & ->).
    intros [= <-]. exists (s :: names). split; [reflexivity|].
    cbn [filter]. now destruct (KEY_PATTERN_match s).
Qed.

Lemma key_pattern_chars (s : string) (ch : ascii) :
  KEY_PATTERN_match s = true ->
  In ch (list_ascii_of_string s) ->
  key_char ch = true \/ ch = ascii_of_nat 10.
Proof.
  intros Hm Hin. apply key_pattern_accepts_aux in Hm as (body & _ & Hb & Hs).
  rewrite forallb_forall in Hb.
  destruct Hs as [-> | ->]; [left; auto|].
  rewrite list_ascii_of_string_app, in_app_iff in Hin.
  destruct Hin as [Hin | [<- | []]]; auto.
Qed.

(** X20: the request [_report_grounding_tool] makes.  The candidates are
    the elements of [args["sources"]], all of them strings; the search
    text is those of them [KEY_PATTERN] matches, in their order, joined
    by " OR ", and [top] is their number; the search goes over the
    identifier field and selects the identifier, title and content
    fields, as a [full] query.  Whatever the model put in the arguments,
    the search text holds nothing but letters, digits, [_], [=], [-],
    spaces and line feeds, so no quote, bracket or other operator of the
    query language gets through. *)
Theorem grounding_request_is_sanitised
    (identifier_field title_field content_field : string) (args : json)
    (request : SearchRequest) :
  grounding_request identifier_field title_field content_field args = Returns request ->
  exists (given : json) (names : list string),
    Py.getitem args "sources" = Returns given /\
    py_iter given = Returns (map JStr names) /\
    search_text request = String.concat " OR " (filter KEY_PATTERN_match names) /\
    top request = List.length (filter KEY_PATTERN_match names) /\
    search_fields request = [identifier_field] /\
    select request = [identifier_field; title_field; content_field] /\
    query_type request = "full" /\
    forall ch, In ch (list_ascii_of_string (search_text request)) ->
               key_char ch = true \/ ch = " "%char \/ ch = ascii_of_nat 10.
Proof.
  unfold grounding_request.
  destruct (Py.getitem args "sources") as [given|]; [|discriminate]. cbn [obind].
  destruct (py_iter given) as [l|] eqn:Hi; [|discriminate]. cbn [obind].
  destruct (accepted_sources l) as [sources|] eqn:Ha; [|discriminate]. cbn [obind].
  intros [= <-]. cbn [search_text top search_fields select query_type].
  destruct (accepted_sources_filter _ _ Ha) as (names & -> & ->).
  exists given, names. split; [reflexivity|]. split; [exact Hi|].
  repeat (split; [reflexivity|]).
  intros ch Hin. apply concat_chars in Hin as [Hsep | (s & Hs & Hch)].
  - cbn in Hsep. destruct Hsep as [<- | [<- | [<- | [<- | []]]]]; auto.
  - apply filter_In in Hs as [_ Hs].
    destruct (key_pattern_chars s ch Hs Hch); auto.
Qed.

Lemma grounding_docs_shape
    (identifier_field title_field content_field : string) (rows docs : list json) :
  grounding_docs identifier_field title_field content_field rows = Returns docs ->
  Forall2 (fun r doc =>
             exists chunk_id title chunk,
               Py.getitem r identifier_field = Returns chunk_id /\
               Py.getitem r title_field = Returns title /\
               Py.getitem r content_field = Returns chunk /\
               doc = JObj [("chunk_id", chunk_id); ("title", title); ("chunk", chunk)])
          rows docs.
Proof.
  revert docs. induction rows as [|r rest IH]; intros docs; cbn [grounding_docs].
  - intros [= <-]. constructor.
  - unfold grounding_doc.
    destruct (Py.getitem r identifier_field) as [a|] eqn:Ha; [|discriminate].
    cbn [obind].
    destruct (Py.getitem r title_field) as [b|] eqn:Hb; [|discriminate]. cbn [obind].
    destruct (Py.getitem r content_field) as [c|] eqn:Hc; [|discriminate]. cbn [obind].
    destruct (grounding_docs identifier_field title_field content_field rest)
      as [ds|]; [|discriminate].
    cbn [obind]. intros [= <-]. constructor; [|now apply IH].
    exists a, b, c. auto.
Qed.

(** X21: whatever [_report_grounding_tool] returns is for the client, never
    for the model: its destination is [TO_CLIENT], and its payload is
    [{"sources": docs}] with one document per row the search answered, in
    the rows' order, each made of the row's identifier, title and content
    fields under the keys [chunk_id], [title] and [chunk]. *)
Theorem grounding_result_is_for_the_client
    (search : SearchRequest -> outcome (list json))
    (identifier_field title_field content_field : string) (args : json)
    (result : ToolResult) :
  _report_grounding_tool search identifier_field title_field content_field args
    = Returns result ->
  destination result = TO_CLIENT /\
  exists request rows docs,
    grounding_request identifier_field title_field content_field args = Returns request /\
    search request = Returns rows /\
    text result = JObj [("sources", JArr docs)] /\
    Forall2 (fun r doc =>
               exists chunk_id title chunk,
                 Py.getitem r identifier_field = Returns chunk_id /\
                 Py.getitem r title_field = Returns title /\
                 Py.getitem r content_field = Returns chunk /\
                 doc = JObj [("chunk_id", chunk_id); ("title", title); ("chunk", chunk)])
            rows docs.
Proof.
  unfold _report_grounding_tool.
  destruct (grounding_request identifier_field title_field content_field args)
    as [request|]; [|discriminate]. cbn [obind].
  destruct (search request) as [rows|] eqn:Hs; [|discriminate]. cbn [obind].
  destruct (grounding_docs identifier_field title_field content_field rows)
    as [docs|] eqn:Hd; [|discriminate]. cbn [obind].
  intros [= <-]. split; [reflexivity|].
  exists request, rows, docs. repeat split; auto.
  now apply grounding_docs_shape.
Qed.

Lemma create_app_returns
    (bearer_token : Credentials -> outcome string) (retrieved : list string)
    (environ : string -> option string) (rtmt : RTMiddleTier) (up : Upstream) :
  create_app bearer_token retrieved environ = Returns (rtmt, up) ->
  rtmt = attach_rag_tools retrieved
           {| tools := [];
              system_message := Some app_system_message;
              temperature := None;
              max_tokens := None;
              disable_audio := None;
              voice_choice :=
                Some (or_default (environ "AZURE_OPENAI_REALTIME_VOICE_CHOICE") "alloy") |}
  /\ environ "AZURE_OPENAI_ENDPOINT" = Some (endpoint up)
  /\ environ "AZURE_OPENAI_REALTIME_DEPLOYMENT" = Some (deployment up)
  /\ key up = match environ "AZURE_OPENAI_API_KEY" with
              | Some (String c r) => Some (String c r)
              | _ => None
              end.
Proof.
  unfold create_app, environ_getitem.
  destruct (environ "AZURE_OPENAI_ENDPOINT") as [e|]; [|discriminate]. cbn [obind].
  destruct (environ "AZURE_OPENAI_REALTIME_DEPLOYMENT") as [d|]; [|discriminate].
  cbn [obind]. unfold __init__, llm_credential.
  destruct (environ "AZURE_OPENAI_API_KEY") as [[|c r]|].
  - destruct (environ "AZURE_TENANT_ID") as [[|c' r']|];
      match goal with |- context [bearer_token ?c] => destruct (bearer_token c) end;
      try discriminate; cbn; intros [= <- <-]; auto.
  - cbn. intros [= <- <-]. auto.
  - destruct (environ "AZURE_TENANT_ID") as [[|c' r']|];
      match goal with |- context [bearer_token ?c] => destruct (bearer_token c) end;
      try discriminate; cbn; intros [= <- <-]; auto.
Qed.

Lemma or_default_not_empty (v : option string) (default : string) :
  default <> EmptyString -> or_default v default <> EmptyString.
Proof. destruct v as [[|c r]|]; cbn; auto; discriminate. Qed.

(** X22: the relay [create_app] builds.  When it is built, its system
    message is the application's text, its voice is the configured one
    and never empty ("alloy" when the variable is unset or empty), its
    only tool is [search], and temperature, token limit and audio flag are
    left unset; it connects with the API key exactly when
    [AZURE_OPENAI_API_KEY] is set and not empty.  With the credential
    objects constructed, it fails to be built only when the endpoint or
    the deployment is missing from the environment ([KeyError]) or when,
    without an API key, fetching the first token fails. *)
Theorem create_app_configuration
    (bearer_token : Credentials -> outcome string) (retrieved : list string)
    (environ : string -> option string) :
  match create_app bearer_token retrieved environ with
  | Returns (rtmt, up) =>
      system_message rtmt = Some app_system_message /\
      voice_choice rtmt
        = Some (or_default (environ "AZURE_OPENAI_REALTIME_VOICE_CHOICE") "alloy") /\
      or_default (environ "AZURE_OPENAI_REALTIME_VOICE_CHOICE") "alloy" <> EmptyString /\
      temperature rtmt = None /\ max_tokens rtmt = None /\ disable_audio rtmt = None /\
      map fst (tools rtmt) = ["search"] /\
      map (fun t => schema (snd t)) (tools rtmt) = [_search_tool_schema] /\
      environ "AZURE_OPENAI_ENDPOINT" = Some (endpoint up) /\
      environ "AZURE_OPENAI_REALTIME_DEPLOYMENT" = Some (deployment up) /\
      key up = match environ "AZURE_OPENAI_API_KEY" with
               | Some (String c r) => Some (String c r)
               | _ => None
               end
  | Raises e =>
      (e = KeyError /\ (environ "AZURE_OPENAI_ENDPOINT" = None
                        \/ environ "AZURE_OPENAI_REALTIME_DEPLOYMENT" = None))
      \/ (truthy (environ "AZURE_OPENAI_API_KEY") = false
          /\ bearer_token (llm_credential environ) = Raises e)
  end.
Proof.
  destruct (create_app bearer_token retrieved environ) as [[rtmt up]|e] eqn:Hc.
  - destruct (create_app_returns _ _ _ _ _ Hc) as (-> & He & Hd & Hk).
    cbn. repeat split; auto.
    apply or_default_not_empty. discriminate.
  - revert Hc. unfold create_app, environ_getitem.
    destruct (environ "AZURE_OPENAI_ENDPOINT") as [ep|]; cbn [obind];
      [|intros [= <-]; auto].
    destruct (environ "AZURE_OPENAI_REALTIME_DEPLOYMENT") as [d|]; cbn [obind];
      [|intros [= <-]; auto].
    unfold __init__, llm_credential.
    destruct (environ "AZURE_OPENAI_API_KEY") as [[|c r]|]; cbn [truthy];
      try discriminate;
      destruct (environ "AZURE_TENANT_ID") as [[|c' r']|];
      match goal with |- context [bearer_token ?c] => destruct (bearer_token c) eqn:Hb end;
      cbn; try discriminate; intros [= <-]; right; auto.
Qed.

(** X23: through the relay [create_app] builds, a client's
    [session.update] goes upstream with the application's system message
    as instructions, the configured voice, [tool_choice] "auto" and the
    search schema as its only tool, whatever the client asked for; the
    temperature, the token limit and the audio flag are the client's
    own. *)
Theorem app_session_update
    (bearer_token : Credentials -> outcome string) (retrieved : list string)
    (environ : string -> option string) (rtmt : RTMiddleTier) (up : Upstream)
    (data : string) (message : json) (session : list (string * json))
    (st : relay_state) :
  create_app bearer_token retrieved environ = Returns (rtmt, up) ->
  json_loads data = Some message ->
  Py.getitem message "type" = Returns (JStr "session.update") ->
  Py.getitem message "session" = Returns (JObj session) ->
  exists (message' : json) (session' : list (string * json)),
    _process_message_to_server rtmt data st
      = (Returns (Some (json_dumps message')), st) /\
    Py.getitem message' "session" = Returns (JObj session') /\
    Py.dict_get "instructions" session' = Some (JStr app_system_message) /\
    Py.dict_get "voice" session'
      = Some (JStr (or_default (environ "AZURE_OPENAI_REALTIME_VOICE_CHOICE") "alloy")) /\
    Py.dict_get "tool_choice" session' = Some (JStr "auto") /\
    Py.dict_get "tools" session' = Some (JArr [_search_tool_schema]) /\
    Py.dict_get "temperature" session' = Py.dict_get "temperature" session /\
    Py.dict_get "max_response_output_tokens" session'
      = Py.dict_get "max_response_output_tokens" session /\
    Py.dict_get "disable_audio" session' = Py.dict_get "disable_audio" session.
Proof.
  intros Hc Hl Hty Hs.
  destruct (create_app_returns _ _ _ _ _ Hc) as (Hr & _).
  destruct (to_server_session_update rtmt _ _ _ st Hl Hty Hs)
    as (d & session' & -> & Hrun & Hk).
  exists (JObj (Py.dict_set "session" (JObj session') d)), session'.
  split; [exact Hrun|].
  cbn [Py.getitem]. rewrite dict_get_set_same. split; [reflexivity|].
  repeat split; rewrite Hk, Hr; reflexivity.
Qed.

Lemma retrieved_docs_shape (py_str : json -> string)
    (clean_html : json -> outcome string) (matches : list json) (docs : list string) :
  retrieved_docs py_str clean_html matches = Returns docs ->
  Forall2 (fun m doc =>
             exists tags id content cleaned,
               Py.getitem m "tags" = Returns tags /\
               Py.getitem tags "id" = Returns id /\
               Py.getitem tags "content" = Returns content /\
               clean_html content = Returns cleaned /\
               doc = "[" ++ py_str id ++ "]: " ++ cleaned ++ passage_end)
          matches docs.
Proof.
  revert docs. induction matches as [|m rest IH]; intros docs; cbn [retrieved_docs].
  - intros [= <-]. constructor.
  - unfold retrieved_doc.
    destruct (Py.getitem m "tags") as [tags|] eqn:Ht; [|discriminate]. cbn [obind].
    destruct (Py.getitem tags "id") as [id|] eqn:Hi; [|discriminate]. cbn [obind].
    destruct (Py.getitem tags "content") as [content|] eqn:Hc; [|discriminate].
    cbn [obind].
    destruct (clean_html content) as [cleaned|] eqn:Hh; [|discriminate]. cbn [obind].
    destruct (retrieved_docs py_str clean_html rest) as [ds|]; [|discriminate].
    cbn [obind]. intros [= <-]. constructor; [|now apply IH].
    exists tags, id, content, cleaned. auto.
Qed.

(** X24: whatever the search handler returns is for the model: its
    destination is [TO_SERVER] and its payload is a list with one passage
    per match of the orchestrator's first data entry, in order, each
    passage being the match's identifier in square brackets, the cleaned
    content, and the closing line.  The handler that answers with those
    passages directly returns the same result. *)
Theorem search_result_is_for_the_model
    (call_orchestrator_stellantis : json -> outcome json)
    (py_str : json -> string) (clean_html : json -> outcome string)
    (args : json) (result : ToolResult) :
  _MAIZE_search_tool_online call_orchestrator_stellantis py_str clean_html args
    = Returns result ->
  destination result = TO_SERVER /\
  exists query response data first container matches passages,
    Py.getitem args "query" = Returns query /\
    call_orchestrator_stellantis query = Returns response /\
    Py.getitem response "data" = Returns data /\
    py_first data = Returns first /\
    Py.getitem first "matches" = Returns container /\
    py_iter container = Returns matches /\
    text result = JArr (map JStr passages) /\
    Forall2 (fun m doc =>
               exists tags id content cleaned,
                 Py.getitem m "tags" = Returns tags /\
                 Py.getitem tags "id" = Returns id /\
                 Py.getitem tags "content" = Returns content /\
                 clean_html content = Returns cleaned /\
                 doc = "[" ++ py_str id ++ "]: " ++ cleaned ++ passage_end)
            matches passages /\
    _MAIZE_search_tool passages args = Returns result.
Proof.
  unfold _MAIZE_search_tool_online, from_orchestrator_response_to_retrieved_docs,
    _MAIZE_search_tool.
  destruct (Py.getitem args "query") as [query|] eqn:Hq; [|discriminate]. cbn [obind].
  destruct (call_orchestrator_stellantis query) as [response|] eqn:Hc; [|discriminate].
  cbn [obind].
  destruct (Py.getitem response "data") as [data|] eqn:Hd; [|discriminate]. cbn [obind].
  destruct (py_first data) as [first|] eqn:Hf; [|discriminate]. cbn [obind].
  destruct (Py.getitem first "matches") as [container|] eqn:Hm; [|discriminate].
  cbn [obind].
  destruct (py_iter container) as [matches|] eqn:Hi; [|discriminate]. cbn [obind].
  destruct (retrieved_docs py_str clean_html matches) as [passages|] eqn:Hr;
    [|discriminate].
  cbn [obind]. intros [= <-]. split; [reflexivity|].
  exists query, response, data, first, container, matches, passages.
  repeat split; auto. now apply retrieved_docs_shape.
Qed.

Lemma register_tool_call_sockets (message : json) (st : relay_state) :
  server_ws (snd (register_tool_call message st)) = server_ws st.
Proof.
  unfold register_tool_call, bind, lift, get_pending, put_pending, ret.
  crunch; cbn; congruence.
Qed.

Lemma dispatch_tool_sockets (message : json) (st : relay_state) :
  exists ls lc,
    server_ws (snd (dispatch_tool self message st)) = (server_ws st ++ ls)%list /\
    client_ws (snd (dispatch_tool self message st)) = (client_ws st ++ lc)%list /\
    (List.length ls <= 1)%nat /\ (List.length lc <= 1)%nat.
Proof.
  unfold dispatch_tool, bind, lift, get_pending, ret,
    server_send_json, client_send_json, server_send_str, client_send_str.
  crunch; cbn [snd server_ws client_ws].
  all: try (exists [], []; rewrite !app_nil_r; cbn; solve [auto with arith]).
  all: try (eexists _, _; split; [reflexivity|]; split; [reflexivity|];
            cbn; solve [auto with arith]).
  all: eexists _, []; split; [reflexivity|];
       split; [now rewrite app_nil_r|]; cbn; auto with arith.
Qed.

Lemma conclude_response_sockets (message : json) (data : string) (st : relay_state) :
  exists ls,
    server_ws (snd (conclude_response message data st)) = (server_ws st ++ ls)%list /\
    (List.length ls <= 1)%nat.
Proof.
  unfold conclude_response, bind, lift, get_pending, put_pending, ret,
    server_send_json, server_send_str.
  crunch; cbn [snd server_ws];
    first [ exists []; rewrite app_nil_r; cbn; auto with arith; fail
          | eexists; split; [reflexivity|]; cbn; auto with arith ].
Qed.

(** What one upstream message adds to the two sockets, the forwarded text
    included. *)
Lemma to_client_step_sockets (data : string) (st : relay_state) :
  let r := _process_message_to_client self data st in
  exists ls lc,
    server_ws (snd r) = (server_ws st ++ ls)%list /\
    client_ws (snd r) = (client_ws st ++ lc)%list /\
    (List.length ls <= 1)%nat /\
    (List.length lc + match fst r with Returns (Some _) => 1 | _ => 0 end <= 1)%nat.
Proof.
  cbv zeta.
  set (Q := fun r : outcome (option string) * relay_state =>
              exists ls lc,
                server_ws (snd r) = (server_ws st ++ ls)%list /\
                client_ws (snd r) = (client_ws st ++ lc)%list /\
                (List.length ls <= 1)%nat /\
                (List.length lc + match fst r with Returns (Some _) => 1 | _ => 0 end
                 <= 1)%nat).
  change (Q (_process_message_to_client self data st)).
  assert (Hquiet : forall o : outcome (option string), Q (o, st)).
  { intros o. exists [], []. rewrite !app_nil_r. cbn [snd fst List.length].
    repeat split; auto. destruct o as [[s|]|]; auto. }
  unfold _process_message_to_client, bind, lift, loads.
  destruct (json_loads data) as [message|]; [|apply Hquiet].
  destruct message; try apply Hquiet.
  cbn [Py.getitem].
  destruct (Py.dict_get "type" d) as [ty|]; [|apply Hquiet].
  unfold match_type_to_client.
  destruct ty as [| | | |ty| |]; try apply Hquiet.
  cbn [Py.eq_str].
  repeat match goal with
  | |- context [String.eqb ty ?lit] =>
      let E := fresh "E" in
      destruct (String.eqb ty lit) eqn:E;
      [apply String.eqb_eq in E; subst ty|]
  end; try apply Hquiet.
  - unfold bind, lift, ret.
    destruct (Py.with_item (JObj d) "session" (redact_session self)); apply Hquiet.
  - unfold bind, lift, ret.
    destruct (item_type_is (JObj d) "function_call") as [[|]|]; apply Hquiet.
  - unfold bind at 1, lift at 1.
    destruct (item_type_is (JObj d) "function_call") as [[|]|]; [| |apply Hquiet].
    + pose proof (register_tool_call_sockets (JObj d) st) as Hs.
      pose proof (register_tool_call_client (JObj d) st) as Hc.
      pose proof (register_tool_call_outcome (JObj d) st) as Ho.
      destruct (register_tool_call (JObj d) st) as [o st1]. cbn [fst snd] in *.
      exists [], []. rewrite !app_nil_r. cbn [fst snd]. repeat split; auto.
      destruct o as [[s|]|]; cbn; auto.
    + unfold bind, lift, ret.
      destruct (item_type_is (JObj d) "function_call_output") as [[|]|]; apply Hquiet.
  - unfold bind, lift.
    destruct (item_type_is (JObj d) "function_call") as [[|]|]; [| apply Hquiet ..].
    destruct (dispatch_tool_sockets (JObj d) st) as (ls & lc & Hs & Hc & Hls & Hlc).
    pose proof (dispatch_tool_outcome self (JObj d) st) as Ho.
    destruct (dispatch_tool self (JObj d) st) as [o st1]. cbn [fst snd] in *.
    exists ls, lc. cbn [fst snd]. repeat split; auto.
    destruct o as [[s|]|]; try lia. exfalso. now apply (Ho s).
  - destruct (conclude_response_sockets (JObj d) data st) as (ls & Hs & Hls).
    pose proof (conclude_response_client (JObj d) data st) as Hc.
    destruct (conclude_response (JObj d) data st) as [o st1]. cbn [fst snd] in *.
    exists ls, []. rewrite app_nil_r. cbn [fst snd]. repeat split; auto.
    cbn [List.length]. destruct o as [[s|]|]; auto.
Qed.

(** X25: the upstream-to-client pump does not amplify: over any sequence of
    upstream frames, each text frame leads to at most one frame written to
    the client (the forwarded text or an extension message, never both)
    and to at most one frame written upstream; what was written before is
    kept. *)
Theorem pump_writes_at_most_one_frame_per_message
    (target_ws : list WSMessage) (st : relay_state) :
  let st' := snd (from_server_to_client self target_ws st) in
  exists ls lc,
    server_ws st' = (server_ws st ++ ls)%list /\
    client_ws st' = (client_ws st ++ lc)%list /\
    (List.length ls <= List.length (text_frames target_ws))%nat /\
    (List.length lc <= List.length (text_frames target_ws))%nat.
Proof.
  cbv zeta. revert st.
  induction target_ws as [|[data|] rest IH]; intros st;
    cbn [from_server_to_client text_frames List.length].
  - exists [], []. rewrite !app_nil_r. auto.
  - unfold bind.
    destruct (to_client_step_sockets data st) as (ls & lc & Hs & Hc & Hls & Hlc).
    destruct (_process_message_to_client self data st) as [[new_msg|e] st1];
      cbn [fst snd] in *.
    + destruct new_msg as [s|].
      * cbn [client_send_str].
        match goal with |- context [from_server_to_client self rest ?x] =>
          destruct (IH x) as (ls' & lc' & Hs' & Hc' & Hls' & Hlc') end.
        cbn [server_ws client_ws] in Hs', Hc'.
        exists (ls ++ ls')%list, (lc ++ s :: lc')%list.
        rewrite Hs', Hc', Hs, Hc, <- !app_assoc, !length_app. cbn [List.length app].
        repeat split; auto; lia.
      * cbn [ret].
        destruct (IH st1) as (ls' & lc' & Hs' & Hc' & Hls' & Hlc').
        exists (ls ++ ls')%list, (lc ++ lc')%list.
        rewrite Hs', Hc', Hs, Hc, <- !app_assoc, !length_app.
        repeat split; auto; lia.
    + exists ls, lc. repeat split; auto; lia.
  - apply IH.
Qed.

Lemma written_nothing (st : relay_state) :
  written st (_tools_pending st) [] [] = st.
Proof. destruct st. unfold written. cbn. now rewrite !app_nil_r. Qed.

Lemma written_twice (st : relay_state) (p p' : pending_table)
    (ls lc ls' lc' : list string) :
  written (written st p ls lc) p' ls' lc' = written st p' (ls ++ ls') (lc ++ lc').
Proof. unfold written. cbn. now rewrite !app_assoc. Qed.

Lemma stateless_lift {A : Type} (o : outcome A) : stateless (lift o).
Proof. now exists o. Qed.

Lemma stateless_ret {A : Type} (a : A) : stateless (ret a).
Proof. now exists (Returns a). Qed.

Lemma stateless_bind {A B : Type} (m : Relay A) (k : A -> Relay B) :
  stateless m -> (forall a, stateless (k a)) -> stateless (bind m k).
Proof.
  intros [[a|e] Hm] Hk.
  - destruct (Hk a) as [o Ho]. exists o. intros st. unfold bind. now rewrite Hm, Ho.
  - exists (Raises e). intros st. unfold bind. now rewrite Hm.
Qed.

Lemma stateless_reads_pending_only {A : Type} (m : Relay A) :
  stateless m -> reads_pending_only m.
Proof.
  intros [o Ho] p. exists o, p, [], []. intros st <-.
  now rewrite Ho, written_nothing.
Qed.

Lemma reads_pending_only_bind {A B : Type} (m : Relay A) (k : A -> Relay B) :
  reads_pending_only m -> (forall a, reads_pending_only (k a)) ->
  reads_pending_only (bind m k).
Proof.
  intros Hm Hk p. destruct (Hm p) as ([a|e] & p1 & ls1 & lc1 & H1).
  - destruct (Hk a p1) as (o & p2 & ls2 & lc2 & H2).
    exists o, p2, (ls1 ++ ls2)%list, (lc1 ++ lc2)%list. intros st Hp.
    unfold bind. rewrite (H1 st Hp), (H2 (written st p1 ls1 lc1) eq_refl).
    now rewrite written_twice.
  - exists (Raises e), p1, ls1, lc1. intros st Hp. unfold bind. now rewrite (H1 st Hp).
Qed.

Lemma reads_pending_only_get : reads_pending_only get_pending.
Proof.
  intros p. exists (Returns p), p, [], []. intros st <-.
  unfold get_pending. now rewrite written_nothing.
Qed.

Lemma reads_pending_only_put (q : pending_table) : reads_pending_only (put_pending q).
Proof.
  intros p. exists (Returns tt), q, [], []. intros st _.
  unfold put_pending, written. now rewrite !app_nil_r.
Qed.

Lemma reads_pending_only_server (s : string) : reads_pending_only (server_send_str s).
Proof.
  intros p. exists (Returns tt), p, [s], []. intros st <-.
  unfold server_send_str, written. now rewrite app_nil_r.
Qed.

Lemma reads_pending_only_client (s : string) : reads_pending_only (client_send_str s).
Proof.
  intros p. exists (Returns tt), p, [], [s]. intros st <-.
  unfold client_send_str, written. now rewrite app_nil_r.
Qed.

Lemma reads_pending_only_ret {A : Type} (a : A) : reads_pending_only (ret a).
Proof. apply stateless_reads_pending_only, stateless_ret. Qed.

Lemma reads_pending_only_lift {A : Type} (o : outcome A) : reads_pending_only (lift o).
Proof. apply stateless_reads_pending_only, stateless_lift. Qed.

Ltac frame :=
  repeat first
    [ apply stateless_ret | apply stateless_lift
    | apply stateless_bind; [|intros ?]
    | apply reads_pending_only_ret | apply reads_pending_only_lift
    | apply reads_pending_only_get | apply reads_pending_only_put
    | apply reads_pending_only_server | apply reads_pending_only_client
    | apply reads_pending_only_bind; [|intros ?]
    | match goal with
      | |- stateless (if ?b then _ else _) => destruct b
      | |- stateless (match ?x with _ => _ end) => destruct x
      | |- reads_pending_only (if ?b then _ else _) => destruct b
      | |- reads_pending_only (match ?x with _ => _ end) => destruct x
      end ].

Lemma to_server_stateless (data : string) :
  stateless (_process_message_to_server self data).
Proof. unfold _process_message_to_server. frame. Qed.



Lemma from_client_to_server_writes (ws : list WSMessage) :
  exists (o : outcome unit) (l : list string),
    (List.length l <= List.length (text_frames ws))%nat /\
    forall st : relay_state,
      from_client_to_server self ws st = (o, written st (_tools_pending st) l []).
Proof.
  induction ws as [|[data|] rest (o & l & Hlen & IH)];
    cbn [from_client_to_server text_frames List.length].
  - exists (Returns tt), []. split; [auto|]. intros st.
    unfold ret. now rewrite written_nothing.
  - destruct (to_server_stateless data) as [[[s|]|e] H1].
    + exists o, (s :: l). split; [cbn; lia|]. intros st.
      unfold bind. rewrite H1. cbn [server_send_str]. rewrite IH.
      unfold written. cbn. now rewrite <- !app_assoc.
    + exists o, l. split; [lia|]. intros st.
      unfold bind. rewrite H1. cbn [ret]. apply IH.
    + exists (Raises e), []. split; [cbn; lia|]. intros st.
      unfold bind. rewrite H1. now rewrite written_nothing.
  - exists o, l. auto.
Qed.

(** X26: the client-to-upstream pump is stateless: what it writes upstream
    and how it ends is fixed by the frames it reads and the server's
    configuration alone.  Whatever the frames, it never touches the
    pending table, writes nothing to the client, and writes at most one
    frame upstream for each text frame. *)
Theorem client_pump_only_writes_upstream (ws : list WSMessage) :
  exists (o : outcome unit) (l : list string),
    (List.length l <= List.length (text_frames ws))%nat /\
    forall st : relay_state,
      from_client_to_server self ws st =
      (o, {| _tools_pending := _tools_pending st;
             server_ws := (server_ws st ++ l)%list;
             client_ws := client_ws st |}).
Proof.
  destruct (from_client_to_server_writes ws) as (o & l & Hlen & H).
  exists o, l. split; [exact Hlen|]. intros st. rewrite H.
  unfold written. now rewrite app_nil_r.
Qed.


End Coverage.

(** ** The transformers on the sample frames *)

#[local] Existing Instance ascii_json.

Lemma session_created_is_redacted_witness :
  exists (message' : json) (session' : list (string * json)),
    _process_message_to_client scenario_relay
        session_created_text fresh_connection
      = (Returns (Some (json_dumps message')), fresh_connection) /\
    Py.getitem message' "type" = Returns (JStr "session.created") /\
    Py.getitem message' "session" = Returns (JObj session') /\
    Py.dict_get "instructions" session' = Some (JStr "") /\
    Py.dict_get "tools" session' = Some (JArr []) /\
    Py.dict_get "tool_choice" session' = Some (JStr "none") /\
    Py.dict_get "max_response_output_tokens" session' = Some JNull /\
    Py.dict_get "voice" session' = Some (Py.of_opt_str (voice_choice scenario_relay)).
Proof.
  eapply (session_created_is_redacted scenario_relay session_created_text).
  - vm_compute. reflexivity.
  - reflexivity.
  - reflexivity.
Defined.

Lemma client_never_sees_function_call_traffic_witness :
  (forall s, fst (_process_message_to_client scenario_relay
                    arguments_delta_text awaiting_c1) <> Returns (Some s)) /\
  exists l,
    client_ws (snd (from_server_to_client scenario_relay
                      ([TEXT item_created_text] ++
                       TEXT arguments_delta_text ::
                       [TEXT call_done_text; TEXT response_done_text])
                      awaiting_c1))
      = (client_ws awaiting_c1 ++ l)%list
    /\ Forall presentable l.
Proof.
  eapply (client_never_sees_function_call_traffic scenario_relay
            arguments_delta_text).
  - vm_compute. reflexivity.
  - reflexivity.
Defined.

Lemma known_call_id_is_not_registered_again_witness :
  _process_message_to_client scenario_relay item_created_text awaiting_c1
    = (Returns None, awaiting_c1).
Proof.
  eapply (known_call_id_is_not_registered_again scenario_relay item_created_text).
  - vm_compute. reflexivity.
  - reflexivity.
  - vm_compute. reflexivity.
  - reflexivity.
  - vm_compute. reflexivity.
  - reflexivity.
Defined.

Lemma response_done_concludes_pending_calls_witness :
  let st' := snd (_process_message_to_client scenario_relay
                    response_done_text awaiting_c1) in
  _tools_pending st' = [] /\
  server_ws st' =
    (server_ws awaiting_c1 ++ match _tools_pending awaiting_c1 with
                              | [] => []
                              | _ :: _ => [json_dumps response_create]
                              end)%list.
Proof.
  eapply (response_done_concludes_pending_calls scenario_relay response_done_text).
  - vm_compute. reflexivity.
  - reflexivity.
Defined.

Lemma response_done_without_function_call_witness :
  fst (_process_message_to_client scenario_relay response_done_text awaiting_c1)
    = Returns (Some response_done_text).
Proof.
  eapply (response_done_without_function_call_is_forwarded_raw scenario_relay
            response_done_text).
  - vm_compute. reflexivity.
  - reflexivity.
  - vm_compute. reflexivity.
  - vm_compute. reflexivity.
  - reflexivity.
Defined.

(** The scenario of the specification: the client asks for temperature 0.9
    and tools ["x"]; with the temperature fixed at 0.2 and the search tool
    registered, what goes upstream has temperature 0.2, the search schema
    as its only tool, and tool_choice "auto". *)
Lemma session_update_scenario :
  exists (message' : json) (session' : list (string * json)),
    _process_message_to_server scenario_relay session_update_text fresh_connection
      = (Returns (Some (json_dumps message')), fresh_connection) /\
    Py.getitem message' "session" = Returns (JObj session') /\
    Py.dict_get "temperature" session' = Some (JFloat two_tenths) /\
    Py.dict_get "tools" session' = Some (JArr [_search_tool_schema]) /\
    Py.dict_get "tool_choice" session' = Some (JStr "auto").
Proof.
  edestruct (session_update_is_overridden scenario_relay session_update_text)
    as (message' & session' & Hrun & _ & Hs & _ & Ht & _ & _ & _ & Htools & Hchoice).
  - vm_compute. reflexivity.
  - reflexivity.
  - vm_compute. reflexivity.
  - exists message', session'.
    split; [exact Hrun|]. split; [exact Hs|].
    split; [apply Ht; reflexivity|]. split; [exact Htools | exact Hchoice].
Defined.

Lemma session_update_keeps_other_fields_witness :
  exists (message' : json) (session' : list (string * json)),
    _process_message_to_server scenario_relay
        session_update_with_client_fields_text fresh_connection
      = (Returns (Some (json_dumps message')), fresh_connection) /\
    Py.getitem message' "session" = Returns (JObj session') /\
    Py.getitem message' "type" = Returns (JStr "session.update") /\
    Py.getitem message' "event_id" = Returns (JStr "e1") /\
    Py.dict_get "modalities" session' = Some (JArr [JStr "text"; JStr "audio"]) /\
    Py.dict_get "instructions" session' = Some (JStr "be brief") /\
    Py.dict_get "max_response_output_tokens" session' = Some (JInt 512) /\
    Py.dict_get "disable_audio" session' = None.
Proof.
  destruct (session_update_keeps_other_fields scenario_relay
              session_update_with_client_fields_text
              (JObj [("type", JStr "session.update");
                     ("event_id", JStr "e1");
                     ("session",
                      JObj [("modalities", JArr [JStr "text"; JStr "audio"]);
                            ("instructions", JStr "be brief");
                            ("max_response_output_tokens", JInt 512);
                            ("temperature",
                             JFloat (AsciiJson.float_of_decimal false 9 (-1)));
                            ("tools", JArr [JStr "x"])])])
              [("modalities", JArr [JStr "text"; JStr "audio"]);
               ("instructions", JStr "be brief");
               ("max_response_output_tokens", JInt 512);
               ("temperature", JFloat (AsciiJson.float_of_decimal false 9 (-1)));
               ("tools", JArr [JStr "x"])]
              fresh_connection)
    as (message' & session' & Hrun & Hs & Hm & Hk & Hi & _ & Hmax & Haudio & _).
  - vm_compute. reflexivity.
  - reflexivity.
  - reflexivity.
  - exists message', session'.
    split; [exact Hrun|]. split; [exact Hs|].
    split; [apply Hm; discriminate|]. split; [apply Hm; discriminate|].
    split.
    { apply Hk. unfold enforced_fields. cbn [In].
      intros H. repeat destruct H as [H|H]; try discriminate H. exact H. }
    split; [apply Hi; reflexivity|].
    split; [apply Hmax; reflexivity | apply Haudio; reflexivity].
Defined.

Lemma function_call_done_witness :
  _process_message_to_client scenario_relay call_done_text awaiting_c1 =
  (Returns None,
   {| _tools_pending := [(JStr "c1", pending_c1)];
      server_ws :=
        [json_dumps (function_call_output (JStr "c1") (to_text search_answer))];
      client_ws := [] |}).
Proof.
  etransitivity.
  - eapply (function_call_done_sends_output_upstream scenario_relay call_done_text
              _ _ (JStr "c1") (JStr "search") (JStr (json_text "{'query':'x'}"))
              pending_c1 _ awaiting_c1).
    + vm_compute. reflexivity.
    + reflexivity.
    + vm_compute. reflexivity.
    + reflexivity.
    + reflexivity.
    + reflexivity.
    + reflexivity.
    + vm_compute. reflexivity.
    + vm_compute. reflexivity.
  - vm_compute. reflexivity.
Defined.

Lemma handler_fault_propagates_witness :
  _process_message_to_client scenario_relay call_done_without_query_text awaiting_c1
    = (Raises KeyError, awaiting_c1) /\
  from_server_to_client scenario_relay
      (TEXT call_done_without_query_text :: [TEXT response_done_text]) awaiting_c1
    = (Raises KeyError, awaiting_c1).
Proof.
  eapply (handler_fault_propagates scenario_relay call_done_without_query_text
            _ _ _ (JStr "c1") (JStr "search") _ pending_c1).
  - vm_compute. reflexivity.
  - reflexivity.
  - vm_compute. reflexivity.
  - reflexivity.
  - reflexivity.
  - reflexivity.
  - reflexivity.
  - vm_compute. reflexivity.
  - vm_compute. reflexivity.
  - vm_compute. reflexivity.
  - reflexivity.
Defined.

(** C1 does not hold for every such message: with the call pending and
    the tool registered, nothing is sent upstream when the arguments of the
    call are not JSON ([json.loads] raises), nor when the handler raises
    (here on arguments without a query). *)
Lemma dispatch_can_send_nothing :
  pending_getitem (_tools_pending awaiting_c1) (JStr "c1") = Returns pending_c1 /\
  (exists tool, tools_getitem (tools scenario_relay) (JStr "search") = Returns tool) /\
  (let r := _process_message_to_client scenario_relay
              call_done_malformed_arguments_text awaiting_c1 in
   fst r = Raises JSONDecodeError /\ server_ws (snd r) = []) /\
  (let r := _process_message_to_client scenario_relay
              call_done_without_query_text awaiting_c1 in
   fst r = Raises KeyError /\ server_ws (snd r) = []).
Proof.
  split; [reflexivity|]. split; [eexists; reflexivity|].
  vm_compute. repeat split.
Qed.

(** C2 does not hold as stated: the search handler raises [KeyError] on
    arguments without a query, and the dispatch neither catches it nor
    turns it into a result for upstream.  The transformer itself raises
    [KeyError], and nothing has been sent. *)
Lemma handler_fault_is_not_caught :
  _MAIZE_search_tool retrieved_passages (JObj []) = Raises KeyError /\
  let r := _process_message_to_client scenario_relay
             call_done_without_query_text awaiting_c1 in
  fst r = Raises KeyError /\ server_ws (snd r) = [] /\ client_ws (snd r) = [].
Proof. vm_compute. repeat split. Qed.

(** C3: the removal loop pops by the position in the reversed
    enumeration, not by the position of the entry.  With a function call
    before a message in the output list of a [response.done] it removes
    the message and forwards the function call; with the function call
    after the message it removes the message and then fails on an index out
    of range. *)
Theorem response_done_removes_the_wrong_entry :
  fst (_process_message_to_client scenario_relay
         response_done_call_first_text fresh_connection)
    = Returns (Some (json_text
        "{'type': 'response.done', 'response': {'output': [{'type': 'function_call', 'call_id': 'c1'}]}}"))
  /\
  fst (_process_message_to_client scenario_relay
         response_done_call_last_text fresh_connection)
    = Raises IndexError.
Proof. vm_compute. split; reflexivity. Qed.

(** The bytes that go upstream when the client sends [session_update_text],
    through the client-to-upstream pump. *)
Example session_update_forwarded_text :
  server_ws (snd (from_client_to_server scenario_relay
                    [TEXT session_update_text] fresh_connection))
  = [json_text "{'type': 'session.update', 'session': {'temperature': 0.2, 'tools': ["
     ++ json_dumps _search_tool_schema
     ++ json_text "], 'voice': 'alloy', 'tool_choice': 'auto'}}"].
Proof. vm_compute. reflexivity. Qed.

(** A tool call from announcement to completion: one function-call output
    for "c1" goes upstream and the client receives nothing.  The dispatch
    does not take the call out of the pending table; it stays there until
    a [response.done] clears the table. *)
Example tool_call_scenario :
  from_server_to_client scenario_relay
    [TEXT (json_text "{'type':'conversation.item.created','previous_item_id':'p0','item':{'type':'function_call','call_id':'c1'}}");
     TEXT call_done_text] fresh_connection
  = (Returns tt,
     {| _tools_pending := [(JStr "c1", pending_c1)];
        server_ws :=
          [json_text "{'type': 'conversation.item.create', 'item': {'type': 'function_call_output', 'call_id': 'c1', 'output': '[\'[kb-7]: Stellantis N.V. was formed in 2021.\']'}}"];
        client_ws := [] |}).
Proof. vm_compute. reflexivity. Qed.

(** ** The further properties on the sample frames *)

Lemma unhandled_type_passes_through_witness :
  _process_message_to_client scenario_relay audio_delta_text awaiting_c1
    = (Returns (Some audio_delta_text), awaiting_c1).
Proof.
  eapply (unhandled_type_passes_through scenario_relay audio_delta_text).
  - vm_compute. reflexivity.
  - reflexivity.
  - reflexivity.
Defined.

Lemma other_items_pass_through_witness :
  _process_message_to_client scenario_relay message_added_text awaiting_c1
    = (Returns (Some message_added_text), awaiting_c1).
Proof.
  eapply (other_items_pass_through scenario_relay message_added_text).
  - vm_compute. reflexivity.
  - reflexivity.
  - left. split; [left; reflexivity | reflexivity].
Defined.

Lemma new_call_id_is_registered_witness :
  _process_message_to_client scenario_relay item_created_text fresh_connection =
  (Returns None,
   {| _tools_pending :=
        (_tools_pending fresh_connection
         ++ [(JStr "c1", {| tool_call_id := JStr "c1"; previous_id := JStr "p9" |})])%list;
      server_ws := server_ws fresh_connection;
      client_ws := client_ws fresh_connection |}).
Proof.
  eapply (new_call_id_is_registered scenario_relay item_created_text).
  - vm_compute. reflexivity.
  - reflexivity.
  - vm_compute. reflexivity.
  - reflexivity.
  - reflexivity.
  - reflexivity.
  - reflexivity.
Defined.

Lemma dispatch_lookup_failures_witness :
  _process_message_to_client scenario_relay call_done_text fresh_connection
    = (Raises KeyError, fresh_connection).
Proof.
  eapply (dispatch_lookup_failures scenario_relay call_done_text).
  - vm_compute. reflexivity.
  - reflexivity.
  - vm_compute. reflexivity.
  - reflexivity.
  - reflexivity.
  - left. reflexivity.
Defined.

Lemma announced_call_is_dispatched_witness :
  from_server_to_client scenario_relay
    [TEXT item_created_text; TEXT call_done_text] fresh_connection =
  (Returns tt,
   {| _tools_pending :=
        (_tools_pending fresh_connection
         ++ [(JStr "c1", {| tool_call_id := JStr "c1"; previous_id := JStr "p9" |})])%list;
      server_ws :=
        (server_ws fresh_connection ++
         [json_dumps
            (function_call_output (JStr "c1")
               match destination search_answer with
               | TO_SERVER => to_text search_answer
               | TO_CLIENT => EmptyString
               end)])%list;
      client_ws :=
        (client_ws fresh_connection ++
         match destination search_answer with
         | TO_SERVER => []
         | TO_CLIENT =>
             [json_dumps
                (middle_tier_tool_response (JStr "p9") (JStr "search")
                   (to_text search_answer))]
         end)%list |}).
Proof.
  eapply (announced_call_is_dispatched scenario_relay
            item_created_text call_done_text _ "c1").
  - vm_compute. reflexivity.
  - reflexivity.
  - vm_compute. reflexivity.
  - reflexivity.
  - reflexivity.
  - reflexivity.
  - reflexivity.
  - vm_compute. reflexivity.
  - reflexivity.
  - vm_compute. reflexivity.
  - reflexivity.
  - reflexivity.
  - reflexivity.
  - vm_compute. reflexivity.
  - vm_compute. reflexivity.
  - vm_compute. reflexivity.
  - reflexivity.
Defined.

Lemma lone_function_call_is_removed_witness :
  exists message' response',
    fst (_process_message_to_client scenario_relay
           response_done_lone_call_text awaiting_c1)
      = Returns (Some (json_dumps message')) /\
    Py.getitem message' "type" = Returns (JStr "response.done") /\
    Py.getitem message' "response" = Returns response' /\
    Py.getitem response' "output" = Returns (JArr []).
Proof.
  eapply (lone_function_call_is_removed scenario_relay response_done_lone_call_text).
  - vm_compute. reflexivity.
  - reflexivity.
  - vm_compute. reflexivity.
  - vm_compute. reflexivity.
  - reflexivity.
Defined.

Lemma function_calls_only_raise_index_error_witness :
  fst (_process_message_to_client scenario_relay
         response_done_two_calls_text awaiting_c1)
    = Raises IndexError.
Proof.
  eapply (function_calls_only_raise_index_error scenario_relay
            response_done_two_calls_text).
  - vm_compute. reflexivity.
  - reflexivity.
  - vm_compute. reflexivity.
  - vm_compute. reflexivity.
  - reflexivity.
  - cbn. lia.
Defined.

Lemma response_done_without_output_witness :
  fst (_process_message_to_client scenario_relay response_done_bare_text awaiting_c1)
    = Returns (Some response_done_bare_text).
Proof.
  eapply (response_done_without_output scenario_relay response_done_bare_text).
  - vm_compute. reflexivity.
  - reflexivity.
  - left. split; reflexivity.
Defined.

Lemma session_update_without_session_object_witness :
  _process_message_to_server scenario_relay session_update_bare_text fresh_connection =
  (Raises match Py.getitem (JObj [("type", JStr "session.update")]) "session" with
          | Raises e => e
          | Returns _ => TypeError
          end, fresh_connection).
Proof.
  eapply (session_update_without_session_object scenario_relay
            session_update_bare_text).
  - vm_compute. reflexivity.
  - reflexivity.
  - intros d. discriminate.
Defined.

Lemma session_update_rewrite_is_idempotent_witness :
  exists message',
    _process_message_to_server scenario_relay session_update_text fresh_connection
      = (Returns (Some (json_dumps message')), fresh_connection) /\
    forall (data' : string) (st' : relay_state),
      json_loads data' = Some message' ->
      _process_message_to_server scenario_relay data' st'
        = (Returns (Some (json_dumps message')), st').
Proof.
  eapply (session_update_rewrite_is_idempotent scenario_relay session_update_text).
  - vm_compute. reflexivity.
  - reflexivity.
  - vm_compute. reflexivity.
Defined.

Lemma session_update_keeps_field_order_witness :
  exists (d' session' : list (string * json)) (added : list string),
    _process_message_to_server scenario_relay session_update_text fresh_connection
      = (Returns (Some (json_dumps (JObj d'))), fresh_connection) /\
    map fst d' = ["type"; "session"] /\
    Py.dict_get "session" d' = Some (JObj session') /\
    map fst session' = (["temperature"; "tools"] ++ added)%list /\
    (forall k, In k added -> In k enforced_fields).
Proof.
  eapply (session_update_keeps_field_order scenario_relay session_update_text
            [("type", JStr "session.update");
             ("session",
              JObj [("temperature", JFloat (AsciiJson.float_of_decimal false 9 (-1)));
                    ("tools", JArr [JStr "x"])])]
            [("temperature", JFloat (AsciiJson.float_of_decimal false 9 (-1)));
             ("tools", JArr [JStr "x"])]).
  - vm_compute. reflexivity.
  - reflexivity.
  - reflexivity.
Defined.

Lemma client_frames_are_forwarded_in_order_witness :
  from_client_to_server scenario_relay
    [TEXT audio_append_text; NOT_TEXT; TEXT audio_append_text] fresh_connection =
  (Returns tt,
   {| _tools_pending := _tools_pending fresh_connection;
      server_ws :=
        (server_ws fresh_connection
         ++ text_frames [TEXT audio_append_text; NOT_TEXT; TEXT audio_append_text])%list;
      client_ws := client_ws fresh_connection |}).
Proof.
  apply (client_frames_are_forwarded_in_order scenario_relay). vm_compute. reflexivity.
Defined.

Lemma upstream_frames_are_forwarded_in_order_witness :
  from_server_to_client scenario_relay
    [TEXT audio_delta_text; NOT_TEXT; TEXT audio_delta_text] awaiting_c1 =
  (Returns tt,
   {| _tools_pending := _tools_pending awaiting_c1;
      server_ws := server_ws awaiting_c1;
      client_ws :=
        (client_ws awaiting_c1
         ++ text_frames [TEXT audio_delta_text; NOT_TEXT; TEXT audio_delta_text])%list |}).
Proof.
  apply (upstream_frames_are_forwarded_in_order scenario_relay). vm_compute. reflexivity.
Defined.

Lemma unparsable_frame_ends_the_pump_witness :
  from_client_to_server scenario_relay
    (TEXT "{" :: [TEXT audio_append_text]) fresh_connection
    = (Raises JSONDecodeError, fresh_connection)
  /\ from_server_to_client scenario_relay
       (TEXT "{" :: [TEXT audio_append_text]) fresh_connection
     = (Raises JSONDecodeError, fresh_connection).
Proof.
  apply (unparsable_frame_ends_the_pump scenario_relay). reflexivity.
Defined.

Lemma upstream_request_headers_witness :
  [("api-version", "2024-10-01-preview"); ("deployment", "realtime")]
    = [("api-version", "2024-10-01-preview"); ("deployment", "realtime")] /\
  header_get "x-ms-client-request-id" [("api-key", "key-0")] = None /\
  [("api-key", "key-0")] = [("api-key", "key-0")].
Proof.
  eapply (upstream_request_headers fixed_bearer_token "https://relay.example"
            "realtime" (AzureKeyCredential "key-0") (Some "alloy") _ _
            [("X-MS-Client-Request-Id", "req-1")]).
  - reflexivity.
  - reflexivity.
Defined.

Lemma grounding_request_is_sanitised_witness :
  exists (given : json) (names : list string),
    Py.getitem grounding_args "sources" = Returns given /\
    py_iter given = Returns (map JStr names) /\
    "kb-7 OR chunk_9=" = String.concat " OR " (filter KEY_PATTERN_match names) /\
    2 = List.length (filter KEY_PATTERN_match names) /\
    ["chunk_id"] = ["chunk_id"] /\
    ["chunk_id"; "title"; "chunk"] = ["chunk_id"; "title"; "chunk"] /\
    "full" = "full" /\
    forall ch, In ch (list_ascii_of_string "kb-7 OR chunk_9=") ->
               key_char ch = true \/ ch = " "%char \/ ch = ascii_of_nat 10.
Proof.
  eapply (grounding_request_is_sanitised "chunk_id" "title" "chunk" grounding_args
            {| search_text := "kb-7 OR chunk_9=";
               search_fields := ["chunk_id"];
               select := ["chunk_id"; "title"; "chunk"];
               top := 2;
               query_type := "full" |}).
  reflexivity.
Defined.

Lemma grounding_result_is_for_the_client_witness :
  destination
    {| text := JObj [("sources",
                      JArr [JObj [("chunk_id", JStr "kb-7");
                                  ("title", JStr "History");
                                  ("chunk", JStr "Stellantis N.V. was formed in 2021.")]])];
       destination := TO_CLIENT |} = TO_CLIENT /\
  exists request rows docs,
    grounding_request "chunk_id" "title" "chunk" grounding_args = Returns request /\
    one_row_search request = Returns rows /\
    text
      {| text := JObj [("sources",
                        JArr [JObj [("chunk_id", JStr "kb-7");
                                    ("title", JStr "History");
                                    ("chunk", JStr "Stellantis N.V. was formed in 2021.")]])];
         destination := TO_CLIENT |}
      = JObj [("sources", JArr docs)] /\
    Forall2 (fun r doc =>
               exists chunk_id title chunk,
                 Py.getitem r "chunk_id" = Returns chunk_id /\
                 Py.getitem r "title" = Returns title /\
                 Py.getitem r "chunk" = Returns chunk /\
                 doc = JObj [("chunk_id", chunk_id); ("title", title); ("chunk", chunk)])
            rows docs.
Proof.
  eapply (grounding_result_is_for_the_client one_row_search "chunk_id" "title" "chunk"
            grounding_args).
  reflexivity.
Defined.

Lemma app_session_update_witness :
  exists (message' : json) (session' : list (string * json)),
    _process_message_to_server
        (attach_rag_tools retrieved_passages
           {| tools := [];
              system_message := Some app_system_message;
              temperature := None;
              max_tokens := None;
              disable_audio := None;
              voice_choice := Some "alloy" |})
        session_update_text fresh_connection
      = (Returns (Some (json_dumps message')), fresh_connection) /\
    Py.getitem message' "session" = Returns (JObj session') /\
    Py.dict_get "instructions" session' = Some (JStr app_system_message) /\
    Py.dict_get "voice" session'
      = Some (JStr (or_default (sample_environ "AZURE_OPENAI_REALTIME_VOICE_CHOICE") "alloy")) /\
    Py.dict_get "tool_choice" session' = Some (JStr "auto") /\
    Py.dict_get "tools" session' = Some (JArr [_search_tool_schema]) /\
    Py.dict_get "temperature" session'
      = Py.dict_get "temperature"
          [("temperature", JFloat (AsciiJson.float_of_decimal false 9 (-1)));
           ("tools", JArr [JStr "x"])] /\
    Py.dict_get "max_response_output_tokens" session'
      = Py.dict_get "max_response_output_tokens"
          [("temperature", JFloat (AsciiJson.float_of_decimal false 9 (-1)));
           ("tools", JArr [JStr "x"])] /\
    Py.dict_get "disable_audio" session'
      = Py.dict_get "disable_audio"
          [("temperature", JFloat (AsciiJson.float_of_decimal false 9 (-1)));
           ("tools", JArr [JStr "x"])].
Proof.
  eapply (app_session_update fixed_bearer_token retrieved_passages sample_environ
            _ _ session_update_text).
  - reflexivity.
  - vm_compute. reflexivity.
  - reflexivity.
  - vm_compute. reflexivity.
Defined.

Lemma search_result_is_for_the_model_witness :
  destination
    {| text := JArr [JStr ("[kb-7]: Stellantis N.V. was formed in 2021." ++ passage_end)];
       destination := TO_SERVER |} = TO_SERVER /\
  exists query response data first container matches passages,
    Py.getitem (JObj [("query", JStr "x")]) "query" = Returns query /\
    one_match_orchestrator query = Returns response /\
    Py.getitem response "data" = Returns data /\
    py_first data = Returns first /\
    Py.getitem first "matches" = Returns container /\
    py_iter container = Returns matches /\
    text
      {| text := JArr [JStr ("[kb-7]: Stellantis N.V. was formed in 2021." ++ passage_end)];
         destination := TO_SERVER |}
      = JArr (map JStr passages) /\
    Forall2 (fun m doc =>
               exists tags id content cleaned,
                 Py.getitem m "tags" = Returns tags /\
                 Py.getitem tags "id" = Returns id /\
                 Py.getitem tags "content" = Returns content /\
                 clean_plain_text content = Returns cleaned /\
                 doc = "[" ++ format_text id ++ "]: " ++ cleaned ++ passage_end)
            matches passages /\
    _MAIZE_search_tool passages (JObj [("query", JStr "x")])
      = Returns
          {| text := JArr [JStr ("[kb-7]: Stellantis N.V. was formed in 2021."
                                 ++ passage_end)];
             destination := TO_SERVER |}.
Proof.
  eapply (search_result_is_for_the_model one_match_orchestrator format_text
            clean_plain_text (JObj [("query", JStr "x")])).
  reflexivity.
Defined.

